(** * ETL jobs of the DataEngineering repository: a shallow embedding

    The Python scripts are embedded as pure functions.  Dictionaries are
    [gmap string _], Python values are the inductive [pyval], exceptions are
    the [Raise] branch of [result], and every external collaborator (DynamoDB,
    MySQL, the SurveyMonkey API, Slack, the fuzzy scorer) is either an explicit
    oracle argument or a component of the threaded state. *)

From Stdlib Require Import ZArith List Bool Lia PrimFloat SpecFloat FloatOps.
From stdpp Require Import base option gmap strings list fin_maps pretty sorting.
Import ListNotations.

Local Open Scope Z_scope.
Local Open Scope string_scope.
Local Open Scope list_scope.

(** ** Python values, exceptions and results *)

Module Py.

(** The values that flow through the scripts: [None], booleans, integers,
    strings, [datetime] objects (by their epoch second), lists and
    dictionaries (JSON objects, as association lists in document order). *)
#[warnings="-register-all"]
Inductive pyval : Type :=
| PNone
| PBool (b : bool)
| PInt (z : Z)
| PStr (s : string)
| PDatetime (epoch : Z)
| PList (l : list pyval)
| PDict (d : list (string * pyval)).

Inductive exn : Type :=
| KeyError (k : string)
| TypeError
| ValueError
| IndexError
| SystemExit
| ConnectionError
| InvalidRequestError
| RemoteError
| AttributeError
| OverflowError.

Inductive result (A : Type) : Type :=
| Ok (a : A)
| Raise (e : exn).
Arguments Ok {A} a.
Arguments Raise {A} e.

Definition rbind {A B} (r : result A) (k : A -> result B) : result B :=
  match r with Ok a => k a | Raise e => Raise e end.

Notation "'let?' x := r 'in' k" := (rbind r (fun x => k))
  (at level 10, x name, r at level 100, k at level 200).

#[global]
Instance result_fmap : FMap result :=
  fun A B f r => match r with Ok a => Ok (f a) | Raise e => Raise e end.

(** A list comprehension whose element expression may raise. *)
Fixpoint mapM {A B} (f : A -> result B) (l : list A) : result (list B) :=
  match l with
  | [] => Ok []
  | a :: l' => let? b := f a in let? bs := mapM f l' in Ok (b :: bs)
  end.

(** Code that reads and writes the state [S] and may raise. *)
Definition prog (S A : Type) : Type := S -> result A * S.

Definition ret {S A} (a : A) : prog S A := fun s => (Ok a, s).
Definition raise {S A} (e : exn) : prog S A := fun s => (Raise e, s).
Definition lift {S A} (r : result A) : prog S A := fun s => (r, s).
Definition bind {S A B} (p : prog S A) (k : A -> prog S B) : prog S B :=
  fun s => match p s with
           | (Ok a, s') => k a s'
           | (Raise e, s') => (Raise e, s')
           end.

Notation "'let!' x := p 'in' k" := (bind p (fun x => k))
  (at level 10, x name, p at level 100, k at level 200).

(** [try: p  except Exception: pass] for a [p] that returns nothing. *)
Definition try_pass {S} (p : prog S unit) : prog S unit :=
  fun s => match p s with
           | (Ok u, s') => (Ok u, s')
           | (Raise _, s') => (Ok tt, s')
           end.

(** Python truthiness, as used by [if max_date:] and [if not data:]. *)
Definition truthy (v : pyval) : bool :=
  match v with
  | PNone => false
  | PBool b => b
  | PInt z => negb (Z.eqb z 0)
  | PStr s => negb (String.eqb s "")
  | PDatetime _ => true
  | PList l => match l with [] => false | _ => true end
  | PDict d => match d with [] => false | _ => true end
  end.

Fixpoint assoc (k : string) (d : list (string * pyval)) : option pyval :=
  match d with
  | [] => None
  | (k', v) :: d' => if String.eqb k k' then Some v else assoc k d'
  end.

(** [v[k]] for a string key. *)
Definition getitem (v : pyval) (k : string) : result pyval :=
  match v with
  | PDict d => match assoc k d with Some x => Ok x | None => Raise (KeyError k) end
  | _ => Raise TypeError
  end.

(** [v == s] for a string literal [s]. *)
Definition is_str (v : pyval) (s : string) : bool :=
  match v with PStr s' => String.eqb s' s | _ => false end.

(** [v == 1]; Python's [True] equals [1]. *)
Definition is_one (v : pyval) : bool :=
  match v with PInt z => Z.eqb z 1 | PBool b => b | _ => false end.

(** [dict(pairs)] and dict comprehensions: a later pair with the same key
    replaces the earlier one. *)
Definition py_dict {V} (pairs : list (string * V)) : gmap string V :=
  foldl (fun d kv => <[kv.1 := kv.2]> d) ∅ pairs.

(** [zip(keys, values)]. *)
Fixpoint zip {A B} (l1 : list A) (l2 : list B) : list (A * B) :=
  match l1, l2 with
  | a :: l1', b :: l2' => (a, b) :: zip l1' l2'
  | _, _ => []
  end.

(** [l[0]]. *)
Definition index0 {A} (l : list A) : result A :=
  match l with a :: _ => Ok a | [] => Raise IndexError end.

(** A flat record: a dict with string keys. *)
Abbreviation record := (gmap string pyval).

End Py.
Import Py.

(** ** stripe_events_dw_salesforce.py: get_all_dynamo_data *)

Module Dynamo.

Record response (Item Key : Type) : Type :=
  { Items : list Item; LastEvaluatedKey : option Key }.
Arguments Items {Item Key} r.
Arguments LastEvaluatedKey {Item Key} r.

Section Scan.
Context {Item JItem Key : Type}.
(** [table.scan()] is [scan None]; [table.scan(ExclusiveStartKey=k)] is
    [scan (Some k)]. *)
Variable scan : option Key -> response Item Key.
(** [json.loads(json.dumps(i, cls=DecimalEncoder))]. *)
Variable decode : Item -> JItem.

(** The [while 'LastEvaluatedKey' in response] loop.  The remote table
    decides how often it runs, hence the fuel. *)
Fixpoint scan_rest (fuel : nat) (resp : response Item Key) (all_pages : list JItem)
  : option (list JItem) :=
  match LastEvaluatedKey resp with
  | None => Some all_pages
  | Some k =>
      match fuel with
      | O => None
      | S fuel' =>
          let resp' := scan (Some k) in
          scan_rest fuel' resp' (all_pages ++ map decode (Items resp'))
      end
  end.

Definition get_all_dynamo_data (fuel : nat) : option (list JItem) :=
  let resp := scan None in
  let page_1 := map decode (Items resp) in
  match scan_rest fuel resp [] with
  | Some all_pages =>
      Some (match all_pages with [] => page_1 | _ => all_pages end)
  | None => None
  end.

(** [follows r rest]: the responses the table sends after [r], in order,
    up to the one that carries no [LastEvaluatedKey]. *)
Inductive follows : response Item Key -> list (response Item Key) -> Prop :=
| follows_last r : LastEvaluatedKey r = None -> follows r []
| follows_next r k rest :
    LastEvaluatedKey r = Some k ->
    follows (scan (Some k)) rest ->
    follows r (scan (Some k) :: rest).

(** The decoded items of the second and later pages, in scan order. *)
Definition later_items (rest : list (response Item Key)) : list JItem :=
  concat (map (fun r => map decode (Items r)) rest).

End Scan.

End Dynamo.

(** ** utils/helpers.py: class MySQLRpts *)

Module Helpers.

(** The statements the scripts send.  [SqlText] is a literal of the source;
    [SqlInsert] is what [create_stmt] builds; [SqlSelectFromUnixtime ts] is
    ["select from_unixtime(%s)" % ts]. *)
Inductive sql : Type :=
| SqlText (text : string)
| SqlInsert (insert_type table : string) (col_list : list string)
| SqlSelectFromUnixtime (ts : Z).

Fixpoint join (sep : string) (l : list string) : string :=
  match l with
  | [] => ""
  | [s] => s
  | s :: l' => s +:+ sep +:+ join sep l'
  end.

(** The text [create_stmt] returns, and the text of the other statements. *)
Definition sql_text (q : sql) : string :=
  match q with
  | SqlText t => t
  | SqlInsert insert_type table col_list =>
      insert_type +:+ " INTO " +:+ table +:+ " (" +:+ join ", " col_list
        +:+ ") VALUES (" +:+ join ", " (map (fun c => "%(" +:+ c +:+ ")s") col_list) +:+ ")"
  | SqlSelectFromUnixtime ts => "select from_unixtime(" +:+ pretty ts +:+ ")"
  end.

Definition create_stmt (table insert_type : string) (col_list : list string) : sql :=
  SqlInsert insert_type table col_list.

(** One [cursor.execute] or [cursor.executemany] with its arguments. *)
Inductive call : Type :=
| Execute (stmt : sql) (params : list pyval)
| ExecuteMany (stmt : sql) (rows : list record).

(** What the server does to the next statement. *)
Inductive fault : Type := NoFault | ExecuteFails | CommitFails.

(** The MySQL server as the scripts see it: the calls that were executed and
    committed, oldest first, and the faults it will answer the coming calls
    with (none once the list is used up). *)
Record mysql : Type := { committed : list call; upcoming : list fault }.

Definition next_fault : prog mysql fault :=
  fun w => match upcoming w with
           | [] => (Ok NoFault, w)
           | f :: fs => (Ok f, {| committed := committed w; upcoming := fs |})
           end.

(** [self.cursor.execute(stmt, data); self.connection.commit()]: both return,
    or one of them raises and nothing is committed. *)
Definition execute_commit (c : call) : prog mysql unit :=
  let! f := next_fault in
  match f with
  | NoFault =>
      fun w => (Ok tt, {| committed := committed w ++ [c]; upcoming := upcoming w |})
  | ExecuteFails | CommitFails => raise RemoteError
  end.

Definition audit_stmt_dated : sql :=
  SqlText "INSERT INTO sn.etl_audit_log VALUES (null, %s,%s, %s, %s, null)".
Definition audit_stmt_undated : sql :=
  SqlText "INSERT INTO sn.etl_audit_log VALUES (null, %s, %s, %s, null, null)".

Section MySQLRpts.
(** [datetime.strftime(d, '%Y-%m-%d %H:%M:%S')]. *)
Variable strftime : Z -> string.
(** [dateutil.parser.parse(s).replace(tzinfo=None)]; [None] when it raises. *)
Variable dateutil_parse : string -> option Z.
(** [local.fromutc(d).replace(tzinfo=None)] for America/Los_Angeles. *)
Variable fromutc : Z -> Z.
(** The server's FROM_UNIXTIME: a datetime, or NULL. *)
Variable from_unixtime : Z -> pyval.
(** The rows the server returns for the text of any other statement, with
    the column names of [cursor.description]. *)
Variable query_rows : string -> result (list (list (string * pyval))).

Definition convert_datetime (dt : pyval) (for_insert convert_UTC : bool) : result pyval :=
  let? parsed_date :=
    match dt with
    | PDatetime d => Ok d
    | PStr s => match dateutil_parse s with Some d => Ok d | None => Raise ValueError end
    | _ => Raise TypeError
    end in
  if negb for_insert then
    if negb convert_UTC then Ok (PStr (strftime parsed_date))
    else Ok (PStr (strftime (fromutc parsed_date)))
  else
    if negb convert_UTC then Ok (PDatetime parsed_date)
    else Ok (PDatetime (fromutc parsed_date)).

Definition etl_log (etl_process source target : string) (max_date : pyval)
  : prog mysql unit :=
  let! c := lift
    (if truthy max_date then
       let? d := convert_datetime max_date true false in
       Ok (Execute audit_stmt_dated [PStr etl_process; PStr source; PStr target; d])
     else
       Ok (Execute audit_stmt_undated [PStr etl_process; PStr source; PStr target])) in
  try_pass (execute_commit c).

Definition exec_simple (stmt : sql) : prog mysql unit :=
  try_pass (execute_commit (Execute stmt [])).

Definition insert_data (stmt : sql) (data : list record) : prog mysql unit :=
  try_pass (execute_commit (ExecuteMany stmt data)).

(** [self.cursor.fetchall()] with the headers of [self.cursor.description]. *)
Definition fetchall (stmt : sql) : result (list (list (string * pyval))) :=
  match stmt with
  | SqlSelectFromUnixtime ts =>
      Ok [[("from_unixtime(" +:+ pretty ts +:+ ")", from_unixtime ts)]]
  | SqlText t => query_rows t
  | SqlInsert _ _ _ => Raise TypeError
  end.

Definition dictify (sql_output : list (list (string * pyval))) : list record :=
  map (fun row =>
         (fun v => match v with PDatetime d => PStr (strftime d) | _ => v end)
           <$> py_dict row)
      sql_output.

(** The method returns [None] when anything in its [try] block raises. *)
Definition get_select_data (stmt : sql) : prog mysql (option (list record)) :=
  fun w =>
    match (let! _ := execute_commit (Execute stmt []) in
           lift (let? select_rows := fetchall stmt in Ok (dictify select_rows))) w with
    | (Ok select_output, w') => (Ok (Some select_output), w')
    | (Raise _, w') => (Ok None, w')
    end.

End MySQLRpts.

(** *** class SalesforceRpts: the bulk writes *)

(** The calls [api_update], [api_upsert] and [api_insert] make on the bulk
    API object. *)
Inductive bulk_call : Type :=
| CreateJob (operation sf_object : string) (upsert_key : option string)
| PostBatch (rows : list record)
| WaitForBatch
| CloseJob.

(** The bulk API as the methods see it: the calls made, oldest first, and
    for each coming call whether it raises (none does once the list is used
    up). *)
Record bulk : Type := { calls : list bulk_call; raising : list bool }.

Definition bulk_do (c : bulk_call) : prog bulk unit :=
  fun s =>
    let s' := {| calls := calls s ++ [c]; raising := tl (raising s) |} in
    match raising s with
    | true :: _ => (Raise RemoteError, s')
    | _ => (Ok tt, s')
    end.

(** [try: body  except Exception as e: raise Exception(e)  finally: final].
    [RemoteError] stands for the library's exception and for the
    [Exception(e)] that wraps it. *)
Definition try_reraise_finally {A} (body : prog bulk A) (final : prog bulk unit)
  : prog bulk A :=
  fun s =>
    match body s with
    | (Ok a, s1) =>
        match final s1 with
        | (Ok _, s2) => (Ok a, s2)
        | (Raise e, s2) => (Raise e, s2)
        end
    | (Raise _, s1) =>
        match final s1 with
        | (Ok _, s2) => (Raise RemoteError, s2)
        | (Raise e, s2) => (Raise e, s2)
        end
    end.

(** The body the three methods share: create the job, post the batch and
    wait for it, close the job. *)
Definition api_write (operation sf_object : string) (upsert_key : option string)
    (list_of_dicts : list record) : prog bulk unit :=
  let! _ := bulk_do (CreateJob operation sf_object upsert_key) in
  try_reraise_finally
    (let! _ := bulk_do (PostBatch list_of_dicts) in bulk_do WaitForBatch)
    (bulk_do CloseJob).

Definition api_update (sf_object : string) (list_of_dicts : list record) : prog bulk unit :=
  api_write "update" sf_object None list_of_dicts.

Definition api_upsert (sf_object upsert_key : string) (list_of_dicts : list record)
  : prog bulk unit :=
  api_write "upsert" sf_object (Some upsert_key) list_of_dicts.

Definition api_insert (sf_object : string) (list_of_dicts : list record) : prog bulk unit :=
  api_write "insert" sf_object None list_of_dicts.

(** *** class NetsuiteRpts *)

(** [self.rows]: [[dict(zip(self.writer[0], self.writer[i])) for i in
    range(len(self.writer)) if i > 0]], for the table [writer] parsed from
    the report; [download_netsuite_report] builds its rows the same way. *)
Definition NetsuiteRpts_rows (writer : list (list string)) : list (gmap string string) :=
  match writer with
  | [] => []
  | header :: body => map (fun row => py_dict (zip header row)) body
  end.

End Helpers.

(** ** stripe_events_dynamodb.py: class DataHandler *)

Module StripeEvents.

(** [self.data], the Stripe event: a dictionary in document order. *)
Abbreviation event := (list (string * pyval)).

(** [d[k] = v] on the event: replaces the value in place or adds the key. *)
Fixpoint setitem (k : string) (v : pyval) (d : event) : event :=
  match d with
  | [] => [(k, v)]
  | (k', v') :: d' => if String.eqb k k' then (k, v) :: d' else (k', v') :: setitem k v d'
  end.

Definition get (k : string) : prog event pyval :=
  fun d => (getitem (PDict d) k, d).

Definition set (k : string) (v : pyval) : prog event unit :=
  fun d => (Ok tt, setitem k v d).

Section DataHandler.
(** The [customer_id] property: the id scraped out of [str(self.data)], or
    [None] when the text holds no ['cus_']. *)
Variable customer_id : event -> option string.

Definition payload_type (data : event) : string :=
  match customer_id data with Some _ => "customer" | None => "system" end.

(** [add_customer_fields] with [self.live = True], as [__init__] sets it:
    the other branches draw random ids and are never taken. *)
Definition add_customer_fields : prog event event :=
  fun data =>
    match customer_id data with
    | Some cid =>
        (let! _ := set "customer_id" (PStr cid) in
         let! id := get "id" in
         let! _ := set "id" id in
         let! created := get "created" in
         let! _ := set "created" created in
         fun d => (Ok d, d)) data
    | None => (Ok data, data)
    end.

(** The [data_insert] property. *)
Definition data_insert : prog event event := add_customer_fields.

(** [self.data_insert[k]]. *)
Definition data_insert_item (k : string) : prog event pyval :=
  let! d := data_insert in lift (getitem (PDict d) k).

(** [self.data_insert['data']['object'][k]]. *)
Definition data_object_item (k : string) : prog event pyval :=
  let! data := data_insert_item "data" in
  lift (let? object := getitem data "object" in getitem object k).

(** [try: v = p  except KeyError: v = 'null']. *)
Definition or_null (p : prog event pyval) : prog event pyval :=
  fun d => match p d with
           | (Raise (KeyError _), d') => (Ok (PStr "null"), d')
           | other => other
           end.

(** The [data_summary_insert] property. *)
Definition data_summary_insert : prog event record :=
  let! id := data_insert_item "id" in
  let! created := data_insert_item "created" in
  let! type := data_insert_item "type" in
  let! object := data_object_item "object" in
  let mysql_dict : record :=
    py_dict [("id", id); ("created", created); ("type", type); ("object", object)] in
  let! customer := or_null (data_insert_item "customer_id") in
  let mysql_dict := <["customer_id" := customer]> mysql_dict in
  let! amount := or_null (data_object_item "amount") in
  let mysql_dict := <["amount" := amount]> mysql_dict in
  let! amount_due := or_null (data_object_item "amount_due") in
  let mysql_dict := <["amount_due" := amount_due]> mysql_dict in
  let! amount_refunded := or_null (data_object_item "amount_refunded") in
  let mysql_dict := <["amount_refunded" := amount_refunded]> mysql_dict in
  let! object_event_id := or_null (data_object_item "id") in
  let mysql_dict := <["object_event_id" := object_event_id]> mysql_dict in
  ret mysql_dict.

End DataHandler.

(** *** The id scraped out of [str(self.data)] *)

(** [s] without its prefix [sep], when it has that prefix. *)
Fixpoint strip_prefix (sep s : string) : option string :=
  match sep, s with
  | EmptyString, _ => Some s
  | String a sep', String b s' => if Ascii.eqb a b then strip_prefix sep' s' else None
  | String _ _, EmptyString => None
  end.

(** [s.partition(sep)[2]] when [sep in s], [None] when it is not. *)
Fixpoint after_first (sep s : string) : option string :=
  match strip_prefix sep s with
  | Some rest => Some rest
  | None => match s with
            | EmptyString => None
            | String _ s' => after_first sep s'
            end
  end.

(** [s.partition(c)[0]] and [s.split(c)[0]] for a one-character [c]. *)
Fixpoint before_char (c : Ascii.ascii) (s : string) : string :=
  match s with
  | EmptyString => EmptyString
  | String a s' => if Ascii.eqb a c then EmptyString else String a (before_char c s')
  end.

(** [s.replace(c, '')] for a one-character [c]. *)
Fixpoint remove_char (c : Ascii.ascii) (s : string) : string :=
  match s with
  | EmptyString => EmptyString
  | String a s' => if Ascii.eqb a c then remove_char c s' else String a (remove_char c s')
  end.

(** The characters the expression cuts at: double quote, apostrophe, comma
    and slash. *)
Definition double_quote : Ascii.ascii := Ascii.ascii_of_nat 34.
Definition apostrophe : Ascii.ascii := Ascii.ascii_of_nat 39.
Definition comma : Ascii.ascii := Ascii.ascii_of_nat 44.
Definition slash : Ascii.ascii := Ascii.ascii_of_nat 47.

(** The expression shared by the [customer_id] property and [get_id]:
    [id_string + stng.partition(id_string)[2].partition(quote)[0]], cut at
    the first slash and then at the first comma by [.split(..)[0]], with the
    double quotes and then the slashes removed by [.replace(.., '')]; [None]
    unless [id_string in stng]. *)
Definition scrape (id_string : string) (quote : Ascii.ascii) (stng : string)
  : option string :=
  match after_first id_string stng with
  | Some rest =>
      Some (remove_char slash
              (remove_char double_quote
                 (before_char comma
                    (before_char slash (id_string +:+ before_char quote rest)))))
  | None => None
  end.

(** The [customer_id] property, as a function of [stng = str(self.data)]. *)
Definition customer_id_text (stng : string) : option string :=
  scrape "cus_" apostrophe stng.

(** [get_id(id_string)], as a function of [stng]; [str.partition] raises
    ValueError on an empty separator. *)
Definition get_id (id_string stng : string) : result (option string) :=
  match id_string with
  | EmptyString => Raise ValueError
  | _ => Ok (scrape id_string double_quote stng)
  end.

(** *** class DataInserter *)

(** [clean_empty]: every value that is not a dict or a list is returned as
    it is; a list or dict keeps the cleaned members that are truthy. *)
Fixpoint clean_empty (d : pyval) : pyval :=
  match d with
  | PList l => PList (List.filter truthy (map clean_empty l))
  | PDict kvs =>
      PDict (List.filter (fun kv => truthy (snd kv))
               (map (fun kv => let '(k, v) := kv in (k, clean_empty v)) kvs))
  | _ => d
  end.

(** No list or dict inside [v], at any depth, has a falsy member. *)
Fixpoint no_falsy_member (v : pyval) : bool :=
  match v with
  | PList l => forallb (fun x => truthy x && no_falsy_member x) l
  | PDict kvs => forallb (fun kv => let '(_, x) := kv in truthy x && no_falsy_member x) kvs
  | _ => true
  end.

(** The [data_object_insert] property. *)
Section DataObject.
Variable customer_id : event -> option string.

Definition data_object_insert : prog event record :=
  let! id := data_insert_item customer_id "id" in
  let! created := data_insert_item customer_id "created" in
  let! object := data_object_item customer_id "object" in
  let! data := data_insert_item customer_id "data" in
  let! data_object := lift (getitem data "object") in
  ret (py_dict [("id", id); ("created", created); ("object", object);
                ("data", data_object)]).

End DataObject.

End StripeEvents.

(** ** stripe_events_dw_salesforce.py: prep_data and the script body *)

Module StripeDW.
Import Helpers.

(** [x.pop(k)]. *)
Definition pop (k : string) (x : record) : result (pyval * record) :=
  match x !! k with
  | Some v => Ok (v, delete k x)
  | None => Raise (KeyError k)
  end.

(** A number as [datetime.fromtimestamp] and [sorted] take it. *)
Definition as_number (v : pyval) : result Z :=
  match v with
  | PInt z => Ok z
  | PBool b => Ok (Z.b2z b)
  | _ => Raise TypeError
  end.

(** [for y in x: x[y] = None if x[y] == 'null' else x[y]]. *)
Definition null_to_none (x : record) : record :=
  (fun v => if is_str v "null" then PNone else v) <$> x.

(** [sorted(l, reverse=True)] on numbers: a stable insertion sort. *)
Fixpoint insert_desc (z : Z) (l : list Z) : list Z :=
  match l with
  | [] => [z]
  | y :: l' => if Z.ltb z y then y :: insert_desc z l' else z :: y :: l'
  end.

Definition sorted_reverse (l : list Z) : list Z := foldr insert_desc [] l.

(** The collaborators of one run of the script, apart from MySQL. *)
Record env : Type := {
  (** line 50: what [get_all_dynamo_data('stripe_stage')] returned *)
  stage_data : list record;
  (** [stripe.Customer.retrieve(cust_id, api_key=api_key)['email']] *)
  customer_email : pyval -> result pyval;
  (** lines 155 to 158: [prep_data(data, destination='salesforce')] and the
      bulk upsert *)
  salesforce_sync : result unit;
  (** lines 161 to 179: the object stage rows, fetched and stringified *)
  object_stage : result (list record);
  (** lines 185 to 198: the object scripts, one subprocess per object *)
  object_scripts : result unit;
  (** lines 206 to 210: the deletion of the staged DynamoDB items *)
  delete_stage_items : result unit
}.

Section Script.
(** [datetime.strftime(d, '%Y-%m-%d %H:%M:%S')]. *)
Variable strftime : Z -> string.
Variable dateutil_parse : string -> option Z.
Variable fromutc : Z -> Z.
Variable from_unixtime : Z -> pyval.
Variable query_rows : string -> result (list (list (string * pyval))).
(** [hashlib.md5(s).hexdigest()]. *)
Variable md5_hexdigest : string -> string.
(** [datetime.fromtimestamp(ts)]: the local datetime, or the exception for a
    timestamp out of its range. *)
Variable fromtimestamp : Z -> result Z.
Variable e : env.

Definition get_email (cust_id : pyval) : result pyval :=
  if truthy cust_id then customer_email e cust_id else Ok PNone.

(** The body of the loop of lines 60 to 69. *)
Definition add_email (dicts : record) : result record :=
  match dicts !! "customer_id" with
  | None => Raise (KeyError "customer_id")
  | Some cust_id =>
      if negb (is_str cust_id "null") then
        match get_email cust_id with
        | Ok email => Ok (<["email" := email]> dicts)
        | Raise InvalidRequestError => Ok (<["email" := PNone]> dicts)
        | Raise (KeyError _) => Ok (<["email" := PNone]> dicts)
        | Raise other => Raise other
        end
      else Ok (<["email" := PNone]> dicts)
  end.

(** The [destination == 'mysql'] branch of the loop body of [prep_data],
    after the null replacement. *)
Definition mysql_fields (x : record) : result record :=
  let? created :=
    match x !! "created" with Some v => Ok v | None => Raise (KeyError "created") end in
  let? ts := as_number created in
  let? dt := fromtimestamp ts in
  let x := <["event_datetime" := PStr (strftime dt)]> x in
  let? p := pop "created" x in
  let x := <["event_unixtimestamp" := p.1]> p.2 in
  let? p := pop "type" x in
  let x := <["event_type" := p.1]> p.2 in
  let? p := pop "email" x in
  let x := <["email" := match p.1 with
                        | PStr s => PStr (md5_hexdigest s)
                        | _ => PNone
                        end]> p.2 in
  Ok x.

(** [prep_data(list_of_dicts, destination='mysql')]. *)
Definition prep_data_mysql (list_of_dicts : list record) : result (list record) :=
  mapM (fun x => mysql_fields (null_to_none x)) list_of_dicts.

(** [dico['created']] as line 152 sorts it. *)
Definition created_of (dico : record) : result Z :=
  match dico !! "created" with
  | Some v => as_number v
  | None => Raise (KeyError "created")
  end.

(** [d.keys()] and [d.values()]. *)
Definition keys (d : record) : list string := (map_to_list d).*1.
Definition values (d : record) : list pyval := (map_to_list d).*2.

(** [get_select_data(...)[0].values()[0]]. *)
Definition first_value (select_output : option (list record)) : result pyval :=
  match select_output with
  | None => Raise TypeError
  | Some rows => let? row := index0 rows in index0 (values row)
  end.

Definition event_log_stmt (first : record) : sql :=
  create_stmt "stripe.event_log" "INSERT IGNORE" (keys first).

(** Lines 50 to 210: everything before the closing [etl_log]; the value is
    [max_date]. *)
Definition script_body : prog mysql pyval :=
  let data := stage_data e in
  match data with
  | [] =>
      let! _ := etl_log strftime dateutil_parse fromutc "Stripe Logs" "Dynamo" "DW+SF" PNone in
      raise SystemExit
  | _ :: _ =>
      let! data := lift (mapM add_email data) in
      let! mysql_data := lift (prep_data_mysql data) in
      let! first := lift (index0 mysql_data) in
      let! _ := insert_data (event_log_stmt first) mysql_data in
      let! created := lift (mapM created_of data) in
      let! newest := lift (index0 (sorted_reverse created)) in
      let! selected :=
        get_select_data strftime from_unixtime query_rows (SqlSelectFromUnixtime newest) in
      let! max_date := lift (first_value selected) in
      let! _ := exec_simple
        (SqlText "insert into fed.stripe_event_log_fed select * from stripe.event_log;") in
      let! _ := lift (salesforce_sync e) in
      let! data_obj := lift (object_stage e) in
      let! first_obj := lift (index0 data_obj) in
      let! _ := insert_data
        (create_stmt "stripe.event_object_raw" "INSERT IGNORE" (keys first_obj)) data_obj in
      let! _ := lift (object_scripts e) in
      let! _ := lift (delete_stage_items e) in
      ret max_date
  end.

(** The whole script: the body, then line 212. *)
Definition script : prog mysql unit :=
  let! max_date := script_body in
  etl_log strftime dateutil_parse fromutc "Stripe Logs" "Dynamo" "DW+SF" max_date.

End Script.

(** *** prep_data with destination='salesforce' *)

(** A value of a Salesforce row: a value of the staged record, or a float,
    which only the divisions of lines 134 to 136 make. *)
Inductive sfval : Type :=
| Plain (v : pyval)
| Float (f : float).

Abbreviation sfrow := (gmap string sfval).

(** [float(n)] for an int [n]: the nearest double, ties to even, and
    OverflowError when [n] is beyond the doubles. *)
Definition float_of_int (z : Z) : result float :=
  let f := SF2Prim (binary_normalize prec emax z 0 false) in
  if PrimFloat.is_infinity f then Raise OverflowError else Ok f.

(** [s.replace(a, b)] for one-character [a] and [b]. *)
Fixpoint replace_char (a b : Ascii.ascii) (s : string) : string :=
  match s with
  | EmptyString => EmptyString
  | String c s' => String (if Ascii.eqb c a then b else c) (replace_char a b s')
  end.

Definition full_stop : Ascii.ascii := Ascii.ascii_of_nat 46.
Definition underscore : Ascii.ascii := Ascii.ascii_of_nat 95.
Definition space : Ascii.ascii := Ascii.ascii_of_nat 32.

(** [x[k]] and [x.pop(k)] on a row. *)
Definition sf_get (k : string) (x : sfrow) : result sfval :=
  match x !! k with
  | Some v => Ok v
  | None => Raise (KeyError k)
  end.

Definition sf_pop (k : string) (x : sfrow) : result (sfval * sfrow) :=
  match x !! k with
  | Some v => Ok (v, delete k x)
  | None => Raise (KeyError k)
  end.

(** Truthiness, as [elif x['customer_id']:] tests it. *)
Definition sf_truthy (v : sfval) : bool :=
  match v with
  | Plain p => truthy p
  | Float f => negb (PrimFloat.eqb f 0)
  end.

Section Salesforce.
(** [datetime.fromtimestamp(v).strftime('%Y-%m-%dT%H:%M:%S.000Z')]. *)
Variable event_date : sfval -> result string.
(** [SalesforceRest().get_sf_contact_id(email)]: the newest contact with that
    e-mail address, or [None]. *)
Variable get_sf_contact_id : sfval -> result pyval.
(** [s.title()]. *)
Variable title : string -> string.
(** [float(s)] for a string; [None] when it raises ValueError. *)
Variable float_of_str : string -> option float.

(** [float(v)]. *)
Definition to_float (v : sfval) : result float :=
  match v with
  | Float f => Ok f
  | Plain (PInt z) => float_of_int z
  | Plain (PBool b) => Ok (if b then 1%float else 0%float)
  | Plain (PStr s) =>
      match float_of_str s with Some f => Ok f | None => Raise ValueError end
  | Plain _ => Raise TypeError
  end.

(** [v.replace('.', ' ').replace('_', ' ').title()]; a datetime has a
    [replace] method of its own, which takes no strings. *)
Definition event_name (v : sfval) : result string :=
  match v with
  | Plain (PStr s) =>
      Ok (title (replace_char underscore space (replace_char full_stop space s)))
  | Plain (PDatetime _) => Raise TypeError
  | _ => Raise AttributeError
  end.

(** [v.title()]. *)
Definition object_name (v : sfval) : result string :=
  match v with
  | Plain (PStr s) => Ok (title s)
  | _ => Raise AttributeError
  end.

(** Lines 140 to 143: the account of the contact, or the empty string. *)
Definition account_of (contact_id : pyval) : result pyval :=
  match getitem contact_id "AccountId" with
  | Ok account => Ok (if truthy account then account else PStr "")
  | Raise (KeyError _) => Ok (PStr "")
  | Raise other => Raise other
  end.

(** [x[target] = float(x.pop(source)) / 100]. *)
Definition money_field (source target : string) (x : sfrow) : result sfrow :=
  let? p := sf_pop source x in
  let? f := to_float p.1 in
  Ok (<[target := Float (f / 100)]> p.2).

(** The [elif x['customer_id']:] branch of the loop body of [prep_data],
    after the null replacement; [None] for a record that is passed over. *)
Definition salesforce_fields (x : sfrow) : result (option sfrow) :=
  let? customer_id := sf_get "customer_id" x in
  if sf_truthy customer_id then
    let? p := sf_pop "email" x in
    let x := p.2 in
    let? contact_id := get_sf_contact_id p.1 in
    if negb (truthy contact_id) then Ok None
    else
      let? contact := getitem contact_id "Id" in
      let x := <["Contact__c" := Plain contact]> x in
      let? p := sf_pop "created" x in
      let? date := event_date p.1 in
      let x := <["Event_Date__c" := Plain (PStr date)]> p.2 in
      let? id := sf_get "id" x in
      let x := <["Name" := id]> x in
      let? p := sf_pop "id" x in
      let x := <["Event_ID__c" := p.1]> p.2 in
      let? p := sf_pop "type" x in
      let? name := event_name p.1 in
      let x := <["Event__c" := Plain (PStr name)]> p.2 in
      let? x := money_field "amount" "Amount__c" x in
      let? x := money_field "amount_due" "Amount_Due__c" x in
      let? x := money_field "amount_refunded" "Amount_Refunded__c" x in
      let? p := sf_pop "customer_id" x in
      let x := <["Stripe_Customer_ID__c" := p.1]> p.2 in
      let? p := sf_pop "object" x in
      let? object := object_name p.1 in
      let x := <["Object__c" := Plain (PStr object)]> p.2 in
      let? p := sf_pop "object_event_id" x in
      let x := <["Object_Event_ID__c" := p.1]> p.2 in
      let? account := account_of contact_id in
      Ok (Some (<["Account__c" := Plain account]> x))
  else Ok None.

(** [prep_data(list_of_dicts)] with its default destination. *)
Definition prep_data_salesforce (list_of_dicts : list record) : result (list sfrow) :=
  let? rows :=
    mapM (fun x => salesforce_fields (Plain <$> null_to_none x)) list_of_dicts in
  Ok (omap id rows).

End Salesforce.

(** What a run left in the database. *)
Definition is_audit_call (c : call) : bool :=
  match c with
  | Execute (SqlText t) _ =>
      String.eqb t "INSERT INTO sn.etl_audit_log VALUES (null, %s,%s, %s, %s, null)"
      || String.eqb t "INSERT INTO sn.etl_audit_log VALUES (null, %s, %s, %s, null, null)"
  | _ => false
  end.

(** The audit-log rows among the committed calls. *)
Definition audit_rows (calls : list call) : list call := List.filter is_audit_call calls.

(** The watermark column of an audit-log row. *)
Definition watermark (c : call) : option Z :=
  match c with
  | Execute _ [_; _; _; PDatetime d] => Some d
  | _ => None
  end.

(** The rows that reached [stripe.event_log]: those of committed
    [executemany] calls on that table. *)
Definition written_records (calls : list call) : list record :=
  concat (map (fun c => match c with
                        | ExecuteMany (SqlInsert _ "stripe.event_log" _) rows => rows
                        | _ => []
                        end) calls).

End StripeDW.

(** ** ExportControlSaleforcceAccountValidation.py: the screening comparator *)

Module Screening.

Section Comparator.
(** The score [process.extract] computes for an order and a screening entry
    with [scorer=fuzz.token_sort_ratio]. *)
Variable token_sort_ratio : string -> string -> Z.

(** [process.extractWithoutOrder], with its default [score_cutoff=0]. *)
Definition extractWithoutOrder (query : string) (choices : list string)
  : list (string * Z) :=
  List.filter (fun m => Z.leb 0 m.2)
              (map (fun choice => (choice, token_sort_ratio query choice)) choices).

(** [sorted(sl, key=lambda i: i[1], reverse=True)]: stable, so entries of
    equal score keep the order of the choices. *)
Fixpoint insert_by_score (m : string * Z) (l : list (string * Z)) : list (string * Z) :=
  match l with
  | [] => [m]
  | y :: l' => if Z.ltb m.2 y.2 then y :: insert_by_score m l' else m :: y :: l'
  end.

Definition sort_by_score (l : list (string * Z)) : list (string * Z) :=
  foldr insert_by_score [] l.

(** [process.extract] with its default [limit=5], that is
    [heapq.nlargest(5, sl, key=lambda i: i[1])]. *)
Definition extract (query : string) (choices : list string) : list (string * Z) :=
  take 5 (sort_by_score (extractWithoutOrder query choices)).

(** [match[1] > 65]. *)
Definition above_threshold (m : string * Z) : bool := Z.ltb 65 m.2.

Definition possibilities (ns_list screening_list : list string)
  : gmap string (list (string * Z)) :=
  py_dict (map (fun order => (order, extract order screening_list)) ns_list).

(** The pairs the comprehension of line 80 generates, in generation order. *)
Definition result_pairs (poss : list (string * list (string * Z))) : list (string * string) :=
  flat_map (fun om => map (fun m => (om.1, m.1)) (List.filter above_threshold om.2)) poss.

Definition compare_orders_with_screening_list (ns_list screening_list : list string)
  : gmap string string :=
  py_dict (result_pairs (map_to_list (possibilities ns_list screening_list))).

End Comparator.

End Screening.

(** ** ImportJIRADataIntoSalesforce.py: the site lookup of main *)

Module Jira.

(** A row of [fetch_salesforce_data] for the site query. *)
Record site_row : Type :=
  { site_Id : string; site_Name : string; companyname_Site_Code__c : string }.

(** A row of [fetch_salesforce_data] for the user query. *)
Record user_row : Type := { user_Id : string; user_Name : string; user_Email : string }.

(** The fields of a JIRA issue that main reads; [customfield_10041] is its
    [str()], [assignee] the display name. *)
Record issue : Type := {
  key : string;
  summary : string;
  components : list string;
  customfield_10041 : string;
  assignee : option string;
  status : string;
  created : string;
  updated : string;
  description : string
}.

Definition SitecompanynameCodesNames_dict (rows : list site_row) : gmap string string :=
  py_dict (map (fun row => (companyname_Site_Code__c row, site_Name row)) rows).

Definition FieldTechProfilecompanynameUsers_dict (rows : list user_row) : gmap string string :=
  py_dict (map (fun row => (user_Email row, user_Id row)) rows).

(** [s[:n]]: the first [n] characters of [s].  A string here is the UTF-8
    text of the Python one, so a character is a byte that starts one,
    followed by its continuation bytes (those from 128 to 191). *)
Definition is_continuation (c : Ascii.ascii) : bool :=
  (128 <=? Ascii.nat_of_ascii c)%nat && (Ascii.nat_of_ascii c <? 192)%nat.

Fixpoint py_prefix (n : nat) (s : string) : string :=
  match s with
  | EmptyString => EmptyString
  | String c s' =>
      if is_continuation c then String c (py_prefix n s')
      else match n with
           | O => EmptyString
           | S n' => String c (py_prefix n' s')
           end
  end.

(** [s.strip(chars)]. *)
Definition in_chars (chars : list Ascii.ascii) (c : Ascii.ascii) : bool :=
  existsb (Ascii.eqb c) chars.

Fixpoint lstrip (chars : list Ascii.ascii) (s : list Ascii.ascii) : list Ascii.ascii :=
  match s with
  | [] => []
  | c :: s' => if in_chars chars c then lstrip chars s' else s
  end.

Definition strip (chars s : string) : string :=
  let cs := String.list_ascii_of_string chars in
  String.string_of_list_ascii
    (rev (lstrip cs (rev (lstrip cs (String.list_ascii_of_string s))))).

(** What main accumulates: the rows to upsert and the lines it prints. *)
Record output : Type := {
  upload_jira_to_sitetracker_list : list (gmap string string);
  printed : list string
}.

Section Main.
Variable sites : gmap string string.
Variable users : gmap string string.
(** The column names main zips the values with; the source leaves the name
    [keys] unbound in main. *)
Variable keys : list string.

(** The body of [for issue in issues]. *)
Definition process_issue (out : output) (i : issue) : output :=
  let jira_link := "https://companyname-nav.atlassian.net/browse/" +:+ key i in
  let jira_companyname_site_code := py_prefix 4 (summary i) in
  let jira_component :=
    match components i with c :: _ => c | [] => "Unknown" end in
  let issue_root_cause := strip "[]'" (customfield_10041 i) in
  let user_assignee_id :=
    match assignee i with
    | Some assignee_name => default "Owner Name" (users !! assignee_name)
    | None => "Owner Name"
    end in
  match sites !! jira_companyname_site_code with
  | Some site_name =>
      let values :=
        [site_name; jira_companyname_site_code; key i; jira_link; summary i; status i;
         user_assignee_id; py_prefix 10 (created i);
         py_prefix 10 (updated i); jira_component; description i;
         "Maintenance"; issue_root_cause] in
      {| upload_jira_to_sitetracker_list :=
           upload_jira_to_sitetracker_list out ++ [py_dict (zip keys values)];
         printed := printed out |}
  | None =>
      {| upload_jira_to_sitetracker_list := upload_jira_to_sitetracker_list out;
         printed := printed out
                    ++ [key i +:+ " " +:+ jira_companyname_site_code
                        +:+ " site code does not exist"] |}
  end.

(** [jira_auth.search_issues(dispatch_jql, start_idx, block_size)]. *)
Variable search_issues : nat -> list issue.

(** The [while True] loop over blocks of 100 issues; the server decides how
    often it runs, hence the fuel. *)
Fixpoint issue_blocks (fuel block_num : nat) (out : output) : option output :=
  match fuel with
  | O => None
  | S fuel' =>
      let start_idx := (block_num * 100)%nat in
      let issues := search_issues start_idx in
      let out' := foldl process_issue out issues in
      match issues with
      | [] => Some out'
      | _ => issue_blocks fuel' (S block_num) out'
      end
  end.

End Main.

(** main, up to the list it hands to the bulk upsert. *)
Definition main (site_rows : list site_row) (user_rows : list user_row)
  (keys : list string) (search_issues : nat -> list issue) (fuel : nat) : option output :=
  issue_blocks (SitecompanynameCodesNames_dict site_rows)
    (FieldTechProfilecompanynameUsers_dict user_rows) keys search_issues fuel 0
    {| upload_jira_to_sitetracker_list := []; printed := [] |}.

End Jira.

(** ** ImportSurveyMonkeyDataIntoSalesforce.py: get_survey_monkey_data *)

Module SurveyMonkey.

(** The GET requests the function sends: the one-message probe, a page of
    fifty messages, the statistics of a message (by the text of its id in the
    URL) and the recipients of a message (by the whole URL). *)
Inductive request : Type :=
| Probe
| Page (each_page : nat)
| Stats (message_id : string)
| Recipients (url : string).

#[global]
Instance request_eq_dec : EqDecision request.
Proof. solve_decision. Defined.

(** The outcome of [s.get(url)]: [requests.ConnectionError], or a response
    with its status code and what [.json()] gives. *)
Inductive http_result : Type :=
| ConnectionFails
| Response (status_code : Z) (json : result pyval).

(** The network as the function leaves it: the requests sent and the Slack
    messages handed to [requests.post], oldest first. *)
Record net : Type := { requests : list request; slack : list string }.

(** [k in v]. *)
Definition py_in (k : string) (v : pyval) : result bool :=
  match v with
  | PDict d => Ok (match assoc k d with Some _ => true | None => false end)
  | PList l => Ok (existsb (fun x => is_str x k) l)
  | PStr s => Ok (match String.index 0 k s with Some _ => true | None => false end)
  | _ => Raise TypeError
  end.

(** [len(v)]. *)
Definition py_len (v : pyval) : result nat :=
  match v with
  | PDict d => Ok (length d)
  | PList l => Ok (length l)
  | PStr s => Ok (String.length s)
  | _ => Raise TypeError
  end.

(** The elements [for x in v] visits. *)
Definition py_iter (v : pyval) : result (list pyval) :=
  match v with
  | PDict d => Ok (map (fun kv => PStr kv.1) d)
  | PList l => Ok l
  | PStr s => Ok (map (fun c => PStr (String c "")) (String.list_ascii_of_string s))
  | _ => Raise TypeError
  end.

(** [v[0]]. *)
Definition getitem0 (v : pyval) : result pyval :=
  match v with
  | PList l => index0 l
  | PStr s => match s with String c _ => Ok (PStr (String c "")) | EmptyString => Raise IndexError end
  | PDict _ => Raise (KeyError "0")
  | _ => Raise TypeError
  end.

(** [v + s] for a string literal [s]. *)
Definition add_str (v : pyval) (s : string) : result string :=
  match v with PStr h => Ok (h +:+ s) | _ => Raise TypeError end.

(** [[key for key, value in {label: d[field], ...}.items() if value == 1]]. *)
Definition flagged (labels : list (string * string)) (d : pyval) : result (list string) :=
  let? items := mapM (fun lf => let? v := getitem d lf.2 in Ok (lf.1, v)) labels in
  Ok (map fst (List.filter (fun lv => is_one lv.2) items)).

Definition keys : list string :=
  ["recipient_email"; "message_id"; "recipient_id"; "last_email_status"].

Section Client.
(** [survey_monkey['collector_id']] and [today.strftime("%B %d, %Y")]. *)
Variable collector_id : string.
Variable today_date : string.
(** The text an f-string puts for a value. *)
Variable py_format : pyval -> string.
(** The remote API: its answer to a request, given how many times the same
    request was sent before. *)
Variable server : request -> nat -> http_result.
(** Slack: what [requests.post(...).json()] does for a text, given how many
    messages were handed over before; it returns, or raises
    [requests.ConnectionError] or another exception. *)
Variable slack_api : string -> nat -> result unit.

(** [post_message_to_slack(text)]; its callers drop the value. *)
Definition post_message_to_slack (text : string) : prog net unit :=
  fun st =>
    (slack_api text (length (slack st)),
     {| requests := requests st; slack := slack st ++ [text] |}).

Definition url (r : request) : string :=
  let messages :=
    "https://api.surveymonkey.com/v3/collectors/" +:+ collector_id +:+ "/messages/" in
  match r with
  | Probe => messages +:+ "?page=1&per_page=1"
  | Page each_page => messages +:+ "?page=" +:+ pretty each_page +:+ "&per_page=50"
  | Stats message_id => messages +:+ message_id +:+ "/stats/"
  | Recipients u => u
  end.

(** [s.get(url)]. *)
Definition s_get (r : request) : prog net (Z * result pyval) :=
  fun st =>
    let st' := {| requests := requests st ++ [r]; slack := slack st |} in
    match server r (count_occ request_eq_dec (requests st) r) with
    | ConnectionFails => (Raise ConnectionError, st')
    | Response status_code json => (Ok (status_code, json), st')
    end.

(** [try: resp = body  except requests.ConnectionError: handler], followed
    by [k resp] when the body returned. *)
Definition try_connection {A B} (body : prog net A) (handler : prog net B)
  (k : A -> prog net B) : prog net B :=
  fun st =>
    match body st with
    | (Ok resp, st') => k resp st'
    | (Raise ConnectionError, st') => handler st'
    | (Raise other, st') => (Raise other, st')
    end.

(** [try: resp = s.get(url)  except requests.ConnectionError: handler]. *)
Definition try_get {A} (r : request) (handler : prog net A)
  (k : Z * result pyval -> prog net A) : prog net A :=
  try_connection (s_get r) handler k.

Definition unable : string :=
  "Survey Monkey Data Load: Unable to Connect to Survey Monkey APIs on " +:+ today_date.

Definition connected (r : request) : string :=
  "Survey Monkey Data Load: Connected to Survey Monkey APIs " +:+ url r
    +:+ " on " +:+ today_date.

(** The body of [for email_message in collector_messages_details['data']];
    [continue] returns the list unchanged. *)
Definition process_message (acc : list record) (email_message : pyval)
  : prog net (list record) :=
  let! message_id := lift (getitem email_message "id") in
  try_get (Stats (py_format message_id))
    (let! _ := post_message_to_slack unable in ret acc)
    (fun stats_response =>
       let! stats_details := lift stats_response.2 in
       let! last_survey_response_status := lift
         (let? has := py_in "survey_response_status" stats_details in
          if has then
            let? survey_response_status :=
              getitem stats_details "survey_response_status" in
            let? labels := flagged
              [("Responded to Survey", "completely_responded");
               ("Not Responded to Survey", "not_responded");
               ("Responded to Partial Survey", "partially_responded")]
              survey_response_status in
            Ok (Helpers.join " " labels)
          else Ok "") in
       let! last_email_status := lift
         (let? has := py_in "mail_status" stats_details in
          if has then
            let? mail_status := getitem stats_details "mail_status" in
            let? labels := flagged
              [("Email Sent", "sent"); ("Email Opened", "opened");
               ("Email not Sent", "not_sent");
               ("Opt Out from Survey Emails", "opted_out");
               ("Email Bounced", "bounced");
               ("Survey Link Clicked", "link_clicked")]
              mail_status in
            Ok (Helpers.join " -> " labels)
          else Ok "") in
       let last_email_status :=
         last_email_status +:+ " -> " +:+ last_survey_response_status in
       let! message_recipient_href := lift
         (let? href := getitem email_message "href" in add_str href "/recipients") in
       try_get (Recipients message_recipient_href)
         (let! _ := post_message_to_slack unable in ret acc)
         (fun recipients_response =>
            let! details := lift recipients_response.2 in
            let! recipient := lift
              (let? has := py_in "data" details in
               let? nonempty :=
                 if has then
                   let? data := getitem details "data" in
                   let? n := py_len data in Ok (negb (Nat.eqb n 0))
                 else Ok false in
               if nonempty then
                 let? data := getitem details "data" in
                 let? first := getitem0 data in
                 let? recipient_id := getitem first "id" in
                 let? recipient_email := getitem first "email" in
                 Ok (recipient_email, recipient_id)
               else Ok (PStr "", PStr "")) in
            let values :=
              [recipient.1; message_id; recipient.2; PStr last_email_status] in
            ret (acc ++ [py_dict (zip keys values)]))).

Fixpoint message_loop (messages : list pyval) (acc : list record)
  : prog net (list record) :=
  match messages with
  | [] => ret acc
  | email_message :: messages' =>
      let! acc' := process_message acc email_message in
      message_loop messages' acc'
  end.

(** [if 'data' in collector_messages_details: for email_message in ...]. *)
Definition process_page (details : pyval) (acc : list record) : prog net (list record) :=
  let! has := lift (py_in "data" details) in
  if has then
    let! data := lift (getitem details "data") in
    let! messages := lift (py_iter data) in
    message_loop messages acc
  else ret acc.

(** The [try] body of lines 68 and 69: the request for the page, then the
    Slack message that it was answered. *)
Definition get_page (each_page : nat) : prog net (Z * result pyval) :=
  let! response := s_get (Page each_page) in
  let! _ := post_message_to_slack (connected (Page each_page)) in
  ret response.

(** [for each_page in range(1, max_page_number + 1)]: a connection error of
    the request or of the Slack message after it continues with the next
    page, status 429 breaks out of the loop. *)
Fixpoint page_loop (pages : list nat) (acc : list record) : prog net (list record) :=
  match pages with
  | [] => ret acc
  | each_page :: pages' =>
      try_connection (get_page each_page)
        (let! _ := post_message_to_slack unable in page_loop pages' acc)
        (fun response =>
           if Z.eqb response.1 429 then ret acc
           else
             let! details := lift response.2 in
             let! acc' := process_page details acc in
             page_loop pages' acc')
  end.

Definition max_page_number : nat := 7.

Definition get_survey_monkey_data : prog net (list record) :=
  try_get Probe
    (let! _ := post_message_to_slack
       "Survey Monkey Data Load: Unable to connect to Survey Monkey APIs" in
     ret [])
    (fun response =>
       let! details := lift response.2 in
       let! error := lift (py_in "error" details) in
       if error then
         let! _ := post_message_to_slack
           "Survey Monkey Data Load: Rate Limit Reached for Survey Monkey APIs" in
         ret []
       else page_loop (seq 1 max_page_number) []).

End Client.

(** How often page [p] was requested. *)
Definition page_requests (p : nat) (st : net) : nat :=
  count_occ request_eq_dec (requests st) (Page p).

End SurveyMonkey.

(** * Properties *)

(** ** get_all_dynamo_data *)

Section DynamoFacts.
Import Dynamo.
Context {Item JItem Key : Type}.
Variable scan : option Key -> response Item Key.
Variable decode : Item -> JItem.

Lemma scan_rest_follows resp rest :
  follows scan resp rest ->
  forall fuel acc, (length rest <= fuel)%nat ->
    scan_rest scan decode fuel resp acc = Some (acc ++ later_items decode rest).
Proof.
  induction 1 as [r Hr | r k rest Hk Hf IH]; intros fuel acc Hfuel.
  - destruct fuel; simpl; rewrite Hr; unfold later_items; simpl;
      now rewrite app_nil_r.
  - destruct fuel as [|fuel]; simpl in Hfuel; [lia|].
    simpl. rewrite Hk. rewrite IH by lia.
    unfold later_items. simpl. now rewrite <- app_assoc.
Qed.

(** C9, as amended: when the table answers the scan with a first page and
    then the pages [rest], and the fuel covers them, [get_all_dynamo_data]
    returns; its value is the items of the first page exactly when the later
    pages hold no item at all (so also when there is no later page), and
    otherwise it is the items of the later pages in scan order, without the
    first page. *)
Theorem get_all_dynamo_data_pages (rest : list (response Item Key)) (fuel : nat) :
  follows scan (scan None) rest ->
  (length rest <= fuel)%nat ->
  get_all_dynamo_data scan decode fuel =
    Some (match later_items decode rest with
          | [] => map decode (Items (scan None))
          | later => later
          end).
Proof.
  intros Hf Hfuel. unfold get_all_dynamo_data.
  rewrite (scan_rest_follows _ _ Hf fuel [] Hfuel). simpl.
  now destruct (later_items decode rest).
Qed.

End DynamoFacts.

(** A table of two pages: the first holds item 1 and a continuation key,
    the second is empty and ends the scan. *)
Definition two_page_scan (start : option nat) : Dynamo.response nat nat :=
  match start with
  | None => {| Dynamo.Items := [1%nat]; Dynamo.LastEvaluatedKey := Some 0%nat |}
  | Some _ => {| Dynamo.Items := []; Dynamo.LastEvaluatedKey := None |}
  end.

Lemma get_all_dynamo_data_pages_witness :
  Dynamo.get_all_dynamo_data two_page_scan (fun i => i) 1 = Some [1%nat].
Proof.
  apply (get_all_dynamo_data_pages two_page_scan (fun i => i)
           [two_page_scan (Some 0%nat)] 1).
  - apply (Dynamo.follows_next two_page_scan (two_page_scan None) 0%nat []).
    + reflexivity.
    + apply Dynamo.follows_last. reflexivity.
  - simpl. lia.
Defined.

(** C9 as stated fails: this scan paginates, yet the value returned is the
    first page, and the first-page item is not omitted. *)
Lemma get_all_dynamo_data_keeps_first_page :
  Dynamo.LastEvaluatedKey (two_page_scan None) <> None /\
  Dynamo.get_all_dynamo_data two_page_scan (fun i => i) 1
    = Some (Dynamo.Items (two_page_scan None)) /\
  In 1%nat (Dynamo.Items (two_page_scan None)).
Proof.
  split; [discriminate|]. split; [reflexivity|]. simpl. auto.
Qed.

(** ** MySQLRpts: the write methods *)

Section MySQLFacts.
Import Helpers.
Variable strftime : Z -> string.
Variable dateutil_parse : string -> option Z.
Variable fromutc : Z -> Z.

Lemma try_pass_execute_commit (c : call) (w : mysql) :
  (try_pass (execute_commit c) w).1 = Ok tt.
Proof.
  unfold try_pass, execute_commit, bind, next_fault, raise.
  destruct (upcoming w) as [|[] fs]; reflexivity.
Qed.

(** What a swallowed call leaves behind: the call itself, committed, when the
    server has no fault for it, and nothing otherwise. *)
Lemma try_pass_execute_commit_state (c : call) (w : mysql) :
  committed (try_pass (execute_commit c) w).2 =
    committed w ++ match upcoming w with
                   | [] | NoFault :: _ => [c]
                   | _ => []
                   end.
Proof.
  unfold try_pass, execute_commit, bind, next_fault, raise.
  destruct (upcoming w) as [|[] fs]; simpl; now rewrite ?app_nil_r.
Qed.

(** C10, as amended: [exec_simple] and [insert_data] return normally for
    every input and every fault of the server, and so does [etl_log] whenever
    its [max_date] is falsy or converts to a datetime (a datetime, or a string
    that dateutil parses); the conversion runs before the [try] block. *)
Theorem mysql_writes_return_normally (w : mysql) (stmt : sql) (data : list record)
    (etl_process source target : string) (max_date : pyval) :
  (truthy max_date = true ->
   exists d, convert_datetime strftime dateutil_parse fromutc max_date true false = Ok d) ->
  (exec_simple stmt w).1 = Ok tt /\
  (insert_data stmt data w).1 = Ok tt /\
  (etl_log strftime dateutil_parse fromutc etl_process source target max_date w).1 = Ok tt.
Proof.
  intros Hconv. split; [apply try_pass_execute_commit|].
  split; [apply try_pass_execute_commit|].
  unfold etl_log, bind, lift.
  destruct (truthy max_date).
  - destruct (Hconv eq_refl) as [d Hd]. rewrite Hd. simpl.
    apply try_pass_execute_commit.
  - simpl. apply try_pass_execute_commit.
Qed.

End MySQLFacts.

(** A clock for the examples: the one instant they use, rendered and parsed. *)
Definition example_strftime (d : Z) : string :=
  if Z.eqb d 100 then "1970-01-01 00:01:40" else "".
Definition example_parse (s : string) : option Z :=
  if String.eqb s "1970-01-01 00:01:40" then Some 100 else None.

Definition fresh_mysql (faults : list Helpers.fault) : Helpers.mysql :=
  {| Helpers.committed := []; Helpers.upcoming := faults |}.

Lemma mysql_writes_return_normally_witness :
  (Helpers.exec_simple (Helpers.SqlText "select 1") (fresh_mysql [Helpers.CommitFails])).1
    = Ok tt /\
  (Helpers.insert_data (Helpers.SqlText "select 1") [] (fresh_mysql [Helpers.CommitFails])).1
    = Ok tt /\
  (Helpers.etl_log example_strftime example_parse (fun d => d) "Stripe Logs" "Dynamo" "DW+SF"
     (PStr "1970-01-01 00:01:40") (fresh_mysql [Helpers.CommitFails])).1 = Ok tt.
Proof.
  apply (mysql_writes_return_normally example_strftime example_parse (fun d => d)).
  intros _. exists (PDatetime 100). reflexivity.
Defined.

(** C10 as stated fails: [etl_log] with the truthy [max_date] 5 raises, since
    [convert_datetime] hands it to the date parser outside the [try]. *)
Lemma etl_log_raises_on_unconvertible_max_date :
  (Helpers.etl_log example_strftime example_parse (fun d => d) "Stripe Logs" "Dynamo" "DW+SF"
     (PInt 5) (fresh_mysql [])).1 = Raise TypeError.
Proof. reflexivity. Qed.

(** ** data_summary_insert and the null replacement of prep_data *)

Section StripeEventsFacts.
Import StripeEvents.
Variable customer_id : event -> option string.

Lemma assoc_setitem (k k' : string) (v : pyval) (d : event) :
  assoc k (setitem k' v d) = if String.eqb k k' then Some v else assoc k d.
Proof.
  induction d as [|[k0 v0] d IH]; simpl.
  - destruct (String.eqb_spec k k'); reflexivity.
  - destruct (String.eqb_spec k' k0) as [->|Hne]; simpl.
    + destruct (String.eqb_spec k k0); reflexivity.
    + rewrite IH. destruct (String.eqb_spec k k0) as [->|Hne']; [|reflexivity].
      destruct (String.eqb_spec k0 k'); congruence.
Qed.

(** The event as the property accesses leave it: the original one, but for
    the [customer_id] key. *)
Definition same_payload (d0 d : event) : Prop :=
  forall k, k <> "customer_id" -> assoc k d = assoc k d0.

Lemma add_customer_fields_spec (d0 d : event) (i c : pyval) :
  assoc "id" d0 = Some i -> assoc "created" d0 = Some c -> same_payload d0 d ->
  exists d', add_customer_fields customer_id d = (Ok d', d') /\ same_payload d0 d'.
Proof.
  intros Hi Hc Hsame. unfold add_customer_fields.
  destruct (customer_id d) as [cid|]; [|eauto].
  unfold bind, set, get, getitem.
  rewrite assoc_setitem. simpl. rewrite (Hsame "id") by discriminate. rewrite Hi.
  rewrite !assoc_setitem. simpl. rewrite (Hsame "created") by discriminate. rewrite Hc.
  eexists. split; [reflexivity|].
  intros k Hk. rewrite !assoc_setitem.
  destruct (String.eqb_spec k "created") as [->|?]; [congruence|].
  destruct (String.eqb_spec k "id") as [->|?]; [congruence|].
  destruct (String.eqb_spec k "customer_id"); [congruence|]. now apply Hsame.
Qed.

Lemma data_insert_item_spec (d0 d : event) (i c : pyval) (k : string) :
  assoc "id" d0 = Some i -> assoc "created" d0 = Some c -> same_payload d0 d ->
  k <> "customer_id" ->
  exists d', data_insert_item customer_id k d = (getitem (PDict d0) k, d')
             /\ same_payload d0 d'.
Proof.
  intros Hi Hc Hsame Hk.
  destruct (add_customer_fields_spec d0 d i c Hi Hc Hsame) as (d' & Hrun & Hsame').
  exists d'. split; [|assumption].
  unfold data_insert_item, data_insert, bind, lift. rewrite Hrun.
  cbn. now rewrite (Hsame' k Hk).
Qed.

Lemma data_insert_customer_spec (d0 d : event) (i c : pyval) :
  assoc "id" d0 = Some i -> assoc "created" d0 = Some c -> same_payload d0 d ->
  exists v d', or_null (data_insert_item customer_id "customer_id") d = (Ok v, d')
               /\ same_payload d0 d'.
Proof.
  intros Hi Hc Hsame.
  destruct (add_customer_fields_spec d0 d i c Hi Hc Hsame) as (d' & Hrun & Hsame').
  unfold or_null, data_insert_item, data_insert, bind, lift. rewrite Hrun.
  cbn. destruct (assoc "customer_id" d') as [v|]; eauto.
Qed.

Lemma data_object_item_spec (d0 d : event) (i c dv : pyval) (f : string) :
  assoc "id" d0 = Some i -> assoc "created" d0 = Some c -> same_payload d0 d ->
  assoc "data" d0 = Some dv ->
  exists d', data_object_item customer_id f d
               = (let? object := getitem dv "object" in getitem object f, d')
             /\ same_payload d0 d'.
Proof.
  intros Hi Hc Hsame Hd.
  destruct (data_insert_item_spec d0 d i c "data" Hi Hc Hsame) as (d' & Hrun & Hsame');
    [discriminate|].
  exists d'. split; [|assumption].
  unfold data_object_item, bind, lift. rewrite Hrun.
  cbn. now rewrite Hd.
Qed.

(** The value the [try]/[except KeyError] of an optional field stores. *)
Definition or_sentinel (r : result pyval) : pyval :=
  match r with Ok v => v | Raise _ => PStr "null" end.

Lemma or_null_object_item (d0 d : event) (i c dv : pyval) (fields : list (string * pyval))
    (f : string) :
  assoc "id" d0 = Some i -> assoc "created" d0 = Some c -> same_payload d0 d ->
  assoc "data" d0 = Some dv -> getitem dv "object" = Ok (PDict fields) ->
  exists d', or_null (data_object_item customer_id f) d
               = (Ok (or_sentinel (getitem (PDict fields) f)), d')
             /\ same_payload d0 d'.
Proof.
  intros Hi Hc Hsame Hd Ho.
  destruct (data_object_item_spec d0 d i c dv f Hi Hc Hsame Hd) as (d' & Hrun & Hsame').
  exists d'. split; [|assumption].
  unfold or_null. rewrite Hrun, Ho. simpl.
  destruct (assoc f fields); reflexivity.
Qed.

(** A system payload, one whose text holds no customer id, is left as it is
    by every access. *)
Lemma data_insert_item_system (d : event) (k : string) :
  customer_id d = None ->
  data_insert_item customer_id k d = (getitem (PDict d) k, d).
Proof.
  intros Hnone. unfold data_insert_item, data_insert, add_customer_fields, bind, lift.
  now rewrite Hnone.
Qed.

Lemma data_object_item_system (d : event) (dv : pyval) (f : string) :
  customer_id d = None -> assoc "data" d = Some dv ->
  data_object_item customer_id f d
    = (let? object := getitem dv "object" in getitem object f, d).
Proof.
  intros Hnone Hd. unfold data_object_item, bind, lift.
  rewrite (data_insert_item_system d "data" Hnone). cbn [getitem]. now rewrite Hd.
Qed.

(** The summary of a system payload that carries the required fields. *)
Lemma data_summary_insert_system (d : event) (i c t dv o : pyval)
    (fields : list (string * pyval)) :
  customer_id d = None ->
  assoc "id" d = Some i -> assoc "created" d = Some c -> assoc "type" d = Some t ->
  assoc "data" d = Some dv -> getitem dv "object" = Ok (PDict fields) ->
  assoc "object" fields = Some o ->
  exists m,
    data_summary_insert customer_id d = (Ok m, d) /\
    m !! "customer_id" = Some (or_sentinel (getitem (PDict d) "customer_id")).
Proof.
  intros Hnone Hi Hc Ht Hd Ho Hoo.
  assert (Hitem : forall k,
             or_null (data_insert_item customer_id k) d
             = (Ok (or_sentinel (getitem (PDict d) k)), d)).
  { intros k. unfold or_null. rewrite (data_insert_item_system d k Hnone).
    cbn [getitem]. destruct (assoc k d); reflexivity. }
  assert (Hobject : forall f,
             or_null (data_object_item customer_id f) d
             = (Ok (or_sentinel (getitem (PDict fields) f)), d)).
  { intros f. unfold or_null. rewrite (data_object_item_system d dv f Hnone Hd), Ho.
    cbn [getitem rbind]. destruct (assoc f fields); reflexivity. }
  eexists. split.
  - unfold data_summary_insert, bind.
    rewrite (data_insert_item_system d "id" Hnone). unfold getitem at 1. rewrite Hi.
    rewrite (data_insert_item_system d "created" Hnone). unfold getitem at 1. rewrite Hc.
    rewrite (data_insert_item_system d "type" Hnone). unfold getitem at 1. rewrite Ht.
    rewrite (data_object_item_system d dv "object" Hnone Hd), Ho. cbn [getitem rbind].
    rewrite Hoo. rewrite Hitem, !Hobject. reflexivity.
  - now simplify_map_eq.
Qed.

End StripeEventsFacts.

Section NullReplacementFacts.
Import StripeEvents StripeDW.
Variable customer_id : event -> option string.
Variable strftime : Z -> string.
Variable md5_hexdigest : string -> string.
Variable fromtimestamp : Z -> result Z.

Lemma null_to_none_sentinel (x : record) (y : string) :
  x !! y = Some (PStr "null") ->
  null_to_none x !! y = Some PNone /\
  null_to_none x = null_to_none (<[y := PNone]> x).
Proof.
  intros Hy. unfold null_to_none.
  assert (Hl : ((fun v => if is_str v "null" then PNone else v) <$> x) !! y = Some PNone)
    by (rewrite lookup_fmap, Hy; reflexivity).
  split; [exact Hl|].
  rewrite fmap_insert. simpl. symmetry. now apply insert_id.
Qed.

(** The optional fields of the summary [m] of the event [d]: each holds the
    value the event gives it, or the sentinel.  [customer_id] is the event's
    own when the text of the event holds no customer id ([cid] is [None]),
    and the scraped one otherwise. *)
Definition optional_fields_hold (cid : option string) (d : list (string * pyval))
    (fields : list (string * pyval)) (m : record) : Prop :=
  (cid = None -> m !! "customer_id" = Some (or_sentinel (getitem (PDict d) "customer_id"))) /\
  is_Some (m !! "customer_id") /\
  m !! "amount" = Some (or_sentinel (getitem (PDict fields) "amount")) /\
  m !! "amount_due" = Some (or_sentinel (getitem (PDict fields) "amount_due")) /\
  m !! "amount_refunded" = Some (or_sentinel (getitem (PDict fields) "amount_refunded")) /\
  m !! "object_event_id" = Some (or_sentinel (getitem (PDict fields) "id")).

(** C6, as amended: on an event that carries the required fields, the
    summary is built without raising and every optional field the event
    lacks holds the sentinel ['null'], [customer_id] included when the text
    of the event holds no customer id; [prep_data] then replaces the sentinel
    by [None], so that downstream a record with the sentinel and the same
    record with an explicit null are one and the same. *)
Theorem missing_optional_fields_become_none
    (d : event) (i c t dv o : pyval) (fields : list (string * pyval))
    (x : record) (y : string) :
  assoc "id" d = Some i -> assoc "created" d = Some c -> assoc "type" d = Some t ->
  assoc "data" d = Some dv -> getitem dv "object" = Ok (PDict fields) ->
  assoc "object" fields = Some o ->
  x !! y = Some (PStr "null") ->
  (exists m d',
      data_summary_insert customer_id d = (Ok m, d') /\
      optional_fields_hold (customer_id d) d fields m) /\
  null_to_none x !! y = Some PNone /\
  null_to_none x = null_to_none (<[y := PNone]> x) /\
  prep_data_mysql strftime md5_hexdigest fromtimestamp [x]
    = prep_data_mysql strftime md5_hexdigest fromtimestamp [<[y := PNone]> x].
Proof.
  intros Hi Hc Ht Hd Ho Hoo Hy.
  destruct (null_to_none_sentinel x y Hy) as [Hl Heq].
  split; [|split; [exact Hl|split; [exact Heq|]]].
  2:{ unfold prep_data_mysql. simpl. now rewrite Heq. }
  assert (H0 : same_payload d d) by (intros k _; reflexivity).
  destruct (data_insert_item_spec customer_id d d i c "id" Hi Hc H0)
    as (d1 & E1 & H1); [discriminate|].
  destruct (data_insert_item_spec customer_id d d1 i c "created" Hi Hc H1)
    as (d2 & E2 & H2); [discriminate|].
  destruct (data_insert_item_spec customer_id d d2 i c "type" Hi Hc H2)
    as (d3 & E3 & H3); [discriminate|].
  destruct (data_object_item_spec customer_id d d3 i c dv "object" Hi Hc H3 Hd)
    as (d4 & E4 & H4).
  destruct (data_insert_customer_spec customer_id d d4 i c Hi Hc H4)
    as (cust & d5 & E5 & H5).
  destruct (or_null_object_item customer_id d d5 i c dv fields "amount" Hi Hc H5 Hd Ho)
    as (d6 & E6 & H6).
  destruct (or_null_object_item customer_id d d6 i c dv fields "amount_due" Hi Hc H6 Hd Ho)
    as (d7 & E7 & H7).
  destruct (or_null_object_item customer_id d d7 i c dv fields "amount_refunded"
              Hi Hc H7 Hd Ho) as (d8 & E8 & H8).
  destruct (or_null_object_item customer_id d d8 i c dv fields "id" Hi Hc H8 Hd Ho)
    as (d9 & E9 & _).
  assert (Hrun : exists m,
             data_summary_insert customer_id d = (Ok m, d9) /\
             is_Some (m !! "customer_id") /\
             m !! "amount" = Some (or_sentinel (getitem (PDict fields) "amount")) /\
             m !! "amount_due" = Some (or_sentinel (getitem (PDict fields) "amount_due")) /\
             m !! "amount_refunded"
               = Some (or_sentinel (getitem (PDict fields) "amount_refunded")) /\
             m !! "object_event_id" = Some (or_sentinel (getitem (PDict fields) "id"))).
  { eexists. split.
    - unfold data_summary_insert, bind.
      rewrite E1. unfold getitem at 1. rewrite Hi.
      rewrite E2. unfold getitem at 1. rewrite Hc.
      rewrite E3. unfold getitem at 1. rewrite Ht.
      rewrite E4, Ho. simpl. rewrite Hoo.
      rewrite E5, E6, E7, E8, E9. reflexivity.
    - split; [|repeat split]; simplify_map_eq; eauto. }
  destruct Hrun as (m & Hrun & Hsome & Hamounts).
  exists m, d9. split; [exact Hrun|]. split; [|split; [exact Hsome|exact Hamounts]].
  intros Hnone.
  destruct (data_summary_insert_system customer_id d i c t dv o fields
              Hnone Hi Hc Ht Hd Ho Hoo) as (m' & Hrun' & Hcust).
  rewrite Hrun' in Hrun. now injection Hrun as <- _.
Qed.

End NullReplacementFacts.

(** Two events that differ in one optional field: the first lacks [amount],
    the second carries it with an explicit null. *)
Definition event_without_amount : StripeEvents.event :=
  [("id", PStr "evt_1"); ("created", PInt 100); ("type", PStr "charge.failed");
   ("data", PDict [("object", PDict [("object", PStr "charge"); ("id", PStr "ch_1")])])].

Definition event_with_null_amount : StripeEvents.event :=
  [("id", PStr "evt_1"); ("created", PInt 100); ("type", PStr "charge.failed");
   ("data", PDict [("object", PDict [("object", PStr "charge"); ("id", PStr "ch_1");
                                     ("amount", PNone)])])].

Definition no_customer (d : StripeEvents.event) : option string := None.
Definition example_md5 (s : string) : string := "md5:" +:+ s.
Definition example_fromtimestamp (ts : Z) : result Z := Ok ts.

Lemma missing_optional_fields_become_none_witness :
  (exists m d',
      StripeEvents.data_summary_insert no_customer event_without_amount = (Ok m, d') /\
      optional_fields_hold None event_without_amount
        [("object", PStr "charge"); ("id", PStr "ch_1")] m) /\
  StripeDW.null_to_none {["amount" := PStr "null"]} !! "amount" = Some PNone /\
  StripeDW.null_to_none {["amount" := PStr "null"]}
    = StripeDW.null_to_none (<["amount" := PNone]> {["amount" := PStr "null"]}) /\
  StripeDW.prep_data_mysql example_strftime example_md5 example_fromtimestamp [{["amount" := PStr "null"]}]
    = StripeDW.prep_data_mysql example_strftime example_md5 example_fromtimestamp
        [<["amount" := PNone]> {["amount" := PStr "null"]}].
Proof.
  apply (missing_optional_fields_become_none no_customer example_strftime example_md5 example_fromtimestamp
           event_without_amount (PStr "evt_1") (PInt 100) (PStr "charge.failed")
           (PDict [("object", PDict [("object", PStr "charge"); ("id", PStr "ch_1")])])
           (PStr "charge") [("object", PStr "charge"); ("id", PStr "ch_1")]
           {["amount" := PStr "null"]} "amount"); reflexivity.
Defined.

(** The summary [data_summary_insert] makes of an event that carries no
    customer id. *)
Definition summary_of (d : StripeEvents.event) : record :=
  match StripeEvents.data_summary_insert no_customer d with
  | (Ok summary, _) => summary
  | (Raise _, _) => ∅
  end.

(** C6 as stated fails: the two summaries differ, ['null'] against [None],
    but the rows [prep_data] makes of them for the warehouse are equal. *)
Lemma sentinel_and_null_indistinguishable_downstream :
  (StripeEvents.data_summary_insert no_customer event_without_amount).1
    = Ok (summary_of event_without_amount) /\
  (StripeEvents.data_summary_insert no_customer event_with_null_amount).1
    = Ok (summary_of event_with_null_amount) /\
  summary_of event_without_amount !! "amount" = Some (PStr "null") /\
  summary_of event_with_null_amount !! "amount" = Some PNone /\
  StripeDW.prep_data_mysql example_strftime example_md5 example_fromtimestamp
    [<["email" := PNone]> (summary_of event_without_amount)]
    = StripeDW.prep_data_mysql example_strftime example_md5 example_fromtimestamp
        [<["email" := PNone]> (summary_of event_with_null_amount)] /\
  length <$> StripeDW.prep_data_mysql example_strftime example_md5 example_fromtimestamp
               [<["email" := PNone]> (summary_of event_without_amount)]
    = Ok 1%nat.
Proof. repeat split; vm_compute; reflexivity. Qed.

(** ** Dictionaries built from pairs *)

(** The value of the last pair with key [k], if any. *)
Fixpoint last_value {V} (k : string) (l : list (string * V)) : option V :=
  match l with
  | [] => None
  | kv :: l' =>
      match last_value k l' with
      | Some v => Some v
      | None => if String.eqb kv.1 k then Some kv.2 else None
      end
  end.

Lemma foldl_insert_lookup {V} (l : list (string * V)) (m : gmap string V) (k : string) :
  foldl (fun d kv => <[kv.1 := kv.2]> d) m l !! k =
    match last_value k l with Some v => Some v | None => m !! k end.
Proof.
  revert m. induction l as [|[k0 v0] l IH]; intros m; simpl; [reflexivity|].
  rewrite IH. destruct (last_value k l); [reflexivity|].
  destruct (String.eqb_spec k0 k) as [->|Hne].
  - apply lookup_insert_eq.
  - now apply lookup_insert_ne.
Qed.

Lemma py_dict_lookup {V} (l : list (string * V)) (k : string) :
  py_dict l !! k = last_value k l.
Proof.
  unfold py_dict. rewrite foldl_insert_lookup, lookup_empty.
  now destruct (last_value k l).
Qed.

Lemma last_value_app {V} (k : string) (l1 l2 : list (string * V)) :
  last_value k (l1 ++ l2) =
    match last_value k l2 with Some v => Some v | None => last_value k l1 end.
Proof.
  induction l1 as [|kv l1 IH]; simpl.
  - now destruct (last_value k l2).
  - rewrite IH. now destruct (last_value k l2).
Qed.

Lemma last_value_In {V} (k : string) (l : list (string * V)) (v : V) :
  last_value k l = Some v -> In (k, v) l.
Proof.
  induction l as [|[k0 v0] l IH]; simpl; [discriminate|].
  destruct (last_value k l) as [v'|].
  - intros [= ->]. right. now apply IH.
  - destruct (String.eqb_spec k0 k) as [->|]; [|discriminate].
    intros [= ->]. now left.
Qed.

Lemma last_value_absent {V} (k : string) (l : list (string * V)) :
  ~ In k (map fst l) -> last_value k l = None.
Proof.
  induction l as [|[k0 v0] l IH]; simpl; [reflexivity|]. intros Hn.
  rewrite IH by tauto. destruct (String.eqb_spec k0 k); [tauto|reflexivity].
Qed.

(** The last pair of a key-tagged list. *)
Lemma last_value_tagged {A V} (k o : string) (f : A -> V) (l : list A) :
  last_value k (map (fun a => (o, f a)) l) =
    if String.eqb o k then f <$> last l else None.
Proof.
  induction l as [|a l IH]; simpl.
  - now destruct (String.eqb o k).
  - rewrite IH, last_cons. destruct (String.eqb o k); [|reflexivity].
    now destruct (last l).
Qed.

(** A comprehension keyed by the loop variable itself. *)
Lemma last_value_keyed {V} (k : string) (f : string -> V) (l : list string) :
  last_value k (map (fun o => (o, f o)) l) = if decide (k ∈ l) then Some (f k) else None.
Proof.
  induction l as [|o l IH]; simpl; [reflexivity|].
  rewrite IH. destruct (decide (k ∈ l)) as [Hin|Hnin].
  - rewrite decide_True by (now right). reflexivity.
  - destruct (String.eqb_spec o k) as [->|Hne].
    + rewrite decide_True by left. reflexivity.
    + rewrite decide_False; [reflexivity|].
      intros Hin. apply elem_of_cons in Hin as [->|Hin]; tauto.
Qed.

(** ** The screening comparator *)

Section ScreeningFacts.
Import Screening.
Variable token_sort_ratio : string -> string -> Z.


Lemma possibilities_lookup (ns_list screening_list : list string) (order : string) :
  possibilities token_sort_ratio ns_list screening_list !! order =
    if decide (order ∈ ns_list)
    then Some (extract token_sort_ratio order screening_list) else None.
Proof.
  unfold possibilities. rewrite py_dict_lookup.
  apply (last_value_keyed order (fun o => extract token_sort_ratio o screening_list)).
Qed.

Lemma result_pairs_absent (poss : list (string * list (string * Z))) (k : string) :
  ~ In k (map fst poss) -> last_value k (result_pairs poss) = None.
Proof.
  induction poss as [|[o ms] poss IH]; simpl; [reflexivity|]. intros Hn.
  rewrite last_value_app, IH by tauto.
  rewrite (last_value_tagged k o fst).
  destruct (String.eqb_spec o k); [tauto|reflexivity].
Qed.

Lemma result_pairs_lookup (poss : list (string * list (string * Z))) (k : string)
    (ms : list (string * Z)) :
  List.NoDup (map fst poss) -> In (k, ms) poss ->
  last_value k (result_pairs poss) = fst <$> last (List.filter above_threshold ms).
Proof.
  induction poss as [|[o ms0] poss IH]; simpl; [tauto|].
  intros Hnd Hin. inversion Hnd as [|? ? Hfresh Hnd']; subst.
  rewrite last_value_app, (last_value_tagged k o fst). simpl.
  destruct Hin as [[= -> ->]|Hin].
  - rewrite result_pairs_absent by assumption.
    now rewrite String.eqb_refl.
  - rewrite (IH Hnd' Hin).
    destruct (String.eqb_spec o k) as [->|Hne].
    + exfalso. apply Hfresh. apply in_map_iff. now exists (k, ms).
    + now destruct (last (List.filter above_threshold ms)).
Qed.

(** The entry the comparator keeps for an order: the last one, in the order
    [process.extract] returned them, whose score is above the threshold. *)
Lemma compare_lookup (ns_list screening_list : list string) (order : string) :
  compare_orders_with_screening_list token_sort_ratio ns_list screening_list !! order =
    if decide (order ∈ ns_list)
    then fst <$> last (List.filter above_threshold
                         (extract token_sort_ratio order screening_list))
    else None.
Proof.
  unfold compare_orders_with_screening_list. rewrite py_dict_lookup.
  set (poss := possibilities token_sort_ratio ns_list screening_list).
  pose proof (possibilities_lookup ns_list screening_list order) as Hl. fold poss in Hl.
  assert (Hnd : List.NoDup (map fst (map_to_list poss))).
  { apply NoDup_ListNoDup, NoDup_fst_map_to_list. }
  destruct (decide (order ∈ ns_list)).
  - apply result_pairs_lookup; [exact Hnd|].
    apply list_elem_of_In, elem_of_map_to_list. exact Hl.
  - apply result_pairs_absent. intros Hin.
    apply in_map_iff in Hin as ([k ms] & Hk & Hin). simpl in Hk. subst k.
    apply list_elem_of_In, elem_of_map_to_list in Hin. congruence.
Qed.

(** Descending by score. *)
Definition by_score_desc (a b : string * Z) : Prop := b.2 <= a.2.

Lemma In_insert_by_score (m x : string * Z) (l : list (string * Z)) :
  In x (insert_by_score m l) <-> x = m \/ In x l.
Proof.
  induction l as [|y l IH]; simpl; [intuition congruence|].
  destruct (Z.ltb m.2 y.2); simpl; [rewrite IH|]; intuition congruence.
Qed.

Lemma In_sort_by_score (x : string * Z) (l : list (string * Z)) :
  In x (sort_by_score l) <-> In x l.
Proof.
  induction l as [|y l IH]; simpl; [tauto|].
  rewrite In_insert_by_score, IH. intuition congruence.
Qed.

Lemma insert_by_score_sorted (m : string * Z) (l : list (string * Z)) :
  StronglySorted by_score_desc l -> StronglySorted by_score_desc (insert_by_score m l).
Proof.
  induction 1 as [|y l Hs IH Hall]; simpl; [repeat constructor|].
  destruct (Z.ltb_spec m.2 y.2) as [Hlt|Hge].
  - constructor; [exact IH|].
    apply Forall_forall. intros x Hx. apply list_elem_of_In, In_insert_by_score in Hx.
    destruct Hx as [->|Hx]; [unfold by_score_desc; lia|].
    rewrite Forall_forall in Hall. now apply Hall, list_elem_of_In.
  - constructor; [now constructor|].
    constructor; [exact Hge|].
    eapply Forall_impl; [exact Hall|]. unfold by_score_desc. intros; lia.
Qed.

Lemma sort_by_score_sorted (l : list (string * Z)) :
  StronglySorted by_score_desc (sort_by_score l).
Proof.
  induction l as [|y l IH]; simpl; [constructor|]. now apply insert_by_score_sorted.
Qed.

Lemma extract_sorted (query : string) (choices : list string) :
  StronglySorted by_score_desc (extract token_sort_ratio query choices).
Proof.
  unfold extract.
  pose proof (sort_by_score_sorted (extractWithoutOrder token_sort_ratio query choices)) as Hs.
  rewrite <- (take_drop 5) in Hs. now apply StronglySorted_app_1_l in Hs.
Qed.

Lemma In_extract (query : string) (choices : list string) (m : string * Z) :
  In m (extract token_sort_ratio query choices) ->
  In m.1 choices /\ m.2 = token_sort_ratio query m.1.
Proof.
  unfold extract, extractWithoutOrder. intros Hin.
  apply list_elem_of_In, subseteq_take, list_elem_of_In in Hin.
  apply In_sort_by_score, filter_In in Hin as [Hin _].
  apply in_map_iff in Hin as (c & <- & Hc). now split.
Qed.

Lemma filter_sorted (f : string * Z -> bool) (l : list (string * Z)) :
  StronglySorted by_score_desc l -> StronglySorted by_score_desc (List.filter f l).
Proof.
  induction 1 as [|y l Hs IH Hall]; simpl; [constructor|].
  destruct (f y); [|exact IH]. constructor; [exact IH|].
  rewrite Forall_forall in *. intros x Hx.
  apply list_elem_of_In, filter_In in Hx as [Hx _]. now apply Hall, list_elem_of_In.
Qed.

(** The last entry of a list sorted by descending score is a lowest one. *)
Lemma last_sorted_lowest (l : list (string * Z)) (x m : string * Z) :
  StronglySorted by_score_desc l -> last l = Some x -> In m l -> x.2 <= m.2.
Proof.
  intros Hs Hlast Hin. apply last_Some in Hlast as [l' ->].
  apply in_app_iff in Hin as [Hin|[<-|[]]]; [|lia].
  apply (StronglySorted_app_1_elem_of by_score_desc l' [x] m x Hs);
    [now apply list_elem_of_In|now left].
Qed.

(** A candidate with score [s >= 0] puts an entry of score at least [s] at
    the head of what [process.extract] returns. *)
Lemma extract_head (query cand : string) (choices : list string) :
  In cand choices -> 0 <= token_sort_ratio query cand ->
  exists top rest,
    extract token_sort_ratio query choices = top :: rest /\
    token_sort_ratio query cand <= top.2.
Proof.
  intros Hin Hpos. unfold extract.
  set (sl := extractWithoutOrder token_sort_ratio query choices).
  assert (Hm : In (cand, token_sort_ratio query cand) (sort_by_score sl)).
  { apply In_sort_by_score. unfold sl, extractWithoutOrder. apply filter_In. split.
    - apply in_map_iff. now exists cand.
    - simpl. now apply Z.leb_le. }
  pose proof (sort_by_score_sorted sl) as Hs.
  destruct (sort_by_score sl) as [|top rest]; [destruct Hm|].
  exists top, (take 4 rest). split; [reflexivity|].
  destruct Hm as [->|Hm]; [simpl; lia|].
  apply StronglySorted_cons in Hs as [Hall _]. rewrite Forall_forall in Hall.
  apply (Hall (cand, token_sort_ratio query cand)). now apply list_elem_of_In.
Qed.

(** C4, as amended: for an order of the list, the candidate the comparator
    returns is the last entry, in the order [process.extract] produced its
    five best (descending score, ties in list order, not re-sorted), whose
    score is above 65; it is a candidate of the screening list, and no entry
    of the five above the threshold scores lower than it. *)
Theorem comparator_returns_last_above_threshold
    (ns_list screening_list : list string) (order : string) :
  In order ns_list ->
  compare_orders_with_screening_list token_sort_ratio ns_list screening_list !! order
    = fst <$> last (List.filter above_threshold
                      (extract token_sort_ratio order screening_list)) /\
  forall cand,
    compare_orders_with_screening_list token_sort_ratio ns_list screening_list !! order
      = Some cand ->
    In cand screening_list /\
    65 < token_sort_ratio order cand /\
    forall m, In m (extract token_sort_ratio order screening_list) -> 65 < m.2 ->
              token_sort_ratio order cand <= m.2.
Proof.
  intros Hin. rewrite compare_lookup.
  rewrite decide_True by now apply list_elem_of_In.
  split; [reflexivity|]. intros cand Hc.
  destruct (last (List.filter above_threshold
                    (extract token_sort_ratio order screening_list)))
    as [x|] eqn:Hlast; [|discriminate].
  injection Hc as <-.
  assert (Hx : In x (List.filter above_threshold
                       (extract token_sort_ratio order screening_list))).
  { apply last_Some in Hlast as [l' ->]. apply in_app_iff. right. now left. }
  apply filter_In in Hx as [Hx Habove].
  destruct (In_extract _ _ _ Hx) as [Hc Hscore].
  unfold above_threshold in Habove. apply Z.ltb_lt in Habove.
  split; [exact Hc|]. split; [lia|].
  intros m Hm Hm65. rewrite <- Hscore.
  apply (last_sorted_lowest _ x m (filter_sorted above_threshold _ (extract_sorted _ _)) Hlast).
  apply filter_In. split; [exact Hm|]. unfold above_threshold. now apply Z.ltb_lt.
Qed.

(** C3, as amended: a pair scoring 66 puts its order in the result set, with
    a candidate of the list that scores above 65, and with that very pair when
    no other candidate of the list scores above 65; a pair scoring exactly 65
    is never in the result set. *)
Theorem threshold_is_strict
    (ns_list screening_list : list string) (order cand : string) :
  In order ns_list -> In cand screening_list ->
  (token_sort_ratio order cand = 66 ->
   (exists c,
       compare_orders_with_screening_list token_sort_ratio ns_list screening_list !! order
         = Some c /\ In c screening_list /\ 65 < token_sort_ratio order c) /\
   ((forall c, In c screening_list -> 65 < token_sort_ratio order c -> c = cand) ->
    compare_orders_with_screening_list token_sort_ratio ns_list screening_list !! order
      = Some cand)) /\
  (token_sort_ratio order cand = 65 ->
   compare_orders_with_screening_list token_sort_ratio ns_list screening_list !! order
     <> Some cand).
Proof.
  intros Hin Hcand.
  destruct (comparator_returns_last_above_threshold ns_list screening_list order Hin)
    as [Heq Hsome].
  split.
  - intros H66.
    assert (Hex : exists c,
      compare_orders_with_screening_list token_sort_ratio ns_list screening_list !! order
        = Some c).
    { rewrite Heq.
      destruct (extract_head order cand screening_list Hcand) as (top & rest & -> & Htop);
        [lia|].
      simpl. unfold above_threshold at 1.
      destruct (Z.ltb_spec 65 top.2) as [_|Hle]; [|lia].
      rewrite last_cons. destruct (last (List.filter above_threshold rest)); eauto. }
    destruct Hex as [c Hc]. destruct (Hsome c Hc) as (Hcin & Hc65 & _).
    split; [eauto|]. intros Honly. rewrite Hc. f_equal. now apply Honly.
  - intros H65 Hc. destruct (Hsome cand Hc) as (_ & Habs & _). lia.
Qed.

End ScreeningFacts.

(** Two scorers for the examples: one gives every pair 66, the other ranks
    the entry "near" at 90 and the entry "far" at 70. *)
Definition tie_scores (query choice : string) : Z := 66.
Definition ranked_scores (query choice : string) : Z :=
  if String.eqb choice "near" then 90 else if String.eqb choice "far" then 70 else 0.

Lemma comparator_returns_last_above_threshold_witness :
  Screening.compare_orders_with_screening_list ranked_scores ["acme"] ["near"; "far"]
    !! "acme"
    = fst <$> last (List.filter Screening.above_threshold
                      (Screening.extract ranked_scores "acme" ["near"; "far"])) /\
  forall cand,
    Screening.compare_orders_with_screening_list ranked_scores ["acme"] ["near"; "far"]
      !! "acme" = Some cand ->
    In cand ["near"; "far"] /\
    65 < ranked_scores "acme" cand /\
    forall m, In m (Screening.extract ranked_scores "acme" ["near"; "far"]) -> 65 < m.2 ->
              ranked_scores "acme" cand <= m.2.
Proof.
  apply (comparator_returns_last_above_threshold ranked_scores ["acme"] ["near"; "far"]
           "acme").
  simpl. auto.
Defined.

(** C4 as stated fails: "near" is the best-scoring candidate above the
    threshold, and the comparator returns "far". *)
Lemma comparator_returns_lower_scoring_candidate :
  Screening.compare_orders_with_screening_list ranked_scores ["acme"] ["near"; "far"]
    !! "acme" = Some "far" /\
  65 < ranked_scores "acme" "far" /\
  ranked_scores "acme" "far" < ranked_scores "acme" "near".
Proof. vm_compute. repeat split; reflexivity. Qed.

Lemma threshold_is_strict_witness :
  (tie_scores "acme" "acme ltd" = 66 ->
   (exists c,
       Screening.compare_orders_with_screening_list tie_scores ["acme"] ["acme ltd"]
         !! "acme" = Some c /\ In c ["acme ltd"] /\ 65 < tie_scores "acme" c) /\
   ((forall c, In c ["acme ltd"] -> 65 < tie_scores "acme" c -> c = "acme ltd") ->
    Screening.compare_orders_with_screening_list tie_scores ["acme"] ["acme ltd"]
      !! "acme" = Some "acme ltd")) /\
  (tie_scores "acme" "acme ltd" = 65 ->
   Screening.compare_orders_with_screening_list tie_scores ["acme"] ["acme ltd"]
     !! "acme" <> Some "acme ltd").
Proof.
  apply (threshold_is_strict tie_scores ["acme"] ["acme ltd"] "acme" "acme ltd");
    simpl; auto.
Defined.

(** C3 as stated fails: both pairs score 66, and only the second one is in
    the result set. *)
Lemma pair_scoring_66_absent_from_results :
  tie_scores "acme" "acme ltd" = 66 /\
  Screening.compare_orders_with_screening_list tie_scores ["acme"] ["acme ltd"; "acme inc"]
    !! "acme" = Some "acme inc" /\
  Screening.compare_orders_with_screening_list tie_scores ["acme"] ["acme ltd"; "acme inc"]
    !! "acme" <> Some "acme ltd".
Proof. split; [reflexivity|]. vm_compute. split; [reflexivity|discriminate]. Qed.

(** ** The site-code lookup of the JIRA import *)

Section JiraFacts.
Import Jira.
Variable users : gmap string string.
Variable keys : list string.

(** The line main prints for an issue whose site code it does not find. *)
Definition missing_site_line (i : issue) : string :=
  key i +:+ " " +:+ py_prefix 4 (summary i) +:+ " site code does not exist".

Definition site_known (sites : gmap string string) (i : issue) : bool :=
  match sites !! py_prefix 4 (summary i) with Some _ => true | None => false end.

Lemma printed_process_issues (sites : gmap string string) (issues : list issue)
    (out : output) :
  printed (foldl (process_issue sites users keys) out issues) =
    printed out
    ++ map missing_site_line (List.filter (fun i => negb (site_known sites i)) issues).
Proof.
  revert out. induction issues as [|i issues IH]; intros out; simpl.
  - now rewrite app_nil_r.
  - rewrite IH. unfold process_issue, site_known.
    destruct (sites !! py_prefix 4 (summary i)); simpl; [reflexivity|].
    now rewrite <- app_assoc.
Qed.

(** C5, as amended: when a site code occurs in several rows, the mapping
    keeps the name of the last row that carries it (later rows overwrite
    earlier ones, so the match is deterministic), and no data-quality warning
    is surfaced: whatever the rows, the only lines main prints are those of
    issues whose site code is not in the mapping. *)
Theorem duplicate_site_code_last_row_wins
    (rows before after : list site_row) (r : site_row)
    (issues : list issue) (out : output) :
  rows = before ++ r :: after ->
  (forall r', In r' after -> companyname_Site_Code__c r' <> companyname_Site_Code__c r) ->
  SitecompanynameCodesNames_dict rows !! companyname_Site_Code__c r = Some (site_Name r) /\
  printed (foldl (process_issue (SitecompanynameCodesNames_dict rows) users keys) out issues)
    = printed out
      ++ map missing_site_line
           (List.filter
              (fun i => negb (site_known (SitecompanynameCodesNames_dict rows) i)) issues).
Proof.
  intros -> Hafter. split; [|apply printed_process_issues].
  unfold SitecompanynameCodesNames_dict.
  rewrite py_dict_lookup, map_app, last_value_app. simpl.
  rewrite last_value_absent.
  - now rewrite String.eqb_refl.
  - intros Hin. apply in_map_iff in Hin as ([k v] & Hk & Hin). simpl in Hk. subst k.
    apply in_map_iff in Hin as (r' & [= Hcode _] & Hr'). now apply (Hafter r').
Qed.

End JiraFacts.

(** Two site rows with the same code, and one issue of that site. *)
Definition duplicated_site_rows : list Jira.site_row :=
  [ {| Jira.site_Id := "a01"; Jira.site_Name := "Site A";
       Jira.companyname_Site_Code__c := "S001" |};
    {| Jira.site_Id := "a02"; Jira.site_Name := "Site B";
       Jira.companyname_Site_Code__c := "S001" |} ].

Definition one_issue : Jira.issue :=
  {| Jira.key := "NO-1"; Jira.summary := "S001 antenna down"; Jira.components := [];
     Jira.customfield_10041 := "['Power']"; Jira.assignee := None;
     Jira.status := "Open"; Jira.created := "2020-01-02T03:04:05.000+0000";
     Jira.updated := "2020-01-03T03:04:05.000+0000"; Jira.description := "" |}.

Definition one_block (start_idx : nat) : list Jira.issue :=
  match start_idx with O => [one_issue] | _ => [] end.

Lemma duplicate_site_code_last_row_wins_witness :
  Jira.SitecompanynameCodesNames_dict duplicated_site_rows !! "S001" = Some "Site B" /\
  Jira.printed
    (foldl (Jira.process_issue (Jira.SitecompanynameCodesNames_dict duplicated_site_rows)
              ∅ ["Site"; "Site_Code"])
       {| Jira.upload_jira_to_sitetracker_list := []; Jira.printed := [] |} [one_issue])
    = [] ++ map missing_site_line
              (List.filter
                 (fun i => negb (site_known
                                   (Jira.SitecompanynameCodesNames_dict duplicated_site_rows)
                                   i))
                 [one_issue]).
Proof.
  apply (duplicate_site_code_last_row_wins ∅ ["Site"; "Site_Code"] duplicated_site_rows
           [ {| Jira.site_Id := "a01"; Jira.site_Name := "Site A";
                Jira.companyname_Site_Code__c := "S001" |} ]
           []
           {| Jira.site_Id := "a02"; Jira.site_Name := "Site B";
              Jira.companyname_Site_Code__c := "S001" |}).
  - reflexivity.
  - intros r' [].
Defined.

(** C5 as stated fails: the code S001 is duplicated, the issue is matched
    with the last row, not the first-seen one, and main prints no warning. *)
Lemma duplicate_site_code_overwritten_silently :
  Jira.SitecompanynameCodesNames_dict duplicated_site_rows !! "S001" = Some "Site B" /\
  Jira.main duplicated_site_rows [] ["Site"; "Site_Code"] one_block 2
    = Some {| Jira.upload_jira_to_sitetracker_list :=
                [py_dict [("Site", "Site B"); ("Site_Code", "S001")]];
              Jira.printed := [] |}.
Proof. vm_compute. split; reflexivity. Qed.

(** ** get_survey_monkey_data: rate limiting *)

Section SurveyMonkeyFacts.
Import SurveyMonkey.
Variable collector_id : string.
Variable today_date : string.
Variable py_format : pyval -> string.
Variable server : request -> nat -> http_result.
Variable slack_api : string -> nat -> result unit.

Definition not_page (r : request) : Prop :=
  match r with Page _ => False | _ => True end.

(** A piece of code that may send requests, but none for a page. *)
Definition sends_no_page {A} (p : prog net A) : Prop :=
  forall st, exists extra,
    requests (p st).2 = requests st ++ extra /\ Forall not_page extra.

Lemma sends_no_page_ret {A} (a : A) : sends_no_page (ret a).
Proof. intros st. exists []. simpl. now rewrite app_nil_r. Qed.

Lemma sends_no_page_lift {A} (r : result A) : sends_no_page (lift r).
Proof. intros st. exists []. simpl. now rewrite app_nil_r. Qed.

Lemma sends_no_page_slack (text : string) :
  sends_no_page (post_message_to_slack slack_api text).
Proof. intros st. exists []. simpl. now rewrite app_nil_r. Qed.

Lemma sends_no_page_bind {A B} (p : prog net A) (k : A -> prog net B) :
  sends_no_page p -> (forall a, sends_no_page (k a)) -> sends_no_page (bind p k).
Proof.
  intros Hp Hk st. unfold bind. destruct (Hp st) as (e1 & E1 & F1).
  destruct (p st) as [[a|e] st1]; simpl in *; [|eauto].
  destruct (Hk a st1) as (e2 & E2 & F2).
  exists (e1 ++ e2). rewrite E2, E1, app_assoc. split; [reflexivity|].
  now apply Forall_app.
Qed.

Lemma sends_no_page_try_get {A} (r : request) (handler : prog net A)
    (k : Z * result pyval -> prog net A) :
  not_page r -> sends_no_page handler -> (forall resp, sends_no_page (k resp)) ->
  sends_no_page (try_get server r handler k).
Proof.
  intros Hr Hh Hk st. unfold try_get, try_connection, s_get.
  destruct (server r _) as [|status json].
  - destruct (Hh {| requests := requests st ++ [r]; slack := slack st |})
      as (e & E & F). simpl in E.
    exists (r :: e). rewrite E, <- app_assoc. split; [reflexivity|]. now constructor.
  - destruct (Hk (status, json) {| requests := requests st ++ [r]; slack := slack st |})
      as (e & E & F). simpl in E.
    exists (r :: e). rewrite E, <- app_assoc. split; [reflexivity|]. now constructor.
Qed.

Lemma sends_no_page_process_message (acc : list record) (email_message : pyval) :
  sends_no_page (process_message today_date py_format server slack_api acc email_message).
Proof.
  unfold process_message.
  apply sends_no_page_bind; [apply sends_no_page_lift|]. intros message_id.
  apply sends_no_page_try_get; [exact I| |].
  { apply sends_no_page_bind; [apply sends_no_page_slack|].
    intros _. apply sends_no_page_ret. }
  intros stats_response.
  repeat (apply sends_no_page_bind; [apply sends_no_page_lift|]; intros ?).
  apply sends_no_page_try_get; [exact I| |].
  { apply sends_no_page_bind; [apply sends_no_page_slack|].
    intros _. apply sends_no_page_ret. }
  intros recipients_response.
  repeat (apply sends_no_page_bind; [apply sends_no_page_lift|]; intros ?).
  apply sends_no_page_ret.
Qed.

Lemma sends_no_page_message_loop (messages : list pyval) (acc : list record) :
  sends_no_page (message_loop today_date py_format server slack_api messages acc).
Proof.
  revert acc. induction messages as [|m messages IH]; intros acc; simpl.
  - apply sends_no_page_ret.
  - apply sends_no_page_bind; [apply sends_no_page_process_message|]. intros acc'. apply IH.
Qed.

Lemma sends_no_page_process_page (details : pyval) (acc : list record) :
  sends_no_page (process_page today_date py_format server slack_api details acc).
Proof.
  unfold process_page.
  apply sends_no_page_bind; [apply sends_no_page_lift|]. intros [|].
  - repeat (apply sends_no_page_bind; [apply sends_no_page_lift|]; intros ?).
    apply sends_no_page_message_loop.
  - apply sends_no_page_ret.
Qed.

Lemma page_requests_app (p : nat) (st : net) (extra : list request) (sl : list string) :
  page_requests p {| requests := requests st ++ extra; slack := sl |} =
    (page_requests p st + count_occ request_eq_dec extra (Page p))%nat.
Proof. unfold page_requests. simpl. apply count_occ_app. Qed.

Lemma count_occ_no_page (p : nat) (extra : list request) :
  Forall not_page extra -> count_occ request_eq_dec extra (Page p) = 0%nat.
Proof.
  induction 1 as [|r extra Hr _ IH]; simpl; [reflexivity|].
  destruct (request_eq_dec r (Page p)) as [->|_]; [destruct Hr|exact IH].
Qed.

Lemma sends_no_page_requests {A} (prg : prog net A) (p : nat) (st : net) :
  sends_no_page prg -> page_requests p (prg st).2 = page_requests p st.
Proof.
  intros H. destruct (H st) as (extra & E & F).
  unfold page_requests. rewrite E, count_occ_app, (count_occ_no_page p extra F). lia.
Qed.

(** No page from [a] on has been requested. *)
Definition quiet_from (a : nat) (st : net) : Prop :=
  forall j, (a <= j)%nat -> page_requests j st = 0%nat.

(** Page [k] was requested at most once and no later page at all. *)
Definition stopped_at (k : nat) (st : net) : Prop :=
  (page_requests k st <= 1)%nat /\
  forall j, (k < j)%nat -> page_requests j st = 0%nat.

Lemma quiet_stopped (a k : nat) (st : net) :
  (a <= k)%nat -> quiet_from a st -> stopped_at k st.
Proof.
  intros Hak Hq. split; [rewrite Hq by lia; lia|]. intros j Hj. apply Hq. lia.
Qed.

Lemma page_requests_snoc (j a : nat) (st : net) (sl : list string) :
  page_requests j {| requests := requests st ++ [Page a]; slack := sl |} =
    (page_requests j st + if decide (a = j) then 1 else 0)%nat.
Proof.
  rewrite page_requests_app. f_equal.
  destruct (decide (a = j)) as [->|Hne].
  - now rewrite count_occ_cons_eq.
  - rewrite count_occ_cons_neq; [reflexivity|]. intros [= ?]. now apply Hne.
Qed.

Lemma quiet_after_request (a : nat) (st : net) (sl : list string) :
  quiet_from a st ->
  quiet_from (S a) {| requests := requests st ++ [Page a]; slack := sl |}.
Proof.
  intros Hq j Hj. rewrite page_requests_snoc, Hq by lia.
  rewrite decide_False by lia. reflexivity.
Qed.

Lemma quiet_from_run {A} (prg : prog net A) (a : nat) (st : net) :
  sends_no_page prg -> quiet_from a st -> quiet_from a (prg st).2.
Proof. intros Hp Hq j Hj. rewrite sends_no_page_requests by assumption. now apply Hq. Qed.

(** The network [st2] holds one more request for page [a] than [st]. *)
Definition asked_once_more (a : nat) (st st2 : net) : Prop :=
  forall j, page_requests j st2 =
            (page_requests j st + if decide (a = j) then 1 else 0)%nat.

(** Lines 68 and 69 in one piece. *)
Lemma get_page_eq (a : nat) (st : net) :
  get_page collector_id today_date server slack_api a st =
    match server (Page a) (page_requests a st) with
    | ConnectionFails =>
        (Raise ConnectionError,
         {| requests := requests st ++ [Page a]; slack := slack st |})
    | Response status json =>
        (match slack_api (connected collector_id today_date (Page a))
                 (length (slack st)) with
         | Ok _ => Ok (status, json)
         | Raise e => Raise e
         end,
         {| requests := requests st ++ [Page a];
            slack := slack st ++ [connected collector_id today_date (Page a)] |})
    end.
Proof.
  unfold get_page, bind, s_get, post_message_to_slack, ret. fold (page_requests a st).
  destruct (server (Page a) _) as [|status json]; [reflexivity|]. cbn [requests slack].
  destruct (slack_api _ _) as [[]|e]; reflexivity.
Qed.

(** One round of the page loop asks for its page once; then the loop either
    ends or goes on with the remaining pages. *)
Lemma page_loop_step (a : nat) (pages : list nat) (acc : list record) (st : net) :
  exists st2,
    asked_once_more a st st2 /\
    ((page_loop collector_id today_date py_format server slack_api (a :: pages) acc st).2
       = st2 \/
     exists acc',
       page_loop collector_id today_date py_format server slack_api (a :: pages) acc st
       = page_loop collector_id today_date py_format server slack_api pages acc' st2).
Proof.
  cbn [page_loop]. unfold try_connection. rewrite get_page_eq.
  destruct (server (Page a) _) as [|status body].
  - (* the request fails to connect *)
    unfold bind, post_message_to_slack. cbn [requests slack].
    destruct (slack_api (unable today_date) _) as [[]|e].
    + eexists. split; [|right; eexists; reflexivity].
      intros j. apply page_requests_snoc.
    + eexists. split; [|left; reflexivity]. intros j. apply page_requests_snoc.
  - destruct (slack_api (connected collector_id today_date (Page a)) _) as [[]|e].
    + (* answered, and Slack was told *)
      cbn [fst snd].
      destruct (Z.eqb status 429).
      { eexists. split; [|left; reflexivity]. intros j. apply page_requests_snoc. }
      destruct body as [details|e]; unfold bind, lift; cbn beta iota.
      2:{ eexists. split; [|left; reflexivity]. intros j. apply page_requests_snoc. }
      match goal with
      | |- context [process_page _ _ _ _ details acc ?s] => set (st2 := s)
      end.
      assert (Hsame : asked_once_more a st
                (process_page today_date py_format server slack_api details acc st2).2).
      { intros j. rewrite sends_no_page_requests by apply sends_no_page_process_page.
        apply page_requests_snoc. }
      destruct (process_page today_date py_format server slack_api details acc st2)
        as [[acc'|e] st3]; cbn [snd] in Hsame.
      * exists st3. split; [exact Hsame|]. right. exists acc'. reflexivity.
      * exists st3. split; [exact Hsame|]. left. reflexivity.
    + (* answered, but the Slack message raised *)
      destruct e; try (eexists; split; [|left; reflexivity];
                       intros j; apply page_requests_snoc).
      unfold bind, post_message_to_slack. cbn [requests slack].
      destruct (slack_api (unable today_date) _) as [[]|e].
      * eexists. split; [|right; eexists; reflexivity].
        intros j. apply page_requests_snoc.
      * eexists. split; [|left; reflexivity]. intros j. apply page_requests_snoc.
Qed.

(** A page answered with status 429 ends the loop, unless the Slack message
    after the answer fails to connect. *)
Lemma page_loop_limited (a : nat) (json : result pyval) (pages : list nat)
    (acc : list record) (st : net) :
  server (Page a) (page_requests a st) = Response 429 json ->
  slack_api (connected collector_id today_date (Page a)) (length (slack st))
    <> Raise ConnectionError ->
  asked_once_more a st
    (page_loop collector_id today_date py_format server slack_api (a :: pages) acc st).2.
Proof.
  intros Hlimit Hslack.
  cbn [page_loop]. unfold try_connection. rewrite get_page_eq, Hlimit.
  destruct (slack_api (connected collector_id today_date (Page a)) _) as [[]|e].
  - cbn. intros j. apply page_requests_snoc.
  - destruct e; try (intros j; apply page_requests_snoc). now destruct Hslack.
Qed.

Lemma page_loop_stops (k : nat) (json : result pyval) :
  server (Page k) 0%nat = Response 429 json ->
  (forall n, slack_api (connected collector_id today_date (Page k)) n
             <> Raise ConnectionError) ->
  forall (n a : nat) (acc : list record) (st : net),
    (a <= k)%nat -> quiet_from a st ->
    stopped_at k
      (page_loop collector_id today_date py_format server slack_api (seq a n) acc st).2.
Proof.
  intros Hlimit Hslack. induction n as [|n IH]; intros a acc st Hak Hq.
  - now apply (quiet_stopped a).
  - cbn [seq]. destruct (decide (a = k)) as [->|Hne].
    + assert (Hone : asked_once_more k st
                (page_loop collector_id today_date py_format server slack_api
                   (k :: seq (S k) n) acc st).2).
      { apply (page_loop_limited k json); [|apply Hslack]. now rewrite (Hq k) by lia. }
      split.
      * rewrite Hone, Hq by lia. rewrite decide_True by reflexivity. lia.
      * intros j Hj. rewrite Hone, Hq by lia. now rewrite decide_False by lia.
    + destruct (page_loop_step a (seq (S a) n) acc st) as (st2 & Hone & Hnext).
      assert (Hq2 : quiet_from (S a) st2).
      { intros j Hj. rewrite Hone, Hq by lia. now rewrite decide_False by lia. }
      destruct Hnext as [->|[acc' ->]].
      * apply (quiet_stopped (S a)); [lia|exact Hq2].
      * apply IH; [lia|exact Hq2].
Qed.

(** C8, as amended: when the remote source answers the first request for
    page [k] with status 429, that page is not retried; unless the Slack
    message of line 69 fails to connect, no later page is requested either,
    and once that message is delivered the page loop ends at once and hands
    back the records of the earlier pages as the result of the run.  When the
    Slack message fails to connect, line 70 takes it for a failed request and
    the loop goes on with the next page.  An error reported on the initial
    probe ends the function with an empty list and no page requested. *)
Theorem rate_limited_page_ends_the_loop (k : nat) (json : result pyval) :
  (1 <= k)%nat ->
  server (Page k) 0%nat = Response 429 json ->
  ((forall n, slack_api (connected collector_id today_date (Page k)) n
              <> Raise ConnectionError) ->
   stopped_at k
     (get_survey_monkey_data collector_id today_date py_format server slack_api
        {| requests := []; slack := [] |}).2) /\
  (forall (pages : list nat) (acc : list record) (st : net),
     page_requests k st = 0%nat ->
     slack_api (connected collector_id today_date (Page k)) (length (slack st)) = Ok tt ->
     page_loop collector_id today_date py_format server slack_api (k :: pages) acc st =
       (Ok acc, {| requests := requests st ++ [Page k];
                   slack := slack st ++ [connected collector_id today_date (Page k)] |})) /\
  (forall (pages : list nat) (acc : list record) (st : net),
     page_requests k st = 0%nat ->
     slack_api (connected collector_id today_date (Page k)) (length (slack st))
       = Raise ConnectionError ->
     page_loop collector_id today_date py_format server slack_api (k :: pages) acc st =
       (let! _ := post_message_to_slack slack_api (unable today_date) in
        page_loop collector_id today_date py_format server slack_api pages acc)
         {| requests := requests st ++ [Page k];
            slack := slack st ++ [connected collector_id today_date (Page k)] |}) /\
  (forall (status : Z) (details : pyval),
     server Probe 0%nat = Response status (Ok details) ->
     py_in "error" details = Ok true ->
     get_survey_monkey_data collector_id today_date py_format server slack_api
       {| requests := []; slack := [] |} =
       ((fun _ : unit => []) <$>
          slack_api "Survey Monkey Data Load: Rate Limit Reached for Survey Monkey APIs"
            0%nat,
        {| requests := [Probe];
           slack := ["Survey Monkey Data Load: Rate Limit Reached for Survey Monkey APIs"]
        |})).
Proof.
  intros Hk Hlimit. split; [|split; [|split]].
  - intros Hslack.
    unfold get_survey_monkey_data, try_get, try_connection, s_get.
    generalize (page_loop_stops k json Hlimit Hslack max_page_number 1 []).
    generalize (page_loop collector_id today_date py_format server slack_api
                  (seq 1 max_page_number) []).
    intros loop Hloop. cbn [requests slack app].
    assert (Hq : forall sl, quiet_from 1 {| requests := [Probe]; slack := sl |})
      by (intros sl j Hj; reflexivity).
    destruct (server Probe _) as [|status body].
    + unfold bind, post_message_to_slack. cbn [requests slack].
      destruct (slack_api _ _) as [[]|e]; apply (quiet_stopped 1 k _ Hk), Hq.
    + destruct body as [details|e]; [|apply (quiet_stopped 1 k _ Hk), Hq].
      unfold bind, lift. cbn [fst snd].
      destruct (py_in "error" details) as [[|]|e].
      * unfold post_message_to_slack. cbn [requests slack].
        destruct (slack_api _ _) as [[]|e]; apply (quiet_stopped 1 k _ Hk), Hq.
      * apply Hloop; [exact Hk|apply Hq].
      * apply (quiet_stopped 1 k _ Hk), Hq.
  - intros pages acc st Hfresh Hslack. cbn [page_loop].
    unfold try_connection. rewrite get_page_eq, Hfresh, Hlimit, Hslack. reflexivity.
  - intros pages acc st Hfresh Hslack. cbn [page_loop].
    unfold try_connection. rewrite get_page_eq, Hfresh, Hlimit, Hslack. reflexivity.
  - intros status details Hprobe Herror.
    unfold get_survey_monkey_data, try_get, try_connection, s_get.
    cbn [requests slack app count_occ]. rewrite Hprobe.
    unfold bind, lift. cbn [fst snd]. rewrite Herror.
    unfold post_message_to_slack, ret. cbn [requests slack app length].
    destruct (slack_api _ 0%nat) as [[]|e]; reflexivity.
Qed.

End SurveyMonkeyFacts.

(** A SurveyMonkey account for the examples: page 1 holds one message, page 2
    is throttled on the first request only, page 3 holds a message too. *)
Definition example_message (id : string) : pyval :=
  PDict [("id", PStr id);
         ("href", PStr ("https://api.surveymonkey.com/v3/collectors/1/messages/" +:+ id))].

Definition example_server (r : SurveyMonkey.request) (earlier : nat)
  : SurveyMonkey.http_result :=
  match r with
  | SurveyMonkey.Probe => SurveyMonkey.Response 200 (Ok (PDict [("data", PList [])]))
  | SurveyMonkey.Page 1 =>
      SurveyMonkey.Response 200 (Ok (PDict [("data", PList [example_message "m1"])]))
  | SurveyMonkey.Page 2 =>
      match earlier with
      | O => SurveyMonkey.Response 429 (Raise ValueError)
      | _ => SurveyMonkey.Response 200 (Ok (PDict [("data", PList [example_message "m2"])]))
      end
  | SurveyMonkey.Page 3 =>
      SurveyMonkey.Response 200 (Ok (PDict [("data", PList [example_message "m3"])]))
  | SurveyMonkey.Page _ => SurveyMonkey.Response 200 (Ok (PDict [("data", PList [])]))
  | SurveyMonkey.Stats _ =>
      SurveyMonkey.Response 200
        (Ok (PDict [("mail_status",
                     PDict [("sent", PInt 1); ("opened", PInt 1); ("not_sent", PInt 0);
                            ("opted_out", PInt 0); ("bounced", PInt 0);
                            ("link_clicked", PInt 0)])]))
  | SurveyMonkey.Recipients _ =>
      SurveyMonkey.Response 200
        (Ok (PDict [("data", PList [PDict [("id", PStr "r1"); ("email", PStr "a@x.com")]])]))
  end.

(** The same account when every answer is a rate-limit error. *)
Definition throttled_server (r : SurveyMonkey.request) (earlier : nat)
  : SurveyMonkey.http_result :=
  SurveyMonkey.Response 429 (Ok (PDict [("error", PDict [("id", PStr "1040")])])).

Definition example_format (v : pyval) : string :=
  match v with PStr s => s | _ => "" end.

(** A Slack that takes every message, and one whose connection fails for
    the messages of line 69. *)
Definition example_slack (text : string) (earlier : nat) : result unit := Ok tt.

Definition flaky_slack (text : string) (earlier : nat) : result unit :=
  if String.prefix "Survey Monkey Data Load: Connected" text
  then Raise ConnectionError else Ok tt.

Definition no_traffic : SurveyMonkey.net :=
  {| SurveyMonkey.requests := []; SurveyMonkey.slack := [] |}.

Lemma rate_limited_page_ends_the_loop_witness :
  (stopped_at 2
     (SurveyMonkey.get_survey_monkey_data "1" "January 01, 2020" example_format
        example_server example_slack no_traffic).2 /\
   SurveyMonkey.page_loop "1" "January 01, 2020" example_format example_server
     example_slack [2; 3]%nat [] no_traffic =
     (Ok [],
      {| SurveyMonkey.requests := [SurveyMonkey.Page 2];
         SurveyMonkey.slack :=
           [SurveyMonkey.connected "1" "January 01, 2020" (SurveyMonkey.Page 2)] |})) /\
  SurveyMonkey.page_loop "1" "January 01, 2020" example_format example_server
    flaky_slack [2; 3]%nat [] no_traffic =
    (Ok [],
     {| SurveyMonkey.requests := [SurveyMonkey.Page 2; SurveyMonkey.Page 3];
        SurveyMonkey.slack :=
          [SurveyMonkey.connected "1" "January 01, 2020" (SurveyMonkey.Page 2);
           SurveyMonkey.unable "January 01, 2020";
           SurveyMonkey.connected "1" "January 01, 2020" (SurveyMonkey.Page 3);
           SurveyMonkey.unable "January 01, 2020"] |}) /\
  SurveyMonkey.get_survey_monkey_data "1" "January 01, 2020" example_format
    throttled_server example_slack no_traffic =
    (Ok [],
     {| SurveyMonkey.requests := [SurveyMonkey.Probe];
        SurveyMonkey.slack :=
          ["Survey Monkey Data Load: Rate Limit Reached for Survey Monkey APIs"] |}).
Proof.
  destruct (rate_limited_page_ends_the_loop "1" "January 01, 2020" example_format
              example_server example_slack 2 (Raise ValueError)
              (le_S 1 1 (le_n 1)) eq_refl) as (Hstop & Hbreak & _ & _).
  destruct (rate_limited_page_ends_the_loop "1" "January 01, 2020" example_format
              example_server flaky_slack 2 (Raise ValueError)
              (le_S 1 1 (le_n 1)) eq_refl) as (_ & _ & Hskip & _).
  destruct (rate_limited_page_ends_the_loop "1" "January 01, 2020" example_format
              throttled_server example_slack 2
              (Ok (PDict [("error", PDict [("id", PStr "1040")])]))
              (le_S 1 1 (le_n 1)) eq_refl) as (_ & _ & _ & Hprobe).
  split; [split|split].
  - apply Hstop. intros n. discriminate.
  - apply (Hbreak [3%nat] [] no_traffic); reflexivity.
  - rewrite (Hskip [3%nat] [] no_traffic); reflexivity.
  - apply (Hprobe 429 (PDict [("error", PDict [("id", PStr "1040")])])); reflexivity.
Defined.

(** C8 as stated fails: page 2 is throttled once and would answer a second
    request, and page 3 holds a message; with every Slack message delivered,
    the function asks for page 2 a single time, never asks for page 3, and
    returns the one record of page 1. *)
Lemma rate_limited_page_not_retried_rest_skipped :
  example_server (SurveyMonkey.Page 2) 1
    = SurveyMonkey.Response 200 (Ok (PDict [("data", PList [example_message "m2"])])) /\
  example_server (SurveyMonkey.Page 3) 0
    = SurveyMonkey.Response 200 (Ok (PDict [("data", PList [example_message "m3"])])) /\
  SurveyMonkey.requests
    (SurveyMonkey.get_survey_monkey_data "1" "January 01, 2020" example_format
       example_server example_slack no_traffic).2
    = [SurveyMonkey.Probe; SurveyMonkey.Page 1; SurveyMonkey.Stats "m1";
       SurveyMonkey.Recipients
         "https://api.surveymonkey.com/v3/collectors/1/messages/m1/recipients";
       SurveyMonkey.Page 2] /\
  (SurveyMonkey.get_survey_monkey_data "1" "January 01, 2020" example_format
     example_server example_slack no_traffic).1
    = Ok [py_dict [("recipient_email", PStr "a@x.com"); ("message_id", PStr "m1");
                   ("recipient_id", PStr "r1");
                   ("last_email_status", PStr "Email Sent -> Email Opened -> ")]].
Proof. repeat split; vm_compute; reflexivity. Qed.

(** ** The script of stripe_events_dw_salesforce.py *)

Section ScriptFacts.
Import Helpers StripeDW.
Variable strftime : Z -> string.
Variable dateutil_parse : string -> option Z.
Variable fromutc : Z -> Z.
Variable from_unixtime : Z -> pyval.
Variable query_rows : string -> result (list (list (string * pyval))).
Variable md5_hexdigest : string -> string.
Variable fromtimestamp : Z -> result Z.

Lemma mapM_Forall2 {A B} (f : A -> result B) (l : list A) (l' : list B) :
  mapM f l = Ok l' -> Forall2 (fun a b => f a = Ok b) l l'.
Proof.
  revert l'. induction l as [|a l IH]; simpl; intros l'.
  - intros [= <-]. constructor.
  - destruct (f a) as [b|] eqn:Hb; simpl; [|discriminate].
    destruct (mapM f l) as [bs|]; simpl; [|discriminate].
    intros [= <-]. constructor; [exact Hb|]. now apply IH.
Qed.

Lemma mapM_Ok_In {A B} (f : A -> result B) (l : list A) (l' : list B) (b : B) :
  mapM f l = Ok l' -> In b l' -> exists a, In a l /\ f a = Ok b.
Proof.
  intros H Hb. apply mapM_Forall2 in H.
  induction H as [|a b' l l' Hab _ IH]; [destruct Hb|].
  destruct Hb as [->|Hb]; [exists a; split; [now left|exact Hab]|].
  destruct (IH Hb) as (a' & Ha' & Hf). exists a'. split; [now right|exact Hf].
Qed.

Lemma mapM_In_Ok {A B} (f : A -> result B) (l : list A) (l' : list B) (a : A) :
  mapM f l = Ok l' -> In a l -> exists b, In b l' /\ f a = Ok b.
Proof.
  intros H Ha. apply mapM_Forall2 in H.
  induction H as [|a' b l l' Hab _ IH]; [destruct Ha|].
  destruct Ha as [->|Ha]; [exists b; split; [now left|exact Hab]|].
  destruct (IH Ha) as (b' & Hb' & Hf). exists b'. split; [now right|exact Hf].
Qed.

Lemma add_email_created (e : env) (dicts dicts' : record) :
  add_email e dicts = Ok dicts' -> created_of dicts' = created_of dicts.
Proof.
  unfold add_email, created_of. intros H.
  assert (Hins : exists v, dicts' = <["email" := v]> dicts).
  { destruct (dicts !! "customer_id") as [cust_id|]; [|discriminate].
    destruct (negb (is_str cust_id "null")).
    - destruct (get_email e cust_id) as [email|[]]; inversion H; eauto.
    - inversion H; eauto. }
  destruct Hins as [v ->]. now rewrite lookup_insert_ne.
Qed.

Lemma In_insert_desc (z x : Z) (l : list Z) :
  In x (insert_desc z l) <-> x = z \/ In x l.
Proof.
  induction l as [|y l IH]; simpl; [intuition congruence|].
  destruct (Z.ltb z y); simpl; [rewrite IH|]; intuition congruence.
Qed.

Lemma In_sorted_reverse (x : Z) (l : list Z) : In x (sorted_reverse l) <-> In x l.
Proof.
  induction l as [|y l IH]; simpl; [tauto|].
  rewrite In_insert_desc, IH. intuition congruence.
Qed.

Lemma insert_desc_sorted (z : Z) (l : list Z) :
  StronglySorted (fun a b => b <= a) l -> StronglySorted (fun a b => b <= a) (insert_desc z l).
Proof.
  induction 1 as [|y l Hs IH Hall]; simpl; [repeat constructor|].
  destruct (Z.ltb_spec z y) as [Hlt|Hge].
  - constructor; [exact IH|].
    apply Forall_forall. intros x Hx. apply list_elem_of_In, In_insert_desc in Hx.
    destruct Hx as [->|Hx]; [lia|].
    rewrite Forall_forall in Hall. now apply Hall, list_elem_of_In.
  - constructor; [now constructor|].
    constructor; [exact Hge|].
    eapply Forall_impl; [exact Hall|]. simpl. intros; lia.
Qed.

(** [sorted(l, reverse=True)[0]] is the greatest element of [l]. *)
Lemma newest_is_greatest (l : list Z) (m : Z) :
  index0 (sorted_reverse l) = Ok m -> In m l /\ forall c, In c l -> c <= m.
Proof.
  intros Hm.
  assert (Hs : StronglySorted (fun a b => b <= a) (sorted_reverse l)).
  { clear Hm. induction l as [|y l IH]; simpl; [constructor|].
    now apply insert_desc_sorted. }
  assert (Hin : forall x, In x (sorted_reverse l) <-> In x l)
    by (intros; apply In_sorted_reverse).
  destruct (sorted_reverse l) as [|top rest]; [discriminate|].
  injection Hm as ->. split; [apply Hin; now left|].
  intros c Hc. apply Hin in Hc as [->|Hc]; [lia|].
  apply StronglySorted_cons in Hs as [Hall _]. rewrite Forall_forall in Hall.
  now apply Hall, list_elem_of_In.
Qed.

(** The value [dictify] leaves in a row for the server's value [v]. *)
Definition dictified (v : pyval) : pyval :=
  match v with PDatetime d => PStr (strftime d) | _ => v end.

Lemma py_dict_singleton {V} (k : string) (v : V) : py_dict [(k, v)] = {[k := v]}.
Proof. unfold py_dict. cbn [foldl fst snd]. apply insert_empty. Qed.

Lemma dictify_single (h : string) (v : pyval) :
  dictify strftime [[(h, v)]] = [ {[h := dictified v]} ].
Proof.
  unfold dictify. cbn [map]. rewrite py_dict_singleton, map_fmap_singleton. reflexivity.
Qed.

Lemma values_singleton (h : string) (v : pyval) : values {[h := v]} = [v].
Proof. unfold values. rewrite map_to_list_singleton. reflexivity. Qed.

(** The select of line 152 returns one row with one column, or [None] when
    the server faults. *)
Lemma get_select_data_from_unixtime (ts : Z) (w : mysql) :
  (get_select_data strftime from_unixtime query_rows (SqlSelectFromUnixtime ts) w).1 =
    Ok (match upcoming w with
        | [] | NoFault :: _ =>
            Some [ {["from_unixtime(" +:+ pretty ts +:+ ")" := dictified (from_unixtime ts)]} ]
        | _ => None
        end).
Proof.
  cbv [get_select_data bind execute_commit next_fault raise lift fetchall rbind].
  destruct (upcoming w) as [|[] fs]; cbv beta iota; try reflexivity;
    now rewrite dictify_single.
Qed.

Lemma first_value_select (ts : Z) (w w' : mysql) (selected : option (list record))
    (max_date : pyval) :
  get_select_data strftime from_unixtime query_rows (SqlSelectFromUnixtime ts) w
    = (Ok selected, w') ->
  first_value selected = Ok max_date ->
  max_date = dictified (from_unixtime ts).
Proof.
  intros Hsel. pose proof (get_select_data_from_unixtime ts w) as Hfst.
  rewrite Hsel in Hfst. cbn [fst] in Hfst. injection Hfst as ->.
  destruct (upcoming w) as [|[] fs]; cbv [first_value index0 rbind];
    rewrite ?values_singleton; congruence.
Qed.

(** One step of a run that is known to end well: name the outcome of the
    first command and drop the branch in which it raises. *)
Ltac run_step H a w' E :=
  unfold bind at 1 in H;
  match type of H with
  | (match ?p ?w0 with _ => _ end) = _ =>
      destruct (p w0) as [[a|?] w'] eqn:E; [|discriminate H]
  end.

Ltac lift_step H a E :=
  unfold bind at 1 in H; unfold lift at 1 in H;
  match type of H with
  | (match ?r with _ => _ end) = _ =>
      destruct r as [a|?] eqn:E; [|discriminate H]
  end.

(** C1, as amended: in every run whose body ends well, the [max_date] handed
    to the audit log is the server's rendering of the greatest [created]
    among all the records fetched from the stage table, whether or not the
    warehouse accepted them; the script records no outcome of its writes. *)
Theorem watermark_is_newest_fetched (e : env) (w w1 : mysql) (max_date : pyval) :
  script_body strftime dateutil_parse fromutc from_unixtime query_rows md5_hexdigest fromtimestamp e w
    = (Ok max_date, w1) ->
  (exists newest,
      (exists dico, In dico (stage_data e) /\ created_of dico = Ok newest) /\
      (forall dico, In dico (stage_data e) ->
                    exists c, created_of dico = Ok c /\ c <= newest) /\
      max_date = dictified (from_unixtime newest)) /\
  script strftime dateutil_parse fromutc from_unixtime query_rows md5_hexdigest fromtimestamp e w
    = etl_log strftime dateutil_parse fromutc "Stripe Logs" "Dynamo" "DW+SF" max_date w1.
Proof.
  intros Hrun. split; [|unfold script, bind; now rewrite Hrun].
  unfold script_body in Hrun.
  destruct (stage_data e) as [|d0 ds] eqn:Hstage.
  { unfold bind, raise in Hrun.
    destruct (etl_log _ _ _ _ _ _ _ w) as [[|] ?]; discriminate. }
  remember (d0 :: ds) as fetched eqn:Hfetched. clear Hfetched.
  lift_step Hrun data Edata.
  lift_step Hrun mysql_data Emysql.
  lift_step Hrun first_row Efirst.
  run_step Hrun u1 w2 Einsert.
  lift_step Hrun created Ecreated.
  lift_step Hrun newest Enewest.
  run_step Hrun selected w3 Eselect.
  lift_step Hrun md Emd.
  run_step Hrun u2 w4 Efed.
  lift_step Hrun u3 Esf.
  lift_step Hrun data_obj Eobj.
  lift_step Hrun first_obj Efirst_obj.
  run_step Hrun u4 w5 Einsert_obj.
  lift_step Hrun u5 Escripts.
  lift_step Hrun u6 Edelete.
  injection Hrun as <- <-.
  destruct (newest_is_greatest created newest Enewest) as [Hin Hmax].
  exists newest. split; [|split].
  - destruct (mapM_Ok_In _ _ _ newest Ecreated Hin) as (dico' & Hd' & Hc').
    destruct (mapM_Ok_In _ _ _ dico' Edata Hd') as (dico & Hd & Hadd).
    exists dico. split; [exact Hd|]. now rewrite <- (add_email_created e dico dico').
  - intros dico Hd.
    destruct (mapM_In_Ok _ _ _ dico Edata Hd) as (dico' & Hd' & Hadd).
    destruct (mapM_In_Ok _ _ _ dico' Ecreated Hd') as (c & Hc & Hcreated).
    exists c. split; [|now apply Hmax].
    now rewrite <- (add_email_created e dico dico').
  - exact (first_value_select newest _ _ selected md Eselect Emd).
Qed.

End ScriptFacts.

(** A record of the stage table: the summary of [event_without_amount]. *)
Definition staged_event : record := summary_of event_without_amount.

Definition staged_object : record :=
  py_dict [("id", PStr "evt_1"); ("event_unixtimestamp", PStr "100");
           ("event_datetime", PStr "1970-01-01 00:01:40"); ("object", PStr "charge");
           ("data", PStr "{}")].

(** A run with one staged event, in which every collaborator but MySQL
    answers. *)
Definition example_env (stage : list record) : StripeDW.env :=
  {| StripeDW.stage_data := stage;
     StripeDW.customer_email := fun _ => Raise InvalidRequestError;
     StripeDW.salesforce_sync := Ok tt;
     StripeDW.object_stage := Ok [staged_object];
     StripeDW.object_scripts := Ok tt;
     StripeDW.delete_stage_items := Ok tt |}.

Definition no_rows (text : string) : result (list (list (string * pyval))) :=
  Raise RemoteError.

Definition example_body (stage : list record) (faults : list Helpers.fault)
  : result pyval * Helpers.mysql :=
  StripeDW.script_body example_strftime example_parse (fun d => d) PDatetime no_rows
    example_md5 example_fromtimestamp (example_env stage) (fresh_mysql faults).

Definition example_script (stage : list record) (faults : list Helpers.fault)
  : result unit * Helpers.mysql :=
  StripeDW.script example_strftime example_parse (fun d => d) PDatetime no_rows
    example_md5 example_fromtimestamp (example_env stage) (fresh_mysql faults).

Lemma pair_from_fst {A B} (p : A * B) (a : A) : p.1 = a -> p = (a, p.2).
Proof. destruct p. simpl. now intros ->. Defined.

Lemma watermark_is_newest_fetched_witness :
  (exists newest,
      (exists dico, In dico [staged_event] /\ StripeDW.created_of dico = Ok newest) /\
      (forall dico, In dico [staged_event] ->
                    exists c, StripeDW.created_of dico = Ok c /\ c <= newest) /\
      PStr "1970-01-01 00:01:40" = dictified example_strftime (PDatetime newest)) /\
  example_script [staged_event] [Helpers.ExecuteFails]
    = Helpers.etl_log example_strftime example_parse (fun d => d)
        "Stripe Logs" "Dynamo" "DW+SF" (PStr "1970-01-01 00:01:40")
        (example_body [staged_event] [Helpers.ExecuteFails]).2.
Proof.
  apply (watermark_is_newest_fetched example_strftime example_parse (fun d => d) PDatetime
           no_rows example_md5 example_fromtimestamp (example_env [staged_event])
           (fresh_mysql [Helpers.ExecuteFails])).
  apply (pair_from_fst (example_body [staged_event] [Helpers.ExecuteFails])).
  vm_compute. reflexivity.
Defined.

(** C1 as stated fails: the insert into stripe.event_log fails, so no record
    is written, and the run still records the watermark 100 of the record it
    fetched. *)
Lemma watermark_recorded_without_written_record :
  (example_script [staged_event] [Helpers.ExecuteFails]).1 = Ok tt /\
  map StripeDW.watermark
      (StripeDW.audit_rows
         (Helpers.committed (example_script [staged_event] [Helpers.ExecuteFails]).2))
    = [Some 100] /\
  StripeDW.written_records
    (Helpers.committed (example_script [staged_event] [Helpers.ExecuteFails]).2) = [].
Proof. repeat split; vm_compute; reflexivity. Qed.

(** ** The audit log of the script *)

Section AuditFacts.
Import Helpers StripeDW.
Variable strftime : Z -> string.
Variable dateutil_parse : string -> option Z.
Variable fromutc : Z -> Z.
Variable from_unixtime : Z -> pyval.
Variable query_rows : string -> result (list (list (string * pyval))).
Variable md5_hexdigest : string -> string.
Variable fromtimestamp : Z -> result Z.

(** A piece of the script that commits no audit-log row. *)
Definition adds_no_audit {A} (p : prog mysql A) : Prop :=
  forall w, exists extra,
    committed (p w).2 = committed w ++ extra /\ audit_rows extra = [].

Lemma adds_no_audit_ret {A} (a : A) : adds_no_audit (ret a).
Proof. intros w. exists []. simpl. now rewrite app_nil_r. Qed.

Lemma adds_no_audit_lift {A} (r : result A) : adds_no_audit (lift r).
Proof. intros w. exists []. simpl. now rewrite app_nil_r. Qed.

Lemma audit_rows_app (l1 l2 : list call) :
  audit_rows (l1 ++ l2) = audit_rows l1 ++ audit_rows l2.
Proof. apply List.filter_app. Qed.

Lemma adds_no_audit_bind {A B} (p : prog mysql A) (k : A -> prog mysql B) :
  adds_no_audit p -> (forall a, adds_no_audit (k a)) -> adds_no_audit (bind p k).
Proof.
  intros Hp Hk w. unfold bind. destruct (Hp w) as (e1 & E1 & F1).
  destruct (p w) as [[a|ex] w1]; cbn [snd] in *; [|eauto].
  destruct (Hk a w1) as (e2 & E2 & F2).
  exists (e1 ++ e2). rewrite E2, E1, app_assoc. split; [reflexivity|].
  now rewrite audit_rows_app, F1, F2.
Qed.

Lemma adds_no_audit_call (c : call) :
  is_audit_call c = false -> adds_no_audit (try_pass (execute_commit c)).
Proof.
  intros Hc w. eexists. split; [apply try_pass_execute_commit_state|].
  destruct (upcoming w) as [|[] fs]; unfold audit_rows; cbn [List.filter];
    rewrite ?Hc; reflexivity.
Qed.

Lemma adds_no_audit_select (ts : Z) :
  adds_no_audit (get_select_data strftime from_unixtime query_rows (SqlSelectFromUnixtime ts)).
Proof.
  intros w. cbv [get_select_data bind execute_commit next_fault raise lift fetchall rbind].
  destruct (upcoming w) as [|[] fs]; cbv beta iota; cbn [snd committed].
  1,2: exists [Execute (SqlSelectFromUnixtime ts) []]; split; reflexivity.
  all: exists []; split; [now rewrite app_nil_r|reflexivity].
Qed.

(** With data to process, nothing before line 212 touches the audit log. *)
Lemma script_body_adds_no_audit (e : env) :
  stage_data e <> [] ->
  adds_no_audit
    (script_body strftime dateutil_parse fromutc from_unixtime query_rows md5_hexdigest fromtimestamp e).
Proof.
  intros Hdata. unfold script_body.
  destruct (stage_data e) as [|d0 ds]; [congruence|].
  repeat first
    [ apply adds_no_audit_ret
    | apply adds_no_audit_bind; [|intros ?]
    | apply adds_no_audit_lift
    | apply adds_no_audit_select
    | apply adds_no_audit_call; reflexivity ].
Qed.

(** What [etl_log] commits: its one row, when the date converts and the
    server has no fault for the insert, and nothing otherwise. *)
Lemma etl_log_commits (etl_process source target : string) (max_date : pyval) (w : mysql) :
  exists extra,
    committed (etl_log strftime dateutil_parse fromutc etl_process source target max_date w).2
      = committed w ++ extra /\
    (extra = [] \/ exists row, extra = [row] /\ is_audit_call row = true) /\
    (forall x, (etl_log strftime dateutil_parse fromutc etl_process source target max_date w).1
                 = Raise x -> extra = []).
Proof.
  unfold etl_log, bind, lift.
  destruct (truthy max_date).
  - destruct (convert_datetime strftime dateutil_parse fromutc max_date true false)
      as [d|x]; cbn [rbind].
    + eexists. split; [apply try_pass_execute_commit_state|]. split.
      * destruct (upcoming w) as [|[] fs]; eauto.
      * intros x Hx. now rewrite try_pass_execute_commit in Hx.
    + exists []. cbn [snd fst]. rewrite app_nil_r. eauto.
  - eexists. split; [apply try_pass_execute_commit_state|]. split.
    + destruct (upcoming w) as [|[] fs]; eauto.
    + intros x Hx. now rewrite try_pass_execute_commit in Hx.
Qed.

(** The row of the early exit. *)
Definition undated_row : call :=
  Execute audit_stmt_undated [PStr "Stripe Logs"; PStr "Dynamo"; PStr "DW+SF"].

(** The row the closing [etl_log] of line 212 sends for [max_date]: none when
    [max_date] is truthy and does not convert to a datetime. *)
Definition closing_row (max_date : pyval) : option call :=
  if truthy max_date then
    match convert_datetime strftime dateutil_parse fromutc max_date true false with
    | Ok d =>
        Some (Execute audit_stmt_dated
                [PStr "Stripe Logs"; PStr "Dynamo"; PStr "DW+SF"; d])
    | Raise _ => None
    end
  else Some undated_row.

(** What the closing [etl_log] commits, given the faults the server still has
    in store. *)
Definition closing_rows (max_date : pyval) (faults : list fault) : list call :=
  match closing_row max_date, faults with
  | Some row, ([] | NoFault :: _) => [row]
  | _, _ => []
  end.

Lemma etl_log_rows (max_date : pyval) (w : mysql) :
  committed
    (etl_log strftime dateutil_parse fromutc "Stripe Logs" "Dynamo" "DW+SF" max_date w).2
    = committed w ++ closing_rows max_date (upcoming w) /\
  audit_rows (closing_rows max_date (upcoming w)) = closing_rows max_date (upcoming w) /\
  (length (closing_rows max_date (upcoming w)) <= 1)%nat /\
  (forall x,
      (etl_log strftime dateutil_parse fromutc "Stripe Logs" "Dynamo" "DW+SF" max_date w).1
        = Raise x -> closing_rows max_date (upcoming w) = []).
Proof.
  unfold etl_log, bind, lift, closing_rows, closing_row.
  destruct (truthy max_date).
  - destruct (convert_datetime strftime dateutil_parse fromutc max_date true false)
      as [d|x]; cbn [rbind].
    + rewrite try_pass_execute_commit_state.
      pose proof (try_pass_execute_commit
                    (Execute audit_stmt_dated
                       [PStr "Stripe Logs"; PStr "Dynamo"; PStr "DW+SF"; d]) w) as Hok.
      destruct (upcoming w) as [|[] fs]; repeat split; try (cbn; lia);
        intros x Hx; rewrite Hok in Hx; discriminate.
    + cbn [fst snd]. rewrite app_nil_r.
      destruct (upcoming w) as [|[] fs]; repeat split; cbn; lia.
  - fold undated_row. rewrite try_pass_execute_commit_state.
    pose proof (try_pass_execute_commit undated_row w) as Hok.
    destruct (upcoming w) as [|[] fs]; repeat split; try (cbn; lia);
      intros x Hx; rewrite Hok in Hx; discriminate.
Qed.

(** A swallowed write uses up one fault of the server and returns. *)
Lemma swallowed_write_step (c : call) (w : mysql) :
  exists w', try_pass (execute_commit c) w = (Ok tt, w') /\ upcoming w' = tl (upcoming w).
Proof.
  unfold try_pass, execute_commit, bind, next_fault, raise.
  destruct (upcoming w) as [|[] fs] eqn:E; eexists; (split; [reflexivity|]);
    cbn [upcoming tl]; rewrite ?E; reflexivity.
Qed.

Lemma select_step (ts : Z) (w : mysql) :
  exists w',
    get_select_data strftime from_unixtime query_rows (SqlSelectFromUnixtime ts) w =
      (Ok (match upcoming w with
           | [] | NoFault :: _ =>
               Some [ {["from_unixtime(" +:+ pretty ts +:+ ")"
                        := dictified strftime (from_unixtime ts)]} ]
           | _ => None
           end), w') /\
    upcoming w' = tl (upcoming w).
Proof.
  cbv [get_select_data bind execute_commit next_fault raise lift fetchall rbind].
  destruct (upcoming w) as [|[] fs] eqn:E; cbv beta iota; rewrite ?dictify_single;
    eexists; (split; [reflexivity|]); cbn [upcoming tl]; rewrite ?E; reflexivity.
Qed.

(** With data, the body of the script reaches its end whenever the records
    convert, the collaborators other than MySQL answer and the watermark
    select runs: the faults [f1], [f3] and [f4] of the two batch inserts and
    of the copy to the federated table are swallowed. *)
Lemma script_body_survives_write_faults (e : env) (w : mysql)
    (data rows : list record) (created : list Z) (data_obj : list record)
    (f1 f3 f4 : fault) (fs : list fault) :
  stage_data e <> [] ->
  mapM (add_email e) (stage_data e) = Ok data ->
  prep_data_mysql strftime md5_hexdigest fromtimestamp data = Ok rows ->
  mapM created_of data = Ok created ->
  salesforce_sync e = Ok tt ->
  object_stage e = Ok data_obj -> data_obj <> [] ->
  object_scripts e = Ok tt ->
  delete_stage_items e = Ok tt ->
  upcoming w = f1 :: NoFault :: f3 :: f4 :: fs ->
  exists newest w1,
    index0 (sorted_reverse created) = Ok newest /\
    script_body strftime dateutil_parse fromutc from_unixtime query_rows md5_hexdigest fromtimestamp e w
      = (Ok (dictified strftime (from_unixtime newest)), w1) /\
    upcoming w1 = fs.
Proof.
  intros Hdata Hemail Hprep Hcreated Hsf Hobj Hobj_ne Hscripts Hdelete Hfaults.
  pose proof (Forall2_length _ _ _ (mapM_Forall2 _ _ _ Hemail)) as Ldata.
  pose proof (Forall2_length _ _ _ (mapM_Forall2 _ _ _ Hprep)) as Lrows.
  pose proof (Forall2_length _ _ _ (mapM_Forall2 _ _ _ Hcreated)) as Lcreated.
  destruct rows as [|r rs];
    [destruct (stage_data e); [congruence|]; simpl in *; lia|].
  assert (Hnewest : exists n, index0 (sorted_reverse created) = Ok n).
  { destruct created as [|c cs];
      [destruct (stage_data e); [congruence|]; simpl in *; lia|].
    simpl. destruct (sorted_reverse cs) as [|y ys]; simpl; [eauto|].
    destruct (Z.ltb c y); simpl; eauto. }
  destruct Hnewest as [n Hn]. exists n.
  destruct data_obj as [|first_obj objs]; [congruence|].
  unfold script_body. destruct (stage_data e) as [|d0 ds] eqn:Hst; [congruence|].
  unfold bind at 1. unfold lift at 1. rewrite Hemail.
  unfold bind at 1. unfold lift at 1. rewrite Hprep.
  unfold bind at 1. unfold lift at 1. cbn [index0].
  unfold bind at 1. unfold insert_data at 1.
  destruct (swallowed_write_step (ExecuteMany (event_log_stmt r) (r :: rs)) w)
    as (w2 & -> & U2). rewrite Hfaults in U2. cbn [tl] in U2.
  unfold bind at 1. unfold lift at 1. rewrite Hcreated.
  unfold bind at 1. unfold lift at 1. rewrite Hn.
  unfold bind at 1.
  destruct (select_step n w2) as (w3 & -> & U3). rewrite U2 in U3 |- *. cbn [tl] in U3.
  unfold bind at 1. unfold lift at 1.
  cbv [first_value index0 rbind]. rewrite values_singleton.
  unfold bind at 1. unfold exec_simple at 1.
  destruct (swallowed_write_step
              (Execute (SqlText "insert into fed.stripe_event_log_fed select * from stripe.event_log;")
                 []) w3) as (w4 & -> & U4). rewrite U3 in U4. cbn [tl] in U4.
  unfold bind at 1. unfold lift at 1. rewrite Hsf.
  unfold bind at 1. unfold lift at 1. rewrite Hobj.
  unfold bind at 1. unfold lift at 1.
  unfold bind at 1. unfold insert_data at 1.
  destruct (swallowed_write_step
              (ExecuteMany (create_stmt "stripe.event_object_raw" "INSERT IGNORE"
                              (keys first_obj)) (first_obj :: objs)) w4)
    as (w5 & -> & U5). rewrite U4 in U5. cbn [tl] in U5.
  unfold bind at 1. unfold lift at 1. rewrite Hscripts.
  unfold bind at 1. unfold lift at 1. rewrite Hdelete.
  exists w5. split; [reflexivity|]. split; [reflexivity|exact U5].
Qed.


End AuditFacts.


(** The rows of the example run, as [prep_data] makes them. *)
Definition example_rows : list record :=
  match StripeDW.prep_data_mysql example_strftime example_md5 example_fromtimestamp
          [<["email" := PNone]> staged_event] with
  | Ok rows => rows
  | Raise _ => []
  end.


(** ** prep_data for Salesforce: the money fields *)

(** [n / d] rounded to the nearest integer, ties to even, for [0 < d]. *)
Definition round_half_even (n d : Z) : Z :=
  let q := n / d in
  match Z.compare (2 * (n mod d)) d with
  | Lt => q
  | Gt => q + 1
  | Eq => if Z.even q then q else q + 1
  end.

(** The amount in cents that a finite double shows at two decimal places:
    a hundred times its exact value, rounded to the nearest integer. *)
Definition cents_shown (f : float) : option Z :=
  match Prim2SF f with
  | S754_zero _ => Some 0
  | S754_finite s m e =>
      let v := if s then Z.neg m else Z.pos m in
      Some (if Z.leb 0 e then (100 * v * 2 ^ e)%Z
            else round_half_even (100 * v) (2 ^ (- e))%Z)
  | _ => None
  end.

Section SalesforceFacts.
Import StripeDW.
Variable event_date : sfval -> result string.
Variable get_sf_contact_id : sfval -> result pyval.
Variable title : string -> string.
Variable float_of_str : string -> option float.

(** A lookup in a row goes through the writes and pops of other keys. *)
Ltac through_row :=
  repeat first [rewrite lookup_insert_ne by discriminate
               |rewrite lookup_delete_ne by discriminate].

Lemma sf_pop_Ok (k : string) (x x' : sfrow) (v : sfval) :
  sf_pop k x = Ok (v, x') -> x !! k = Some v /\ x' = delete k x.
Proof.
  unfold sf_pop. destruct (x !! k) as [v'|]; [|discriminate]. now intros [= <- <-].
Qed.

Lemma money_field_Ok (source target : string) (x x' : sfrow) :
  money_field float_of_str source target x = Ok x' ->
  exists v f, x !! source = Some v /\ to_float float_of_str v = Ok f /\
              x' = <[target := Float (f / 100)]> (delete source x).
Proof.
  unfold money_field, sf_pop. destruct (x !! source) as [v|]; [|discriminate].
  cbn [rbind fst snd]. destruct (to_float float_of_str v) as [f|] eqn:Hf; [|discriminate].
  cbn [rbind]. intros [= <-]. eauto.
Qed.

Lemma plain_lookup (m : record) (k : string) (v : sfval) :
  (Plain <$> m : sfrow) !! k = Some v -> exists p, m !! k = Some p /\ v = Plain p.
Proof.
  rewrite lookup_fmap. destruct (m !! k) as [p|]; [|discriminate].
  intros [= <-]. eauto.
Qed.

(** The three conversions of lines 134 to 136, in their order. *)
Definition money_conversions (a ad ar : pyval) : result (float * float * float) :=
  let? fa := to_float float_of_str (Plain a) in
  let? fad := to_float float_of_str (Plain ad) in
  let? far := to_float float_of_str (Plain ar) in
  Ok (fa, fad, far).


End SalesforceFacts.

(** A staged customer event for the examples, with its [amount] and
    [amount_due], and collaborators that answer: one contact for every
    address, the date of second 100, a [title] that leaves the text as it
    is, and no string that [float] reads. *)
Definition charged_event (amount amount_due : pyval) : record :=
  py_dict [("id", PStr "evt_1"); ("created", PInt 100); ("type", PStr "charge.succeeded");
           ("object", PStr "charge"); ("customer_id", PStr "cus_1");
           ("email", PStr "a@x.com"); ("amount", amount); ("amount_due", amount_due);
           ("amount_refunded", PInt 0); ("object_event_id", PStr "ch_1")].

Definition example_contact : pyval :=
  PDict [("Id", PStr "003"); ("AccountId", PStr "001")].

Definition example_event_date (v : StripeDW.sfval) : result string :=
  match v with
  | StripeDW.Plain (PInt 100) => Ok "1970-01-01T00:01:40.000Z"
  | _ => Raise TypeError
  end.

Definition example_salesforce_fields (x : record) : result (option StripeDW.sfrow) :=
  StripeDW.salesforce_fields example_event_date (fun _ => Ok example_contact)
    (fun s => s) (fun _ => None) (StripeDW.Plain <$> StripeDW.null_to_none x).

Definition example_prep_data_salesforce (list_of_dicts : list record)
  : result (list StripeDW.sfrow) :=
  StripeDW.prep_data_salesforce example_event_date (fun _ => Ok example_contact)
    (fun s => s) (fun _ => None) list_of_dicts.

(** The Salesforce row of one staged event. *)
Definition salesforce_row_of (x : record) : StripeDW.sfrow :=
  match example_prep_data_salesforce [x] with
  | Ok [row] => row
  | _ => ∅
  end.

(** The cents that the money field [k] of a row shows at two decimals. *)
Definition money_shown (row : StripeDW.sfrow) (k : string) : option Z :=
  match row !! k with
  | Some (StripeDW.Float f) => cents_shown f
  | _ => None
  end.



(** * Further properties of the modelled code *)

(** ** clean_empty *)

Section PyvalInduction.
Variable P : pyval -> Prop.
Hypothesis HNone : P PNone.
Hypothesis HBool : forall b, P (PBool b).
Hypothesis HInt : forall z, P (PInt z).
Hypothesis HStr : forall s, P (PStr s).
Hypothesis HDatetime : forall d, P (PDatetime d).
Hypothesis HList : forall l, Forall P l -> P (PList l).
Hypothesis HDict : forall kvs, Forall (fun kv => P (snd kv)) kvs -> P (PDict kvs).

(** Induction on a value with the members of its lists and dicts. *)
Fixpoint pyval_members_ind (v : pyval) : P v :=
  match v with
  | PNone => HNone
  | PBool b => HBool b
  | PInt z => HInt z
  | PStr s => HStr s
  | PDatetime d => HDatetime d
  | PList l =>
      HList l ((fix members (l : list pyval) : Forall P l :=
                  match l with
                  | [] => @List.Forall_nil _ P
                  | x :: l' => @List.Forall_cons _ P x l' (pyval_members_ind x) (members l')
                  end) l)
  | PDict kvs =>
      HDict kvs
        ((fix members (kvs : list (string * pyval)) : Forall (fun kv => P (snd kv)) kvs :=
            match kvs with
            | [] => @List.Forall_nil _ _
            | kv :: kvs' =>
                @List.Forall_cons _ (fun kv => P (snd kv)) kv kvs'
                  (match kv return P (snd kv) with (_, x) => pyval_members_ind x end)
                  (members kvs')
            end) kvs)
  end.

End PyvalInduction.

Lemma filter_all_true {A} (f : A -> bool) (l : list A) :
  (forall x, In x l -> f x = true) -> List.filter f l = l.
Proof.
  induction l as [|a l IH]; simpl; intros H; [reflexivity|].
  rewrite (H a) by now left. f_equal. apply IH. intros x Hx. apply H. now right.
Qed.

Lemma clean_empty_no_falsy (d : pyval) :
  StripeEvents.no_falsy_member (StripeEvents.clean_empty d) = true.
Proof.
  induction d as [| | | | |l IH|kvs IH] using pyval_members_ind; try reflexivity.
  - simpl. apply forallb_forall. intros x Hx.
    apply filter_In in Hx as [Hx Ht]. apply in_map_iff in Hx as (y & <- & Hy).
    rewrite Ht. simpl. rewrite Forall_forall in IH. now apply IH, list_elem_of_In.
  - simpl. apply forallb_forall. intros [k x] Hx.
    apply filter_In in Hx as [Hx Ht]. apply in_map_iff in Hx as ([k' y] & [= <- <-] & Hy).
    simpl in Ht. rewrite Ht. simpl. rewrite Forall_forall in IH.
    now apply (IH (k', y)), list_elem_of_In.
Qed.

Lemma clean_empty_fixed_point (d : pyval) :
  StripeEvents.no_falsy_member d = true -> StripeEvents.clean_empty d = d.
Proof.
  induction d as [| | | | |l IH|kvs IH] using pyval_members_ind; try reflexivity.
  - simpl. intros Hall. rewrite forallb_forall in Hall. rewrite Forall_forall in IH.
    assert (Hmap : map StripeEvents.clean_empty l = l).
    { rewrite <- (map_id l) at 2. apply map_ext_in. intros x Hx.
      apply IH; [now apply list_elem_of_In|].
      specialize (Hall x Hx). now apply andb_true_iff in Hall. }
    rewrite Hmap. f_equal. apply filter_all_true. intros x Hx.
    specialize (Hall x Hx). now apply andb_true_iff in Hall.
  - simpl. intros Hall. rewrite forallb_forall in Hall. rewrite Forall_forall in IH.
    assert (Hmap : map (fun kv : string * pyval =>
                          let '(k, v) := kv in (k, StripeEvents.clean_empty v)) kvs = kvs).
    { rewrite <- (map_id kvs) at 2. apply map_ext_in. intros [k x] Hx.
      f_equal. apply (IH (k, x)); [now apply list_elem_of_In|].
      specialize (Hall (k, x) Hx). now apply andb_true_iff in Hall. }
    rewrite Hmap. f_equal. apply filter_all_true. intros [k x] Hx.
    specialize (Hall (k, x) Hx). now apply andb_true_iff in Hall.
Qed.

(** X1: Whatever is cleaned holds no falsy member at any depth: no [None],
    [False], [0], empty string, empty list or empty dict is left inside a list
    or a dict.  Cleaning twice changes nothing more, and a value without falsy
    members is left as it is. *)
Theorem clean_empty_removes_every_falsy_member (d : pyval) :
  StripeEvents.no_falsy_member (StripeEvents.clean_empty d) = true /\
  StripeEvents.clean_empty (StripeEvents.clean_empty d) = StripeEvents.clean_empty d /\
  (StripeEvents.no_falsy_member d = true -> StripeEvents.clean_empty d = d).
Proof.
  split; [apply clean_empty_no_falsy|].
  split; [|apply clean_empty_fixed_point].
  apply clean_empty_fixed_point, clean_empty_no_falsy.
Qed.

(** ** The id scraped out of the text of an event *)

Section ScrapeFacts.
Import StripeEvents.

(** [c] occurs in [s]. *)
Fixpoint has_char (c : Ascii.ascii) (s : string) : bool :=
  match s with
  | EmptyString => false
  | String a s' => Ascii.eqb a c || has_char c s'
  end.

Lemma has_char_app (c : Ascii.ascii) (s1 s2 : string) :
  has_char c (s1 +:+ s2) = has_char c s1 || has_char c s2.
Proof.
  induction s1 as [|a s1 IH]; simpl; [reflexivity|]. now rewrite IH, orb_assoc.
Qed.

Lemma before_char_cuts (c : Ascii.ascii) (s : string) :
  has_char c (before_char c s) = false.
Proof.
  induction s as [|a s IH]; simpl; [reflexivity|].
  destruct (Ascii.eqb a c) eqn:E; simpl; [reflexivity|]. now rewrite E.
Qed.

Lemma before_char_keeps_absent (c d : Ascii.ascii) (s : string) :
  has_char d s = false -> has_char d (before_char c s) = false.
Proof.
  induction s as [|a s IH]; simpl; [reflexivity|]. intros H.
  apply orb_false_iff in H as [Ha Hs].
  destruct (Ascii.eqb a c); simpl; [reflexivity|]. now rewrite Ha, IH.
Qed.

Lemma remove_char_removes (c : Ascii.ascii) (s : string) :
  has_char c (remove_char c s) = false.
Proof.
  induction s as [|a s IH]; simpl; [reflexivity|].
  destruct (Ascii.eqb a c) eqn:E; simpl; [exact IH|]. now rewrite E.
Qed.

Lemma remove_char_keeps_absent (c d : Ascii.ascii) (s : string) :
  has_char d s = false -> has_char d (remove_char c s) = false.
Proof.
  induction s as [|a s IH]; simpl; [reflexivity|]. intros H.
  apply orb_false_iff in H as [Ha Hs].
  destruct (Ascii.eqb a c); simpl; [now apply IH|]. now rewrite Ha, IH.
Qed.

Lemma remove_char_absent (c : Ascii.ascii) (s : string) :
  has_char c s = false -> remove_char c s = s.
Proof.
  induction s as [|a s IH]; simpl; [reflexivity|]. intros H.
  apply orb_false_iff in H as [Ha Hs]. rewrite Ha. now rewrite IH.
Qed.

Lemma strip_prefix_Some (sep s rest : string) :
  strip_prefix sep s = Some rest <-> s = sep +:+ rest.
Proof.
  revert s. induction sep as [|a sep IH]; intros s; simpl.
  - split; [now intros [= ->]|now intros ->].
  - destruct s as [|b s]; [split; discriminate|].
    destruct (Ascii.eqb_spec a b) as [->|Hne].
    + rewrite IH. split; [now intros ->|now intros [= ->]].
    + split; [discriminate|]. intros [= ? _]. congruence.
Qed.

Lemma after_first_sound (sep s rest : string) :
  after_first sep s = Some rest -> exists before, s = before +:+ sep +:+ rest.
Proof.
  induction s as [|b s IH]; simpl.
  - destruct (strip_prefix sep "") as [r|] eqn:E; [|discriminate].
    intros [= ->]. exists "". apply strip_prefix_Some in E. exact E.
  - destruct (strip_prefix sep (String b s)) as [r|] eqn:E.
    + intros [= ->]. exists "". apply strip_prefix_Some in E. exact E.
    + intros H. destruct (IH H) as [before ->]. now exists (String b before).
Qed.

Lemma after_first_complete (sep before rest : string) :
  is_Some (after_first sep (before +:+ sep +:+ rest)).
Proof.
  induction before as [|b before IH]; simpl.
  - assert (E : strip_prefix sep (sep +:+ rest) = Some rest)
      by (apply strip_prefix_Some; reflexivity).
    destruct (sep +:+ rest); simpl; rewrite E; eauto.
  - destruct (strip_prefix sep (String b (before +:+ sep +:+ rest))); eauto.
Qed.

(** X2: Whatever [customer_id] and [get_id] scrape holds no slash, no comma and
    no double quote, whatever the text and the id prefix are. *)
Theorem scraped_id_has_no_delimiter (id_string : string) (quote : Ascii.ascii)
    (stng r : string) :
  scrape id_string quote stng = Some r ->
  has_char slash r = false /\ has_char comma r = false /\ has_char double_quote r = false.
Proof.
  unfold scrape. destruct (after_first id_string stng) as [rest|]; [|discriminate].
  intros [= <-]. repeat split.
  - apply remove_char_removes.
  - apply remove_char_keeps_absent, remove_char_keeps_absent, before_char_cuts.
  - apply remove_char_keeps_absent, remove_char_removes.
Qed.

(** The occurrence of [sep] that [after_first] finds is the first one: no
    other occurrence starts further to the left. *)
Lemma after_first_is_first (sep s rest : string) :
  after_first sep s = Some rest ->
  exists before,
    s = before +:+ sep +:+ rest /\
    forall before' rest', s = before' +:+ sep +:+ rest' ->
                          (String.length before <= String.length before')%nat.
Proof.
  revert rest. induction s as [|b s IH]; intros rest; simpl.
  - destruct (strip_prefix sep "") as [r|] eqn:E; [|discriminate].
    intros [= ->]. exists "". apply strip_prefix_Some in E.
    split; [exact E|]. intros; simpl; lia.
  - destruct (strip_prefix sep (String b s)) as [r|] eqn:E.
    + intros [= ->]. exists "". apply strip_prefix_Some in E.
      split; [exact E|]. intros; simpl; lia.
    + intros H. destruct (IH rest H) as (before & -> & Hfirst).
      exists (String b before). split; [reflexivity|].
      intros before' rest' Heq. destruct before' as [|b' before'].
      * pose proof (proj2 (strip_prefix_Some sep _ rest') Heq). congruence.
      * injection Heq as _ Heq. simpl.
        specialize (Hfirst before' rest' Heq). lia.
Qed.

(** X3: The [customer_id] property is [None] exactly when the text holds no
    ['cus_']; otherwise it is ['cus_'] followed by the text after the first
    ['cus_'], cut at the first apostrophe, slash or comma, without its double
    quotes. *)
Theorem customer_id_text_spec (stng : string) :
  (customer_id_text stng = None <->
   ~ exists before rest, stng = before +:+ "cus_" +:+ rest) /\
  (forall r, customer_id_text stng = Some r ->
     exists before rest,
       stng = before +:+ "cus_" +:+ rest /\
       (forall before' rest', stng = before' +:+ "cus_" +:+ rest' ->
                              (String.length before <= String.length before')%nat) /\
       r = "cus_" +:+ remove_char double_quote
                        (before_char comma (before_char slash (before_char apostrophe rest))) /\
       has_char apostrophe r = false).
Proof.
  unfold customer_id_text, scrape. split.
  - split.
    + intros Hnone (before & rest & ->).
      destruct (after_first_complete "cus_" before rest) as [x Hx]. now rewrite Hx in Hnone.
    + intros Hno. destruct (after_first "cus_" stng) as [rest|] eqn:E; [|reflexivity].
      exfalso. apply Hno. destruct (after_first_sound _ _ _ E) as [before ->]. eauto.
  - intros r. destruct (after_first "cus_" stng) as [rest|] eqn:E; [|discriminate].
    intros [= <-]. destruct (after_first_is_first _ _ _ E) as (before & -> & Hfirst).
    exists before, rest. split; [reflexivity|]. split; [exact Hfirst|].
    change ("" +:+ before_char apostrophe rest) with (before_char apostrophe rest).
    set (t := before_char apostrophe rest).
    assert (Ht : has_char apostrophe t = false) by apply before_char_cuts.
    rewrite (remove_char_absent slash
               (remove_char double_quote (before_char comma (before_char slash t))))
      by apply remove_char_keeps_absent, before_char_keeps_absent, before_char_cuts.
    split; [reflexivity|].
    change (has_char apostrophe
              (remove_char double_quote (before_char comma (before_char slash t))) = false).
    now apply remove_char_keeps_absent, before_char_keeps_absent, before_char_keeps_absent.
Qed.

End ScrapeFacts.

Lemma scraped_id_has_no_delimiter_witness :
  has_char StripeEvents.slash "cus_AB" = false /\
  has_char StripeEvents.comma "cus_AB" = false /\
  has_char StripeEvents.double_quote "cus_AB" = false.
Proof.
  apply (scraped_id_has_no_delimiter "cus_" StripeEvents.apostrophe
           "{'customer': 'cus_AB/12', 'id': 'evt_1'}" "cus_AB").
  vm_compute. reflexivity.
Defined.

(** ** The rows built from a Stripe event *)

Section EventRowFacts.
Import StripeEvents.
Variable customer_id : event -> option string.

(** X4: With [id] and [created] present, reading [data_insert] succeeds, leaves
    every field other than [customer_id] as it was, and sets [customer_id] to
    the scraped id for a customer payload. *)
Theorem data_insert_keeps_payload (d : event) (i c : pyval) :
  assoc "id" d = Some i -> assoc "created" d = Some c ->
  exists d',
    data_insert customer_id d = (Ok d', d') /\
    (forall k, k <> "customer_id" -> assoc k d' = assoc k d) /\
    assoc "customer_id" d' =
      match customer_id d with
      | Some cid => Some (PStr cid)
      | None => assoc "customer_id" d
      end.
Proof.
  intros Hi Hc. unfold data_insert, add_customer_fields.
  destruct (customer_id d) as [cid|].
  - unfold bind, set, get, getitem.
    rewrite assoc_setitem. simpl. rewrite Hi.
    rewrite !assoc_setitem. simpl. rewrite Hc.
    eexists. split; [reflexivity|]. split.
    + intros k Hk. rewrite !assoc_setitem.
      destruct (String.eqb_spec k "created") as [->|?]; [congruence|].
      destruct (String.eqb_spec k "id") as [->|?]; [congruence|].
      destruct (String.eqb_spec k "customer_id"); [congruence|reflexivity].
    + rewrite !assoc_setitem. reflexivity.
  - exists d. repeat split; reflexivity.
Qed.

Lemma data_insert_item_id_missing (d : event) :
  assoc "id" d = None -> (data_insert_item customer_id "id" d).1 = Raise (KeyError "id").
Proof.
  intros Hi. unfold data_insert_item, data_insert, add_customer_fields, bind, lift.
  destruct (customer_id d) as [cid|].
  - unfold bind, set, get, getitem. rewrite assoc_setitem. simpl. now rewrite Hi.
  - simpl. now rewrite Hi.
Qed.

Lemma data_insert_item_created_missing (d : event) (i : pyval) (k : string) :
  assoc "id" d = Some i -> assoc "created" d = None ->
  (exists v d', data_insert_item customer_id k d = (Ok v, d') /\ customer_id d = None /\ d' = d)
  \/ (data_insert_item customer_id k d).1 = Raise (KeyError "created")
  \/ (customer_id d = None /\ (data_insert_item customer_id k d) = (Raise (KeyError k), d)).
Proof.
  intros Hi Hc. unfold data_insert_item, data_insert, add_customer_fields, bind, lift.
  destruct (customer_id d) as [cid|].
  - right. left. unfold bind, set, get, getitem. rewrite assoc_setitem. simpl. rewrite Hi.
    rewrite !assoc_setitem. simpl. now rewrite Hc.
  - simpl. destruct (assoc k d) as [v|]; [left; eauto|right; right; eauto].
Qed.

(** X5: [data_summary_insert] raises KeyError for the first of the required
    fields [id], [created], [type] and [data] that the event lacks. *)
Theorem missing_required_field_raises (d : event) :
  (assoc "id" d = None ->
   (data_summary_insert customer_id d).1 = Raise (KeyError "id")) /\
  (forall i, assoc "id" d = Some i -> assoc "created" d = None ->
   (data_summary_insert customer_id d).1 = Raise (KeyError "created")) /\
  (forall i c, assoc "id" d = Some i -> assoc "created" d = Some c ->
   assoc "type" d = None ->
   (data_summary_insert customer_id d).1 = Raise (KeyError "type")) /\
  (forall i c t, assoc "id" d = Some i -> assoc "created" d = Some c ->
   assoc "type" d = Some t -> assoc "data" d = None ->
   (data_summary_insert customer_id d).1 = Raise (KeyError "data")).
Proof.
  split; [|split; [|split]].
  - intros Hi. pose proof (data_insert_item_id_missing d Hi) as H.
    unfold data_summary_insert, bind.
    destruct (data_insert_item customer_id "id" d) as [[v|x] d']; simpl in *; congruence.
  - intros i Hi Hc. unfold data_summary_insert, bind.
    destruct (data_insert_item_created_missing d i "id" Hi Hc)
      as [(v & d' & E & Hcust & ->)|[E|[Hcust E]]].
    + rewrite E.
      destruct (data_insert_item_created_missing d i "created" Hi Hc)
        as [(v2 & d2 & E2 & _ & _)|[E2|[_ E2]]].
      * exfalso. unfold data_insert_item, data_insert, add_customer_fields, bind, lift in E2.
        rewrite Hcust in E2. simpl in E2. rewrite Hc in E2. discriminate.
      * destruct (data_insert_item customer_id "created" d) as [[v2|x] d2];
          simpl in *; congruence.
      * now rewrite E2.
    + destruct (data_insert_item customer_id "id" d) as [[v|x] d']; simpl in *; congruence.
    + unfold data_insert_item, data_insert, add_customer_fields, bind, lift in E.
      rewrite Hcust in E. simpl in E. rewrite Hi in E. discriminate.
  - intros i c Hi Hc Ht.
    assert (H0 : same_payload d d) by (intros k _; reflexivity).
    destruct (data_insert_item_spec customer_id d d i c "id" Hi Hc H0)
      as (d1 & E1 & H1); [discriminate|].
    destruct (data_insert_item_spec customer_id d d1 i c "created" Hi Hc H1)
      as (d2 & E2 & H2); [discriminate|].
    destruct (data_insert_item_spec customer_id d d2 i c "type" Hi Hc H2)
      as (d3 & E3 & H3); [discriminate|].
    unfold data_summary_insert, bind.
    rewrite E1. unfold getitem at 1. rewrite Hi.
    rewrite E2. unfold getitem at 1. rewrite Hc.
    rewrite E3. unfold getitem at 1. now rewrite Ht.
  - intros i c t Hi Hc Ht Hd.
    assert (H0 : same_payload d d) by (intros k _; reflexivity).
    destruct (data_insert_item_spec customer_id d d i c "id" Hi Hc H0)
      as (d1 & E1 & H1); [discriminate|].
    destruct (data_insert_item_spec customer_id d d1 i c "created" Hi Hc H1)
      as (d2 & E2 & H2); [discriminate|].
    destruct (data_insert_item_spec customer_id d d2 i c "type" Hi Hc H2)
      as (d3 & E3 & H3); [discriminate|].
    destruct (data_insert_item_spec customer_id d d3 i c "data" Hi Hc H3)
      as (d4 & E4 & H4); [discriminate|].
    unfold data_summary_insert, bind.
    rewrite E1. unfold getitem at 1. rewrite Hi.
    rewrite E2. unfold getitem at 1. rewrite Hc.
    rewrite E3. unfold getitem at 1. rewrite Ht.
    unfold data_object_item, bind. rewrite E4. unfold getitem at 1. now rewrite Hd.
Qed.

(** The nine column names of a summary. *)
Definition summary_columns : gset string :=
  list_to_set ["id"; "created"; "type"; "object"; "customer_id"; "amount"; "amount_due";
               "amount_refunded"; "object_event_id"].

(** X6: On an event with the required fields, the summary has exactly the nine
    columns, and [id], [created], [type] and [object] hold the event's own
    values. *)
Theorem summary_has_nine_columns
    (d : event) (i c t dv o : pyval) (fields : list (string * pyval)) :
  assoc "id" d = Some i -> assoc "created" d = Some c -> assoc "type" d = Some t ->
  assoc "data" d = Some dv -> getitem dv "object" = Ok (PDict fields) ->
  assoc "object" fields = Some o ->
  exists m d',
    data_summary_insert customer_id d = (Ok m, d') /\
    dom m = summary_columns /\
    m !! "id" = Some i /\ m !! "created" = Some c /\
    m !! "type" = Some t /\ m !! "object" = Some o.
Proof.
  intros Hi Hc Ht Hd Ho Hoo.
  assert (H0 : same_payload d d) by (intros k _; reflexivity).
  destruct (data_insert_item_spec customer_id d d i c "id" Hi Hc H0)
    as (d1 & E1 & H1); [discriminate|].
  destruct (data_insert_item_spec customer_id d d1 i c "created" Hi Hc H1)
    as (d2 & E2 & H2); [discriminate|].
  destruct (data_insert_item_spec customer_id d d2 i c "type" Hi Hc H2)
    as (d3 & E3 & H3); [discriminate|].
  destruct (data_object_item_spec customer_id d d3 i c dv "object" Hi Hc H3 Hd)
    as (d4 & E4 & H4).
  destruct (data_insert_customer_spec customer_id d d4 i c Hi Hc H4)
    as (cust & d5 & E5 & H5).
  destruct (or_null_object_item customer_id d d5 i c dv fields "amount" Hi Hc H5 Hd Ho)
    as (d6 & E6 & H6).
  destruct (or_null_object_item customer_id d d6 i c dv fields "amount_due" Hi Hc H6 Hd Ho)
    as (d7 & E7 & H7).
  destruct (or_null_object_item customer_id d d7 i c dv fields "amount_refunded"
              Hi Hc H7 Hd Ho) as (d8 & E8 & H8).
  destruct (or_null_object_item customer_id d d8 i c dv fields "id" Hi Hc H8 Hd Ho)
    as (d9 & E9 & _).
  eexists. exists d9. split.
  - unfold data_summary_insert, bind.
    rewrite E1. unfold getitem at 1. rewrite Hi.
    rewrite E2. unfold getitem at 1. rewrite Hc.
    rewrite E3. unfold getitem at 1. rewrite Ht.
    rewrite E4, Ho. simpl. rewrite Hoo.
    rewrite E5, E6, E7, E8, E9. reflexivity.
  - split; [|repeat split; simplify_map_eq; reflexivity].
    unfold py_dict, summary_columns. cbn [foldl fst snd list_to_set].
    rewrite !dom_insert_L, dom_empty_L. set_solver.
Qed.

(** X7: On an event with the required fields, the object row has exactly the
    columns [id], [created], [object] and [data]; the first three hold the
    same values as in the summary and [data] holds the whole object. *)
Theorem object_row_matches_event
    (d : event) (i c dv o : pyval) (fields : list (string * pyval)) :
  assoc "id" d = Some i -> assoc "created" d = Some c ->
  assoc "data" d = Some dv -> getitem dv "object" = Ok (PDict fields) ->
  assoc "object" fields = Some o ->
  exists m d',
    data_object_insert customer_id d = (Ok m, d') /\
    dom m = list_to_set ["id"; "created"; "object"; "data"] /\
    m !! "id" = Some i /\ m !! "created" = Some c /\
    m !! "object" = Some o /\ m !! "data" = Some (PDict fields).
Proof.
  intros Hi Hc Hd Ho Hoo.
  assert (H0 : same_payload d d) by (intros k _; reflexivity).
  destruct (data_insert_item_spec customer_id d d i c "id" Hi Hc H0)
    as (d1 & E1 & H1); [discriminate|].
  destruct (data_insert_item_spec customer_id d d1 i c "created" Hi Hc H1)
    as (d2 & E2 & H2); [discriminate|].
  destruct (data_object_item_spec customer_id d d2 i c dv "object" Hi Hc H2 Hd)
    as (d3 & E3 & H3).
  destruct (data_insert_item_spec customer_id d d3 i c "data" Hi Hc H3)
    as (d4 & E4 & H4); [discriminate|].
  eexists. exists d4. split.
  - unfold data_object_insert, bind.
    rewrite E1. unfold getitem at 1. rewrite Hi.
    rewrite E2. unfold getitem at 1. rewrite Hc.
    rewrite E3, Ho. simpl. rewrite Hoo.
    rewrite E4. unfold getitem at 1. rewrite Hd.
    unfold lift. rewrite Ho. reflexivity.
  - split; [|repeat split; simplify_map_eq; reflexivity].
    unfold py_dict. cbn [foldl fst snd list_to_set].
    rewrite !dom_insert_L, dom_empty_L. set_solver.
Qed.

End EventRowFacts.

Definition one_customer (d : StripeEvents.event) : option string := Some "cus_1".

Lemma data_insert_keeps_payload_witness :
  exists d',
    StripeEvents.data_insert one_customer event_without_amount = (Ok d', d') /\
    (forall k, k <> "customer_id" -> assoc k d' = assoc k event_without_amount) /\
    assoc "customer_id" d' =
      match one_customer event_without_amount with
      | Some cid => Some (PStr cid)
      | None => assoc "customer_id" event_without_amount
      end.
Proof.
  apply (data_insert_keeps_payload one_customer event_without_amount
           (PStr "evt_1") (PInt 100)); reflexivity.
Defined.

Lemma summary_has_nine_columns_witness :
  exists m d',
    StripeEvents.data_summary_insert one_customer event_without_amount = (Ok m, d') /\
    dom m = summary_columns /\
    m !! "id" = Some (PStr "evt_1") /\ m !! "created" = Some (PInt 100) /\
    m !! "type" = Some (PStr "charge.failed") /\ m !! "object" = Some (PStr "charge").
Proof.
  apply (summary_has_nine_columns one_customer event_without_amount
           (PStr "evt_1") (PInt 100) (PStr "charge.failed")
           (PDict [("object", PDict [("object", PStr "charge"); ("id", PStr "ch_1")])])
           (PStr "charge") [("object", PStr "charge"); ("id", PStr "ch_1")]); reflexivity.
Defined.

Lemma object_row_matches_event_witness :
  exists m d',
    StripeEvents.data_object_insert one_customer event_without_amount = (Ok m, d') /\
    dom m = list_to_set ["id"; "created"; "object"; "data"] /\
    m !! "id" = Some (PStr "evt_1") /\ m !! "created" = Some (PInt 100) /\
    m !! "object" = Some (PStr "charge") /\
    m !! "data" = Some (PDict [("object", PStr "charge"); ("id", PStr "ch_1")]).
Proof.
  apply (object_row_matches_event one_customer event_without_amount
           (PStr "evt_1") (PInt 100)
           (PDict [("object", PDict [("object", PStr "charge"); ("id", PStr "ch_1")])])
           (PStr "charge") [("object", PStr "charge"); ("id", PStr "ch_1")]); reflexivity.
Defined.

(** ** prep_data and the e-mail loop *)

Section PrepDataFacts.
Import Helpers StripeDW.
Variable strftime : Z -> string.
Variable md5_hexdigest : string -> string.
Variable fromtimestamp : Z -> result Z.

Lemma is_str_true (v : pyval) (s : string) : is_str v s = true <-> v = PStr s.
Proof.
  destruct v; simpl; try (split; [discriminate|discriminate]).
  rewrite String.eqb_eq. split; [now intros ->|now intros [= ->]].
Qed.

(** X8: The null replacement keeps the keys, leaves no ['null'] behind, keeps
    every other value, and is idempotent. *)
Theorem null_to_none_replaces_every_sentinel (x : record) :
  dom (null_to_none x) = dom x /\
  (forall k, null_to_none x !! k <> Some (PStr "null")) /\
  (forall k v, x !! k = Some v -> v <> PStr "null" -> null_to_none x !! k = Some v) /\
  null_to_none (null_to_none x) = null_to_none x.
Proof.
  unfold null_to_none. split; [apply dom_fmap_L|]. split; [|split].
  - intros k. rewrite lookup_fmap. destruct (x !! k) as [v|]; simpl; [|discriminate].
    destruct (is_str v "null") eqn:E; [discriminate|].
    intros [= ->]. simpl in E. discriminate.
  - intros k v Hk Hv. rewrite lookup_fmap, Hk. simpl.
    destruct (is_str v "null") eqn:E; [|reflexivity].
    apply is_str_true in E. contradiction.
  - rewrite <- map_fmap_compose. apply map_fmap_ext. intros k v _. simpl.
    destruct (is_str v "null") eqn:E; [reflexivity|]. now rewrite E.
Qed.

(** What the warehouse row [y] of a staged record [x] holds. *)
Definition warehouse_row (x y : record) : Prop :=
  let x' := null_to_none x in
  y !! "created" = None /\ y !! "type" = None /\
  y !! "event_unixtimestamp" = x' !! "created" /\
  y !! "event_type" = x' !! "type" /\
  (exists created ts dt,
      x' !! "created" = Some created /\ as_number created = Ok ts /\
      fromtimestamp ts = Ok dt /\
      y !! "event_datetime" = Some (PStr (strftime dt))) /\
  (exists email, x' !! "email" = Some email /\
                 y !! "email" = Some (match email with
                                      | PStr s => PStr (md5_hexdigest s)
                                      | _ => PNone
                                      end)) /\
  (forall k, k <> "created" -> k <> "type" -> k <> "email" -> k <> "event_datetime" ->
             k <> "event_unixtimestamp" -> k <> "event_type" -> y !! k = x' !! k).

Lemma mysql_fields_row (x y : record) :
  mysql_fields strftime md5_hexdigest fromtimestamp (null_to_none x) = Ok y -> warehouse_row x y.
Proof.
  unfold mysql_fields, warehouse_row, pop. set (x' := null_to_none x).
  destruct (x' !! "created") as [created|] eqn:Hc; [|discriminate]. cbn [rbind].
  destruct (as_number created) as [ts|] eqn:Hts; [|discriminate]. cbn [rbind].
  destruct (fromtimestamp ts) as [dt|] eqn:Hdt; [|discriminate]. cbn [rbind].
  rewrite lookup_insert_ne by discriminate. rewrite Hc. cbn [rbind fst snd].
  rewrite lookup_insert_ne by discriminate. rewrite lookup_delete_ne by discriminate.
  rewrite lookup_insert_ne by discriminate.
  destruct (x' !! "type") as [type|] eqn:Ht; [|discriminate]. cbn [rbind fst snd].
  rewrite lookup_insert_ne by discriminate. rewrite lookup_delete_ne by discriminate.
  rewrite lookup_insert_ne by discriminate. rewrite lookup_delete_ne by discriminate.
  rewrite lookup_insert_ne by discriminate.
  destruct (x' !! "email") as [email|] eqn:He; [|discriminate]. cbn [rbind fst snd].
  intros [= <-].
  repeat split.
  - now simplify_map_eq.
  - now simplify_map_eq.
  - now simplify_map_eq.
  - now simplify_map_eq.
  - exists created, ts, dt. repeat split; [assumption|assumption|]. now simplify_map_eq.
  - exists email. split; [reflexivity|]. now simplify_map_eq.
  - intros k ? ? ? ? ? ?. now simplify_map_eq.
Qed.

(** X9: [prep_data(.., destination='mysql')], when it returns, gives one row per
    staged record, in the same order: [created] and [type] are renamed to
    [event_unixtimestamp] and [event_type], [event_datetime] is the rendered
    timestamp, [email] is hashed (or [None] when it is no string), and every
    other field is kept, with ['null'] replaced by [None]. *)
Theorem prep_data_mysql_rows (list_of_dicts rows : list record) :
  prep_data_mysql strftime md5_hexdigest fromtimestamp list_of_dicts = Ok rows ->
  Forall2 warehouse_row list_of_dicts rows.
Proof.
  unfold prep_data_mysql. intros H. apply mapM_Forall2 in H.
  induction H as [|x y l l' Hxy _ IH]; constructor; [|exact IH].
  now apply mysql_fields_row.
Qed.

Lemma mapM_raises {A B} (f : A -> result B) (l1 l2 : list A) (l1' : list B) (a : A) (e : exn) :
  mapM f l1 = Ok l1' -> f a = Raise e -> mapM f (l1 ++ a :: l2) = Raise e.
Proof.
  revert l1'. induction l1 as [|b l1 IH]; simpl; intros l1' H1 Ha.
  - now rewrite Ha.
  - destruct (f b) as [b'|]; simpl in *; [|discriminate].
    destruct (mapM f l1) as [bs|] eqn:E; simpl in *; [|discriminate].
    now rewrite (IH bs eq_refl Ha).
Qed.

(** X10: [prep_data] returns no rows at all once a record cannot be converted:
    the first record without [created] raises KeyError, and one whose
    [created] is [None] or the sentinel ['null'] raises TypeError. *)
Theorem prep_data_mysql_stops_at_bad_record
    (good rest : list record) (good_rows : list record) (x : record) :
  prep_data_mysql strftime md5_hexdigest fromtimestamp good = Ok good_rows ->
  (x !! "created" = None ->
   prep_data_mysql strftime md5_hexdigest fromtimestamp (good ++ x :: rest)
     = Raise (KeyError "created")) /\
  (x !! "created" = Some PNone \/ x !! "created" = Some (PStr "null") ->
   prep_data_mysql strftime md5_hexdigest fromtimestamp (good ++ x :: rest) = Raise TypeError).
Proof.
  intros Hgood. unfold prep_data_mysql in *. split.
  - intros Hx. apply (mapM_raises _ good rest good_rows x _ Hgood).
    unfold mysql_fields, null_to_none. now rewrite lookup_fmap, Hx.
  - intros Hx. apply (mapM_raises _ good rest good_rows x _ Hgood).
    unfold mysql_fields, null_to_none. rewrite lookup_fmap.
    destruct Hx as [-> | ->]; reflexivity.
Qed.

End PrepDataFacts.

Lemma prep_data_mysql_rows_witness :
  Forall2 (warehouse_row example_strftime example_md5 example_fromtimestamp)
    [<["email" := PStr "a@x.com"]> staged_event]
    [<["email" := PStr "md5:a@x.com"]>
       (<["event_type" := PStr "charge.failed"]>
          (<["event_unixtimestamp" := PInt 100]>
             (<["event_datetime" := PStr "1970-01-01 00:01:40"]>
                (delete "type" (delete "created" (StripeDW.null_to_none staged_event))))))].
Proof.
  apply (prep_data_mysql_rows example_strftime example_md5 example_fromtimestamp).
  vm_compute; exact eq_refl.
Defined.

Lemma prep_data_mysql_stops_at_bad_record_witness :
  (delete "created" staged_event !! "created" = None ->
   StripeDW.prep_data_mysql example_strftime example_md5 example_fromtimestamp
     ([<["email" := PNone]> staged_event] ++ delete "created" staged_event :: [])
     = Raise (KeyError "created")) /\
  (delete "created" staged_event !! "created" = Some PNone \/
   delete "created" staged_event !! "created" = Some (PStr "null") ->
   StripeDW.prep_data_mysql example_strftime example_md5 example_fromtimestamp
     ([<["email" := PNone]> staged_event] ++ delete "created" staged_event :: [])
     = Raise TypeError).
Proof.
  apply (prep_data_mysql_stops_at_bad_record example_strftime example_md5 example_fromtimestamp
           [<["email" := PNone]> staged_event] []
           [<["email" := PNone]>
              (<["event_type" := PStr "charge.failed"]>
                 (<["event_unixtimestamp" := PInt 100]>
                    (<["event_datetime" := PStr "1970-01-01 00:01:40"]>
                       (delete "type"
                          (delete "created" (StripeDW.null_to_none staged_event))))))]).
  vm_compute; exact eq_refl.
Defined.

(** ** The e-mail loop, the watermark select and the audit row *)

Section DriverFacts.
Import Helpers StripeDW.
Variable strftime : Z -> string.
Variable dateutil_parse : string -> option Z.
Variable fromutc : Z -> Z.
Variable from_unixtime : Z -> pyval.
Variable query_rows : string -> result (list (list (string * pyval))).
Variable md5_hexdigest : string -> string.
Variable fromtimestamp : Z -> result Z.

(** X11: The loop body of lines 60 to 69 raises KeyError on a record without
    [customer_id]; for the sentinel ['null'] or a falsy id it sets [email] to
    [None] without asking Stripe; and whenever it returns it has changed the
    [email] field only. *)
Theorem add_email_sets_email_only (e : env) (dicts : record) :
  (dicts !! "customer_id" = None -> add_email e dicts = Raise (KeyError "customer_id")) /\
  (forall cust_id, dicts !! "customer_id" = Some cust_id ->
     is_str cust_id "null" = true \/ truthy cust_id = false ->
     add_email e dicts = Ok (<["email" := PNone]> dicts)) /\
  (forall dicts', add_email e dicts = Ok dicts' ->
     is_Some (dicts' !! "email") /\
     forall k, k <> "email" -> dicts' !! k = dicts !! k).
Proof.
  unfold add_email. split; [now intros ->|]. split.
  - intros cust_id -> [Hnull|Hfalsy].
    + now rewrite Hnull.
    + unfold get_email. rewrite Hfalsy. now destruct (negb (is_str cust_id "null")).
  - intros dicts' H.
    assert (Hins : exists v, dicts' = <["email" := v]> dicts).
    { destruct (dicts !! "customer_id") as [cust_id|]; [|discriminate].
      destruct (negb (is_str cust_id "null")).
      - destruct (get_email e cust_id) as [email|[]]; inversion H; eauto.
      - inversion H; eauto. }
    destruct Hins as [v ->]. split.
    + rewrite lookup_insert_eq. eauto.
    + intros k Hk. now rewrite lookup_insert_ne.
Qed.

(** X12: [get_select_data] never raises: it returns the rows, rendered by
    [dictify], when the server runs the statement and the fetch succeeds, and
    [None] in every other case. *)
Theorem get_select_data_returns_none_on_failure (stmt : sql) (w : mysql) :
  (get_select_data strftime from_unixtime query_rows stmt w).1 =
    Ok (match upcoming w with
        | [] | NoFault :: _ =>
            match fetchall from_unixtime query_rows stmt with
            | Ok select_rows => Some (dictify strftime select_rows)
            | Raise _ => None
            end
        | _ => None
        end).
Proof.
  cbv [get_select_data bind execute_commit next_fault raise lift rbind].
  destruct (upcoming w) as [|[] fs]; cbv beta iota; try reflexivity;
    destruct (fetchall from_unixtime query_rows stmt); reflexivity.
Qed.

(** X13: A datetime rendered by [convert_datetime] for display converts back to
    itself for insertion, provided the parser reads what [strftime] writes;
    and a datetime passed for insertion is returned as it is. *)
Theorem convert_datetime_round_trip (d : Z) :
  dateutil_parse (strftime d) = Some d ->
  convert_datetime strftime dateutil_parse fromutc (PDatetime d) true false
    = Ok (PDatetime d) /\
  rbind (convert_datetime strftime dateutil_parse fromutc (PDatetime d) false false)
        (fun shown => convert_datetime strftime dateutil_parse fromutc shown true false)
    = Ok (PDatetime d).
Proof.
  intros Hparse. split; [reflexivity|].
  unfold convert_datetime. simpl. now rewrite Hparse.
Qed.

(** X14: [dictify] returns one dict per row, in order.  Under each header the
    dict of a row holds the row's value for that header (the last one, when a
    header occurs twice), but for a datetime, which is replaced by its
    rendering; so no datetime object is left in any of them. *)
Theorem dictify_renders_every_datetime (sql_output : list (list (string * pyval))) :
  length (dictify strftime sql_output) = length sql_output /\
  (forall i cells, sql_output !! i = Some cells ->
     exists row,
       dictify strftime sql_output !! i = Some row /\
       forall k, row !! k =
                 match last_value k cells with
                 | Some (PDatetime d) => Some (PStr (strftime d))
                 | other => other
                 end) /\
  forall row k d, In row (dictify strftime sql_output) -> row !! k <> Some (PDatetime d).
Proof.
  unfold dictify. split; [apply length_map|]. split.
  - intros i cells Hi. eexists. split; [rewrite list_lookup_fmap, Hi; reflexivity|].
    intros k. rewrite lookup_fmap, py_dict_lookup.
    destruct (last_value k cells) as [[]|]; reflexivity.
  - intros row k d Hin. apply in_map_iff in Hin as (r & <- & _).
    rewrite lookup_fmap. destruct (py_dict r !! k) as [v|]; simpl; [|discriminate].
    destruct v; discriminate.
Qed.

(** X15: When the body of a run ends well with the rendering of the datetime [d]
    as its [max_date], the parser reads that rendering back and the server has
    no fault for the last insert, the run commits exactly one audit-log row,
    and its watermark is [d]. *)
Theorem script_commits_the_watermark (e : env) (w w1 : mysql) (d : Z) :
  script_body strftime dateutil_parse fromutc from_unixtime query_rows md5_hexdigest fromtimestamp e w
    = (Ok (PStr (strftime d)), w1) ->
  strftime d <> "" ->
  dateutil_parse (strftime d) = Some d ->
  hd NoFault (upcoming w1) = NoFault ->
  exists extra,
    committed
      (script strftime dateutil_parse fromutc from_unixtime query_rows md5_hexdigest fromtimestamp e w).2
      = committed w ++ extra /\
    map watermark (audit_rows extra) = [Some d].
Proof.
  intros Hbody Hne Hparse Hfault.
  assert (Hdata : stage_data e <> []).
  { intros Hempty. unfold script_body in Hbody. rewrite Hempty in Hbody.
    unfold bind, raise in Hbody.
    destruct (etl_log _ _ _ _ _ _ _ w) as [[|] ?]; discriminate. }
  destruct (script_body_adds_no_audit strftime dateutil_parse fromutc from_unixtime
              query_rows md5_hexdigest fromtimestamp e Hdata w) as (e1 & E1 & F1).
  rewrite Hbody in E1. cbn [snd] in E1.
  unfold script, bind. rewrite Hbody.
  unfold etl_log, bind, lift.
  assert (Htruthy : truthy (PStr (strftime d)) = true).
  { simpl. destruct (String.eqb_spec (strftime d) ""); [contradiction|reflexivity]. }
  rewrite Htruthy. unfold convert_datetime. rewrite Hparse. cbn [rbind negb].
  set (row := Execute audit_stmt_dated
                [PStr "Stripe Logs"; PStr "Dynamo"; PStr "DW+SF"; PDatetime d]).
  exists (e1 ++ [row]).
  rewrite try_pass_execute_commit_state, E1, <- app_assoc.
  destruct (upcoming w1) as [|[] fs]; try discriminate Hfault.
  all: split; [reflexivity|]; rewrite audit_rows_app, F1; reflexivity.
Qed.

Lemma mapM_length {A B} (f : A -> result B) (l : list A) (l' : list B) :
  mapM f l = Ok l' -> length l' = length l.
Proof. intros H. apply mapM_Forall2 in H. symmetry. now apply Forall2_length in H. Qed.


End DriverFacts.

Lemma convert_datetime_round_trip_witness :
  Helpers.convert_datetime example_strftime example_parse (fun d => d) (PDatetime 100)
    true false = Ok (PDatetime 100) /\
  rbind (Helpers.convert_datetime example_strftime example_parse (fun d => d)
           (PDatetime 100) false false)
        (fun shown => Helpers.convert_datetime example_strftime example_parse (fun d => d)
                        shown true false)
    = Ok (PDatetime 100).
Proof.
  apply (convert_datetime_round_trip example_strftime example_parse (fun d => d) 100).
  reflexivity.
Defined.

Lemma script_commits_the_watermark_witness :
  exists extra,
    Helpers.committed (example_script [staged_event] []).2
      = Helpers.committed (fresh_mysql []) ++ extra /\
    map StripeDW.watermark (StripeDW.audit_rows extra) = [Some 100].
Proof.
  apply (script_commits_the_watermark example_strftime example_parse (fun d => d) PDatetime
           no_rows example_md5 example_fromtimestamp (example_env [staged_event]) (fresh_mysql [])
           (example_body [staged_event] []).2 100).
  - apply (pair_from_fst (example_body [staged_event] [])). vm_compute. reflexivity.
  - discriminate.
  - reflexivity.
  - vm_compute; exact eq_refl.
Defined.


(** ** The bulk writes of SalesforceRpts *)

Section BulkFacts.
Import Helpers.

(** Whether the [n]-th coming call of the bulk API raises. *)
Definition raises_at (n : nat) (s : bulk) : bool := nth n (raising s) false.

(** X17: [api_update], [api_upsert] and [api_insert] close the job they created
    exactly once, as their last call, whether or not posting the batch or
    waiting for it raised; a failed post skips the wait; and they return
    normally exactly when none of their calls raised. *)
Theorem api_write_always_closes_the_job
    (operation sf_object : string) (upsert_key : option string)
    (list_of_dicts : list record) (s : bulk) :
  calls (api_write operation sf_object upsert_key list_of_dicts s).2 =
    calls s ++ CreateJob operation sf_object upsert_key ::
      (if raises_at 0 s then []
       else PostBatch list_of_dicts ::
              (if raises_at 1 s then [] else [WaitForBatch]) ++ [CloseJob]) /\
  ((api_write operation sf_object upsert_key list_of_dicts s).1 = Ok tt <->
   raises_at 0 s = false /\ raises_at 1 s = false /\
   raises_at 2 s = false /\ raises_at 3 s = false).
Proof.
  unfold raises_at, api_write, try_reraise_finally, bind, bulk_do.
  destruct (raising s) as [|[] [|[] [|[] [|[] fs]]]]; cbn;
    rewrite <- ?app_assoc; (split; [reflexivity|]);
    split; try discriminate; intuition discriminate.
Qed.

(** ** The rows of a Netsuite report *)

Lemma last_value_zip_absent {V} (k : string) (ks : list string) (vs : list V) :
  ~ In k ks -> last_value k (zip ks vs) = None.
Proof.
  revert vs. induction ks as [|k0 ks IH]; intros vs Hk; [reflexivity|].
  destruct vs as [|v vs]; [reflexivity|]. simpl.
  rewrite IH by (intros H; apply Hk; now right).
  destruct (String.eqb_spec k0 k) as [->|]; [|reflexivity].
  exfalso. apply Hk. now left.
Qed.

(** [dict(zip(keys, values))] with distinct keys maps the key at a position
    to the value at that position, and to nothing when the values stop
    before it. *)
Lemma py_dict_zip_lookup {V} (ks : list string) (vs : list V) (j : nat) (k : string) :
  List.NoDup ks -> ks !! j = Some k -> py_dict (zip ks vs) !! k = vs !! j.
Proof.
  rewrite py_dict_lookup. revert vs j.
  induction ks as [|k0 ks IH]; intros vs j Hnd Hj; [discriminate|].
  inversion Hnd as [|? ? Hfresh Hnd']; subst.
  destruct vs as [|v vs]; [reflexivity|]. simpl.
  destruct j as [|j]; simpl in *.
  - injection Hj as ->. rewrite last_value_zip_absent by assumption.
    now rewrite String.eqb_refl.
  - rewrite (IH vs j Hnd' Hj). destruct (vs !! j); [reflexivity|].
    destruct (String.eqb_spec k0 k) as [->|]; [|reflexivity].
    exfalso. apply Hfresh. apply list_elem_of_In. eapply list_elem_of_lookup_2. exact Hj.
Qed.

(** X18: With distinct column names in the first line of the table, the report
    has one row per further line, and each row maps every column name to the
    cell below it; a line that is too short leaves its last columns out. *)
Theorem NetsuiteRpts_rows_follow_the_header
    (header : list string) (body : list (list string)) :
  List.NoDup header ->
  length (NetsuiteRpts_rows (header :: body)) = length body /\
  forall i line j column,
    body !! i = Some line -> header !! j = Some column ->
    exists row, NetsuiteRpts_rows (header :: body) !! i = Some row /\
                row !! column = line !! j.
Proof.
  intros Hnd. unfold NetsuiteRpts_rows. split; [apply length_map|].
  intros i line j column Hi Hj.
  exists (py_dict (zip header line)). split.
  - now rewrite list_lookup_fmap, Hi.
  - now apply py_dict_zip_lookup.
Qed.

End BulkFacts.

Lemma NetsuiteRpts_rows_follow_the_header_witness :
  length (Helpers.NetsuiteRpts_rows
            (["Name"; "Date"] :: [["Acme"; "2020-01-02"]; ["Short"]])) = 2%nat /\
  forall i line j column,
    [["Acme"; "2020-01-02"]; ["Short"]] !! i = Some line ->
    ["Name"; "Date"] !! j = Some column ->
    exists row,
      Helpers.NetsuiteRpts_rows
        (["Name"; "Date"] :: [["Acme"; "2020-01-02"]; ["Short"]]) !! i = Some row /\
      row !! column = line !! j.
Proof.
  apply (NetsuiteRpts_rows_follow_the_header ["Name"; "Date"]
           [["Acme"; "2020-01-02"]; ["Short"]]).
  repeat constructor; simpl; intuition discriminate.
Defined.

(** ** Which orders the comparator flags *)

Section FlaggedFacts.
Import Screening.
Variable token_sort_ratio : string -> string -> Z.

(** X19: An order is in the result set exactly when it is one of the orders and
    some entry of the screening list scores above 65 against it. *)
Theorem order_flagged_iff_some_candidate_above_threshold
    (ns_list screening_list : list string) (order : string) :
  is_Some (compare_orders_with_screening_list token_sort_ratio ns_list screening_list
             !! order) <->
  In order ns_list /\
  exists cand, In cand screening_list /\ 65 < token_sort_ratio order cand.
Proof.
  rewrite compare_lookup. destruct (decide (order ∈ ns_list)) as [Hin|Hnin].
  - apply list_elem_of_In in Hin. split.
    + intros [c Hc]. split; [exact Hin|].
      destruct (last (List.filter above_threshold
                        (extract token_sort_ratio order screening_list)))
        as [x|] eqn:Hlast; [|discriminate].
      assert (Hx : In x (List.filter above_threshold
                           (extract token_sort_ratio order screening_list))).
      { apply last_Some in Hlast as [l' ->]. apply in_app_iff. right. now left. }
      apply filter_In in Hx as [Hx Habove].
      destruct (In_extract token_sort_ratio _ _ _ Hx) as [Hcand Hscore].
      unfold above_threshold in Habove. apply Z.ltb_lt in Habove.
      exists x.1. split; [exact Hcand|lia].
    + intros [_ (cand & Hcand & Hscore)].
      destruct (extract_head token_sort_ratio order cand screening_list Hcand)
        as (top & rest & -> & Htop); [lia|].
      simpl. unfold above_threshold at 1.
      destruct (Z.ltb_spec 65 top.2) as [_|Hle]; [|lia].
      rewrite last_cons. destruct (last (List.filter above_threshold rest)); simpl; eauto.
  - split; [intros [c Hc]; discriminate|].
    intros [Hin _]. exfalso. apply Hnin. now apply list_elem_of_In.
Qed.

End FlaggedFacts.

(** ** The issue loop of the JIRA import *)

Section JiraLoopFacts.
Import Jira.
Variable sites : gmap string string.
Variable users : gmap string string.
Variable keys : list string.

(** X20: No issue is dropped silently: each one adds either a row to upload or a
    printed line. *)
Theorem every_issue_uploaded_or_reported (issues : list issue) (out : output) :
  (length (upload_jira_to_sitetracker_list
             (foldl (process_issue sites users keys) out issues))
   + length (printed (foldl (process_issue sites users keys) out issues)))%nat
  = (length (upload_jira_to_sitetracker_list out) + length (printed out)
     + length issues)%nat.
Proof.
  revert out. induction issues as [|i issues IH]; intros out; simpl; [lia|].
  rewrite IH. unfold process_issue.
  destruct (sites !! py_prefix 4 (summary i)); simpl; rewrite length_app; simpl; lia.
Qed.

Variable search_issues : nat -> list issue.

Lemma issue_blocks_until_empty (n : nat) :
  forall (fuel b : nat) (out : output),
    (n < fuel)%nat ->
    (forall m, (m < n)%nat -> search_issues ((b + m) * 100) <> []) ->
    search_issues ((b + n) * 100) = [] ->
    issue_blocks sites users keys search_issues fuel b out =
      Some (foldl (process_issue sites users keys) out
              (concat (map (fun m => search_issues (m * 100)) (seq b n)))).
Proof.
  induction n as [|n IH]; intros fuel b out Hfuel Hfull Hempty.
  - destruct fuel as [|fuel]; [lia|]. simpl.
    replace (b + 0)%nat with b in Hempty by lia. now rewrite Hempty.
  - destruct fuel as [|fuel]; [lia|]. simpl.
    pose proof (Hfull 0%nat ltac:(lia)) as Hfirst.
    replace (b + 0)%nat with b in Hfirst by lia.
    rewrite foldl_app.
    destruct (search_issues (b * 100)) as [|i0 block] eqn:Hblock; [congruence|].
    apply IH; [lia| |].
    + intros m Hm. replace (S b + m)%nat with (b + S m)%nat by lia. apply Hfull. lia.
    + now replace (S b + n)%nat with (b + S n)%nat by lia.
Qed.

End JiraLoopFacts.

(** X21: main reads the blocks of 100 issues up to the first empty one, which
    ends the loop, and handles their issues once each, in order; with [n]
    non-empty blocks it takes [n + 1] searches. *)
Theorem main_reads_blocks_until_empty
    (site_rows : list Jira.site_row) (user_rows : list Jira.user_row)
    (keys : list string) (search_issues : nat -> list Jira.issue) (n fuel : nat) :
  (n < fuel)%nat ->
  (forall m, (m < n)%nat -> search_issues (m * 100)%nat <> []) ->
  search_issues (n * 100)%nat = [] ->
  Jira.main site_rows user_rows keys search_issues fuel =
    Some (foldl (Jira.process_issue (Jira.SitecompanynameCodesNames_dict site_rows)
                   (Jira.FieldTechProfilecompanynameUsers_dict user_rows) keys)
            {| Jira.upload_jira_to_sitetracker_list := []; Jira.printed := [] |}
            (concat (map (fun m => search_issues (m * 100)%nat) (seq 0 n)))).
Proof.
  intros Hfuel Hfull Hempty. unfold Jira.main.
  apply issue_blocks_until_empty; assumption.
Qed.

Lemma main_reads_blocks_until_empty_witness :
  Jira.main duplicated_site_rows [] ["Site"; "Site_Code"] one_block 2 =
    Some (foldl (Jira.process_issue (Jira.SitecompanynameCodesNames_dict duplicated_site_rows)
                   (Jira.FieldTechProfilecompanynameUsers_dict []) ["Site"; "Site_Code"])
            {| Jira.upload_jira_to_sitetracker_list := []; Jira.printed := [] |}
            (concat (map (fun m => one_block (m * 100)%nat) (seq 0 1)))).
Proof.
  apply (main_reads_blocks_until_empty duplicated_site_rows [] ["Site"; "Site_Code"]
           one_block 1 2).
  - lia.
  - intros m Hm. assert (m = 0%nat) as -> by lia. discriminate.
  - reflexivity.
Defined.

(** ** str.strip as the JIRA import uses it *)

Section StripFacts.
Import Jira.
Variable chars : list Ascii.ascii.

(** The list begins with a character that is not stripped, or is empty. *)
Definition starts_clean (l : list Ascii.ascii) : Prop :=
  match l with [] => True | a :: _ => in_chars chars a = false end.

Lemma lstrip_starts_clean (l : list Ascii.ascii) : starts_clean (lstrip chars l).
Proof.
  induction l as [|a l IH]; simpl; [exact I|].
  destruct (in_chars chars a) eqn:E; [exact IH|exact E].
Qed.

Lemma lstrip_clean (l : list Ascii.ascii) : starts_clean l -> lstrip chars l = l.
Proof. destruct l as [|a l]; simpl; [reflexivity|]. now intros ->. Qed.

Lemma lstrip_snoc (l : list Ascii.ascii) (x : Ascii.ascii) :
  in_chars chars x = false -> lstrip chars (l ++ [x]) = lstrip chars l ++ [x].
Proof.
  intros Hx. induction l as [|a l IH]; simpl; [now rewrite Hx|].
  destruct (in_chars chars a); [exact IH|reflexivity].
Qed.

Lemma starts_clean_snoc (l : list Ascii.ascii) (x : Ascii.ascii) :
  starts_clean l -> in_chars chars x = false -> starts_clean (l ++ [x]).
Proof. destruct l; simpl; auto. Qed.

(** Both ends of the list stripped. *)
Definition strip_list (l : list Ascii.ascii) : list Ascii.ascii :=
  rev (lstrip chars (rev (lstrip chars l))).

Lemma strip_list_clean (l : list Ascii.ascii) :
  starts_clean (strip_list l) /\ starts_clean (rev (strip_list l)).
Proof.
  unfold strip_list. rewrite rev_involutive.
  split; [|apply lstrip_starts_clean].
  pose proof (lstrip_starts_clean l) as Hl.
  destruct (lstrip chars l) as [|a t]; [exact I|]. simpl in Hl.
  simpl. rewrite lstrip_snoc by assumption. rewrite rev_app_distr. simpl. exact Hl.
Qed.

Lemma strip_list_fixed (l : list Ascii.ascii) :
  starts_clean l -> starts_clean (rev l) -> strip_list l = l.
Proof.
  intros H1 H2. unfold strip_list.
  rewrite (lstrip_clean l H1), (lstrip_clean (rev l) H2). apply rev_involutive.
Qed.

End StripFacts.

(** X22: [s.strip(chars)] leaves no character of [chars] at either end of its
    result, strips nothing more when applied again, and returns a string with
    clean ends as it is. *)
Theorem strip_cleans_both_ends (chars s : string) :
  starts_clean (String.list_ascii_of_string chars)
    (String.list_ascii_of_string (Jira.strip chars s)) /\
  starts_clean (String.list_ascii_of_string chars)
    (rev (String.list_ascii_of_string (Jira.strip chars s))) /\
  Jira.strip chars (Jira.strip chars s) = Jira.strip chars s /\
  (starts_clean (String.list_ascii_of_string chars) (String.list_ascii_of_string s) ->
   starts_clean (String.list_ascii_of_string chars) (rev (String.list_ascii_of_string s)) ->
   Jira.strip chars s = s).
Proof.
  set (cs := String.list_ascii_of_string chars).
  unfold Jira.strip. fold cs.
  fold (strip_list cs (String.list_ascii_of_string s)).
  rewrite String.list_ascii_of_string_of_list_ascii.
  destruct (strip_list_clean cs (String.list_ascii_of_string s)) as [H1 H2].
  split; [exact H1|]. split; [exact H2|]. split.
  - fold (strip_list cs (strip_list cs (String.list_ascii_of_string s))).
    now rewrite (strip_list_fixed cs _ H1 H2).
  - intros Hs1 Hs2. rewrite (strip_list_fixed cs _ Hs1 Hs2).
    apply String.string_of_list_ascii_of_string.
Qed.

(** ** get_survey_monkey_data: pages and records *)

Section SurveyPagesFacts.
Import SurveyMonkey.
Variable collector_id : string.
Variable today_date : string.
Variable py_format : pyval -> string.
Variable server : request -> nat -> http_result.
Variable slack_api : string -> nat -> result unit.

(** From [st] to [st'], pages [a] to [a + n - 1] were requested at most once
    each and no other page was requested. *)
Definition pages_within (a n : nat) (st st' : net) : Prop :=
  (forall j, (page_requests j st' <= 1)%nat) /\
  (forall j, (j < a \/ a + n <= j)%nat -> page_requests j st' = page_requests j st).

Lemma page_loop_pages_within (n : nat) :
  forall (a : nat) (acc : list record) (st : net),
    quiet_from a st -> (forall j, (page_requests j st <= 1)%nat) ->
    pages_within a n st
      (page_loop collector_id today_date py_format server slack_api (seq a n) acc st).2.
Proof.
  induction n as [|n IH]; intros a acc st Hq Hle.
  - split; [exact Hle|reflexivity].
  - cbn [seq].
    destruct (page_loop_step collector_id today_date py_format server slack_api
                a (seq (S a) n) acc st) as (st2 & Hone & Hnext).
    assert (Hq2 : quiet_from (S a) st2).
    { intros j Hj. rewrite Hone, Hq by lia. now rewrite decide_False by lia. }
    assert (Hle2 : forall j, (page_requests j st2 <= 1)%nat).
    { intros j. rewrite Hone. destruct (decide (a = j)) as [->|Hne].
      - rewrite Hq by lia. lia.
      - specialize (Hle j). lia. }
    destruct Hnext as [->|[acc' ->]].
    + split; [exact Hle2|]. intros j Hj. rewrite Hone.
      rewrite decide_False by lia. lia.
    + destruct (IH (S a) acc' st2 Hq2 Hle2) as [Hb1 Hb2]. split; [exact Hb1|].
      intros j Hj. rewrite Hb2 by lia. rewrite Hone.
      rewrite decide_False by lia. lia.
Qed.

(** X23: Whatever the remote source answers, one call of the function requests
    each of the pages 1 to 7 at most once and no other page. *)
Theorem each_page_requested_at_most_once (p : nat) :
  (page_requests p
     (get_survey_monkey_data collector_id today_date py_format server slack_api
        {| requests := []; slack := [] |}).2 <= 1)%nat /\
  ((p = 0 \/ 7 < p)%nat ->
   page_requests p
     (get_survey_monkey_data collector_id today_date py_format server slack_api
        {| requests := []; slack := [] |}).2 = 0%nat).
Proof.
  unfold get_survey_monkey_data, try_get, try_connection, s_get.
  generalize (page_loop_pages_within max_page_number 1 []).
  generalize (page_loop collector_id today_date py_format server slack_api
                (seq 1 max_page_number) []).
  intros loop Hloop. unfold max_page_number in Hloop. cbn [requests slack app length].
  assert (H0 : forall sl j, page_requests j {| requests := [Probe]; slack := sl |} = 0%nat)
    by reflexivity.
  assert (Hend : forall st' : net,
             pages_within 1 7 {| requests := [Probe]; slack := [] |} st' ->
             (page_requests p st' <= 1)%nat /\
             ((p = 0 \/ 7 < p)%nat -> page_requests p st' = 0%nat)).
  { intros st' [Hb1 Hb2]. split; [apply Hb1|]. intros Hp. rewrite Hb2 by lia. apply H0. }
  assert (Hstay : forall sl,
             pages_within 1 7 {| requests := [Probe]; slack := [] |}
               {| requests := [Probe]; slack := sl |}).
  { intros sl. split; [intros j; rewrite H0; lia|]. intros j _. now rewrite !H0. }
  destruct (server Probe _) as [|status body].
  - unfold bind, post_message_to_slack. cbn [requests slack].
    destruct (slack_api _ _) as [[]|e]; apply Hend, Hstay.
  - destruct body as [details|e]; [|apply Hend, Hstay].
    unfold bind, lift. cbn [fst snd].
    destruct (py_in "error" details) as [[|]|e].
    + unfold post_message_to_slack. cbn [requests slack].
      destruct (slack_api _ _) as [[]|e]; apply Hend, Hstay.
    + apply Hend, Hloop.
      * intros j _. apply H0.
      * intros j. rewrite H0. lia.
    + apply Hend, Hstay.
Qed.

(** The four fields of a record of the result. *)
Definition record_fields : gset string :=
  list_to_set ["recipient_email"; "message_id"; "recipient_id"; "last_email_status"].

(** A piece of the function that, when it returns, returns the list [acc]
    followed by records with the four fields. *)
Definition grows (acc : list record) (p : prog net (list record)) : Prop :=
  forall st acc' st', p st = (Ok acc', st') ->
    exists more, acc' = acc ++ more /\ Forall (fun r => dom r = record_fields) more.

Lemma grows_ret (acc : list record) : grows acc (ret acc).
Proof.
  intros st acc' st' [= <- _]. exists []. split; [now rewrite app_nil_r|constructor].
Qed.

Lemma grows_ret_snoc (acc : list record) (r : record) :
  dom r = record_fields -> grows acc (ret (acc ++ [r])).
Proof. intros Hr st acc' st' [= <- _]. exists [r]. split; [reflexivity|]. now constructor. Qed.

Lemma grows_bind {A} (acc : list record) (p : prog net A) (k : A -> prog net (list record)) :
  (forall a, grows acc (k a)) -> grows acc (bind p k).
Proof.
  intros Hk st acc' st'. unfold bind.
  destruct (p st) as [[a|e] st1]; [apply Hk|discriminate].
Qed.

Lemma grows_try_connection {A} (acc : list record) (body : prog net A)
    (handler : prog net (list record)) (k : A -> prog net (list record)) :
  grows acc handler -> (forall resp, grows acc (k resp)) ->
  grows acc (try_connection body handler k).
Proof.
  intros Hh Hk st acc' st'. unfold try_connection.
  destruct (body st) as [[resp|e] st1]; [apply Hk|].
  destruct e; try discriminate. apply Hh.
Qed.

Lemma grows_try_get (acc : list record) (r : request) (handler : prog net (list record))
    (k : Z * result pyval -> prog net (list record)) :
  grows acc handler -> (forall resp, grows acc (k resp)) ->
  grows acc (try_get server r handler k).
Proof. apply grows_try_connection. Qed.

Lemma grows_then (acc : list record) (p : prog net (list record))
    (k : list record -> prog net (list record)) :
  grows acc p ->
  (forall more, Forall (fun r => dom r = record_fields) more -> grows (acc ++ more) (k (acc ++ more))) ->
  grows acc (bind p k).
Proof.
  intros Hp Hk st acc' st'. unfold bind.
  destruct (p st) as [[acc1|e] st1] eqn:E; [|discriminate].
  destruct (Hp st acc1 st1 E) as (more & -> & Hmore). intros H.
  destruct (Hk more Hmore st1 acc' st' H) as (more' & -> & Hmore').
  exists (more ++ more'). split; [now rewrite app_assoc|]. now apply Forall_app.
Qed.

Lemma grows_process_message (acc : list record) (email_message : pyval) :
  grows acc (process_message today_date py_format server slack_api acc email_message).
Proof.
  unfold process_message.
  apply grows_bind. intros message_id.
  apply grows_try_get; [apply grows_bind; intros _; apply grows_ret|].
  intros stats_response.
  do 4 (apply grows_bind; intros ?).
  apply grows_try_get; [apply grows_bind; intros _; apply grows_ret|].
  intros recipients_response.
  do 2 (apply grows_bind; intros ?).
  apply grows_ret_snoc.
  unfold py_dict, keys, record_fields. cbn [zip foldl fst snd list_to_set].
  rewrite !dom_insert_L, dom_empty_L. set_solver.
Qed.

Lemma grows_message_loop (messages : list pyval) (acc : list record) :
  grows acc (message_loop today_date py_format server slack_api messages acc).
Proof.
  revert acc. induction messages as [|m messages IH]; intros acc; simpl.
  - apply grows_ret.
  - apply grows_then; [apply grows_process_message|]. intros more _. apply IH.
Qed.

Lemma grows_process_page (details : pyval) (acc : list record) :
  grows acc (process_page today_date py_format server slack_api details acc).
Proof.
  unfold process_page. apply grows_bind. intros [|].
  - do 2 (apply grows_bind; intros ?). apply grows_message_loop.
  - apply grows_ret.
Qed.

Lemma grows_page_loop (pages : list nat) (acc : list record) :
  grows acc (page_loop collector_id today_date py_format server slack_api pages acc).
Proof.
  revert acc. induction pages as [|p pages IH]; intros acc; simpl.
  - apply grows_ret.
  - apply grows_try_connection; [apply grows_bind; intros _; apply IH|].
    intros response.
    destruct (Z.eqb response.1 429); [apply grows_ret|].
    apply grows_bind. intros details.
    apply grows_then; [apply grows_process_page|]. intros more _. apply IH.
Qed.

(** X24: The page loop never drops or reorders what it has gathered: when it
    returns, its result is the list it started from followed by new records,
    and every new record has exactly the four fields. *)
Theorem page_loop_keeps_gathered_records
    (pages : list nat) (acc acc' : list record) (st st' : net) :
  page_loop collector_id today_date py_format server slack_api pages acc st = (Ok acc', st') ->
  exists more, acc' = acc ++ more /\ Forall (fun r => dom r = record_fields) more.
Proof. apply grows_page_loop. Qed.

(** X25: Every record the function returns has exactly the fields
    [recipient_email], [message_id], [recipient_id] and [last_email_status]. *)
Theorem survey_records_have_four_fields (st st' : net) (data : list record) :
  get_survey_monkey_data collector_id today_date py_format server slack_api st = (Ok data, st') ->
  Forall (fun r => dom r = record_fields) data.
Proof.
  intros H.
  assert (Hg : grows [] (get_survey_monkey_data collector_id today_date py_format server slack_api)).
  { unfold get_survey_monkey_data.
    apply grows_try_get; [apply grows_bind; intros _; apply grows_ret|].
    intros response. apply grows_bind. intros details. apply grows_bind. intros [|].
    - apply grows_bind. intros _. apply grows_ret.
    - apply grows_page_loop. }
  destruct (Hg st data st' H) as (more & -> & Hmore). exact Hmore.
Qed.

End SurveyPagesFacts.

(** What the example account yields: the one message of page 1, page 2 being
    throttled. *)
Definition example_survey_run : result (list record) * SurveyMonkey.net :=
  SurveyMonkey.get_survey_monkey_data "1" "January 01, 2020" example_format
    example_server example_slack no_traffic.

Definition example_survey_data : list record :=
  match example_survey_run.1 with Ok data => data | Raise _ => [] end.

Lemma survey_records_have_four_fields_witness :
  length example_survey_data = 1%nat /\
  Forall (fun r => dom r = record_fields) example_survey_data.
Proof.
  split; [vm_compute; exact eq_refl|].
  apply (survey_records_have_four_fields "1" "January 01, 2020" example_format
           example_server example_slack no_traffic example_survey_run.2).
  apply (pair_from_fst example_survey_run). vm_compute; exact eq_refl.
Defined.

Definition example_page_run : result (list record) * SurveyMonkey.net :=
  SurveyMonkey.page_loop "1" "January 01, 2020" example_format example_server
    example_slack [1; 2; 3]%nat [∅] no_traffic.

Definition example_page_data : list record :=
  match example_page_run.1 with Ok data => data | Raise _ => [] end.

Lemma page_loop_keeps_gathered_records_witness :
  length example_page_data = 2%nat /\
  exists more, example_page_data = [∅] ++ more /\
               Forall (fun r => dom r = record_fields) more.
Proof.
  split; [vm_compute; exact eq_refl|].
  apply (page_loop_keeps_gathered_records "1" "January 01, 2020" example_format
           example_server example_slack [1; 2; 3]%nat [∅] example_page_data no_traffic
           example_page_run.2).
  apply (pair_from_fst example_page_run). vm_compute; exact eq_refl.
Defined.
